(** * Read cache, selective invalidation and dashboard statistics

    A shallow embedding of the storefront administration backend:
    the product, user and statistics controllers, the [TryCatch]
    middleware, the process-wide cache they share, and the month-over-month
    percentage computation.

    Conventions of the embedding:
    - a finite JavaScript [number] is the rational ([Q]) it is; the
      additions of the statistics and the numbers read from strings
      are rounded to doubles as IEEE 754 rounds; the percentage
      calculator, which is not among the sources, and the pagination
      compute exactly;
    - a string is the UTF-8 encoding of the JavaScript string;
    - a [Date] is its time value, milliseconds since the epoch ([Z]),
      and local time is UTC;
    - a controller is a function on an explicit [World] that holds the
      cache, the three collections, the clock, the set of queries the
      data source currently rejects, the log of queries issued and the
      record of the calls of the invalidation coordinator;
    - an exception thrown inside a controller is the left injection of the
      result, which [TryCatch] turns into a call to [next]. *)

From Stdlib Require Import ZArith QArith Qround Qabs Qreduction Lqa String Ascii List Lia.
From Stdlib Require Floats.SpecFloat.
From stdpp Require Import base option list sorting gmap strings.
Import ListNotations.

Local Open Scope string_scope.
Local Open Scope Z_scope.

(** ** JSON values *)

(** The values [JSON.parse] can produce.  An object is the sequence of its
    own properties in insertion order. *)
#[warnings="-register-all"]
Inductive Json : Type :=
| JNull
| JBool (b : bool)
| JNum (q : Q)
| JStr (s : string)
| JArr (items : list Json)
| JObj (fields : list (string * Json)).

(** [JSON.stringify] and [JSON.parse] are built-ins of the runtime; the
    controllers rely on one property of the pair only, that parsing a
    text written by [JSON.stringify] gives the value back.  [JSON_parse]
    answers [None] where the built-in throws a [SyntaxError]. *)
Class JsonCodec : Type := {
  JSON_stringify : Json -> string;
  JSON_parse : string -> option Json;
  JSON_parse_stringify : forall v : Json, JSON_parse (JSON_stringify v) = Some v
}.

(** JavaScript truthiness of a parsed value ([product ? a : b]). *)
Definition truthy (v : Json) : bool :=
  match v with
  | JNull => false
  | JBool b => b
  | JNum q => negb (Qeq_bool q 0)
  | JStr s => negb (String.eqb s "")
  | JArr _ | JObj _ => true
  end.

(** ** CacheStore *)

Module CacheStore.

(** Modelled from the spec: [utils/nodeCache.ts], which creates the
    process-wide [nodeCache] instance, is not among the sources.  The
    store is a mapping from keys to serialized payloads with presence
    check, read, insert-or-overwrite and idempotent removal, and no
    expiry. *)
Definition has (k : string) (c : gmap string string) : bool :=
  bool_decide (is_Some (c !! k)).

Definition get (k : string) (c : gmap string string) : option string :=
  c !! k.

Definition set (k v : string) (c : gmap string string) : gmap string string :=
  <[k := v]> c.

Definition del (k : string) (c : gmap string string) : gmap string string :=
  delete k c.

Definition deleteMany (ks : list string) (c : gmap string string)
  : gmap string string :=
  fold_left (fun acc k => del k acc) ks c.

End CacheStore.

(** ** InvalidationCoordinator *)

Inductive EntityKind : Type := Product | Order | User.

Record InvalidationRequest : Type := {
  entityKind : EntityKind;
  entityId : option string
}.

(** The key of the per-product detail entry, [`product-${id}`]. *)
Definition productKey (id : string) : string := "product-" +:+ id.

(** Modelled from the spec: [invalidateCache] lives in
    [utils/nodeCache.ts], which is not among the sources.  The policy
    table: a product write purges the three derived product views and the
    statistics, plus the detail entry of the product when its id is given;
    an order or a user write purges the statistics. *)
Definition keysToPurge (r : InvalidationRequest) : list string :=
  match entityKind r with
  | Product =>
      ["latestProducts"; "categories"; "admin-products"; "admin-stats"]
      ++ match entityId r with
         | Some id => [productKey id]
         | None => []
         end
  | Order => ["admin-stats"]
  | User => ["admin-stats"]
  end.

(** The effect of the coordinator on the cache. *)
Definition invalidate (r : InvalidationRequest) (c : gmap string string)
  : gmap string string :=
  CacheStore.deleteMany (keysToPurge r) c.

(** ** PercentageCalculator *)

Local Open Scope Q_scope.

(** The nearest hundredth, a tie going up. *)
Definition roundToHundredths (x : Q) : Q :=
  Qmake (Qfloor (x * 100 + (1 # 2))) 100.

(** Modelled from the spec: [utils/calculatePercentage.ts] is not among
    the sources.  A zero baseline reports the current value scaled by 100;
    otherwise the relative change in percent, rounded to two decimal
    places. *)
Definition calculatePercentage (current previous : Q) : Q :=
  if Qeq_bool previous 0 then current * 100
  else roundToHundredths (((current - previous) / previous) * 100).

Local Close Scope Q_scope.

(** ** JavaScript numbers *)

(** A number of JavaScript other than [NaN]: a finite double, given as
    the rational it is, or an infinity.  The rationals of the model
    stand for doubles; where the code adds two of them, or reads one
    from a text, the result is rounded as IEEE 754 rounds it. *)
Inductive JsNumber : Type :=
| Finite (q : Q)
| Infinite (negative : bool).

(** [2^e], for an exponent of either sign. *)
Definition pow2 (e : Z) : Q :=
  match e with
  | Zneg p => 1 # (2 ^ p)
  | _ => inject_Z (2 ^ e)
  end.

(** The integer nearest to [q]; the even one of the two when [q] lies
    half way between them. *)
Definition roundHalfEven (q : Q) : Z :=
  let f := Qfloor q in
  match (q - inject_Z f ?= 1 # 2)%Q with
  | Lt => f
  | Gt => f + 1
  | Eq => if Z.even f then f else f + 1
  end.

(** The exponent [e] with [2^e <= q < 2^(e+1)], for [q > 0]. *)
Definition ilog2 (q : Q) : Z :=
  let e := Z.log2 (Qnum q) - Z.log2 (Zpos (Qden q)) in
  if Qle_bool (pow2 e) q then e else e - 1.

(** The double nearest to a rational, ties to even (binary64: 53
    significant bits, the least exponent that of the subnormals, an
    infinity from [2^1024] on). *)
Definition roundDouble (q : Q) : JsNumber :=
  let q := Qred q in
  if Qeq_bool q 0 then Finite 0
  else
    let a := Qabs q in
    let u := Z.max (ilog2 a - 52) (-1074) in
    let m := roundHalfEven (a / pow2 u) in
    let r := (inject_Z m * pow2 u)%Q in
    if Qle_bool (pow2 1024) r then Infinite (Qnum q <? 0)
    else Finite (Qred (if Qnum q <? 0 then - r else r)).

(** [x + y] on two finite doubles. *)
Definition jsAdd (x y : Q) : JsNumber := roundDouble (x + y).

(** What [JSON.stringify] makes of a number: an infinity becomes
    [null]. *)
Definition numberToJSON (n : JsNumber) : Json :=
  match n with
  | Finite q => JNum q
  | Infinite _ => JNull
  end.

(** ** Dates *)

Definition msPerDay : Z := 86400000.

(** Days since the epoch of the civil date [y]-[m]-[d], [m] from 1 to 12,
    in the proleptic Gregorian calendar. *)
Definition daysFromCivil (y m d : Z) : Z :=
  let y' := if m <=? 2 then y - 1 else y in
  let era := y' / 400 in
  let yoe := y' - era * 400 in
  let mp := if 2 <? m then m - 3 else m + 9 in
  let doy := (153 * mp + 2) / 5 + d - 1 in
  let doe := yoe * 365 + yoe / 4 - yoe / 100 + doy in
  era * 146097 + doe - 719468.

(** The civil date (year, month from 1 to 12, day) of a day number. *)
Definition civilFromDays (z : Z) : Z * Z * Z :=
  let z' := z + 719468 in
  let era := z' / 146097 in
  let doe := z' - era * 146097 in
  let yoe := (doe - doe / 1460 + doe / 36524 - doe / 146096) / 365 in
  let doy := doe - (365 * yoe + yoe / 4 - yoe / 100) in
  let mp := (5 * doy + 2) / 153 in
  let d := doy - (153 * mp + 2) / 5 + 1 in
  let m := if mp <? 10 then mp + 3 else mp - 9 in
  (if m <=? 2 then yoe + era * 400 + 1 else yoe + era * 400, m, d).

(** ECMAScript [MakeDay]: a month index outside 0..11 carries into the
    year, and the day of the month is an offset from the first, so day 0
    is the day before the first of the month. *)
Definition MakeDay (year month date : Z) : Z :=
  daysFromCivil (year + month / 12) (month mod 12 + 1) 1 + date - 1.

(** [new Date(year, monthIndex, day)]: midnight at the start of that day.
    A year from 0 to 99 stands for 1900 + year. *)
Definition newDate (year monthIndex day : Z) : Z :=
  let yr := if (0 <=? year) && (year <=? 99) then 1900 + year else year in
  MakeDay yr monthIndex day * msPerDay.

Definition getFullYear (t : Z) : Z :=
  let '(y, _, _) := civilFromDays (t / msPerDay) in y.

(** [Date.prototype.getMonth]: the month index, from 0 to 11. *)
Definition getMonth (t : Z) : Z :=
  let '(_, m, _) := civilFromDays (t / msPerDay) in m - 1.

Definition digitChar (n : Z) : ascii := ascii_of_nat (48 + Z.to_nat (n mod 10)).

Fixpoint padded (width : nat) (n : Z) (acc : string) : string :=
  match width with
  | O => acc
  | S w => padded w (n / 10) (String (digitChar n) acc)
  end.

(** [Date.prototype.toISOString], the form [JSON.stringify] gives a date. *)
Definition toISOString (t : Z) : string :=
  let '(y, m, d) := civilFromDays (t / msPerDay) in
  let ms := t mod msPerDay in
  let year :=
    if (0 <=? y) && (y <=? 9999) then padded 4 y ""
    else (if y <? 0 then "-" else "+") +:+ padded 6 (Z.abs y) "" in
  year +:+ "-" +:+ padded 2 m "" +:+ "-" +:+ padded 2 d ""
  +:+ "T" +:+ padded 2 (ms / 3600000) "" +:+ ":" +:+ padded 2 (ms / 60000 mod 60) ""
  +:+ ":" +:+ padded 2 (ms / 1000 mod 60) "" +:+ "." +:+ padded 3 (ms mod 1000) ""
  +:+ "Z".

(** ** Documents *)

(** Modelled from the spec: [models/productModel.ts] is not among the
    sources.  The fields are those of [NewProductRequestBody], which the
    create controller forwards, the identifier and the timestamps the
    queries filter and sort on. *)
Record ProductDoc : Type := {
  p_id : string;
  p_name : string;
  p_image : option string;
  p_category : string;
  p_price : Q;
  p_stock : Q;
  p_createdAt : Z;
  p_updatedAt : Z
}.

(** [models/userModal.ts]: the stored fields of [userSchema] with its
    timestamps.  The virtual [age] is not a stored field. *)
Record UserDoc : Type := {
  u_id : string;
  u_name : string;
  u_email : string;
  u_image : string;
  u_role : string;
  u_dob : Z;
  u_gender : string;
  u_createdAt : Z;
  u_updatedAt : Z
}.

(** Modelled from the spec: [models/orderModel.ts] is not among the
    sources.  The statistics read two fields of an order: [createdAt],
    and [total], which may be missing. *)
Record OrderDoc : Type := {
  o_id : string;
  o_total : option Q;
  o_createdAt : Z
}.

Definition jnat (n : nat) : Json := JNum (inject_Z (Z.of_nat n)).

Definition jdate (t : Z) : Json := JStr (toISOString t).

(** The JSON form of a product document, as [res.json] and
    [JSON.stringify] emit it. *)
Definition productToJSON (p : ProductDoc) : Json :=
  JObj ([("_id", JStr (p_id p)); ("name", JStr (p_name p))]
        ++ match p_image p with
           | Some path => [("image", JStr path)]
           | None => []
           end
        ++ [("category", JStr (p_category p)); ("price", JNum (p_price p));
            ("stock", JNum (p_stock p)); ("createdAt", jdate (p_createdAt p));
            ("updatedAt", jdate (p_updatedAt p)); ("__v", jnat 0)]).

Definition userToJSON (u : UserDoc) : Json :=
  JObj [("_id", JStr (u_id u)); ("name", JStr (u_name u));
        ("email", JStr (u_email u)); ("image", JStr (u_image u));
        ("role", JStr (u_role u)); ("dob", jdate (u_dob u));
        ("gender", JStr (u_gender u)); ("createdAt", jdate (u_createdAt u));
        ("updatedAt", jdate (u_updatedAt u)); ("__v", jnat 0)].

(** ** Requests *)

(** [NewProductRequestBody] of [types/types.ts]. *)
Record NewProductRequestBody : Type := {
  np_name : string;
  np_category : string;
  np_price : Q;
  np_stock : Q
}.

(** The fields [Product.create] is called with. *)
Record ProductFields : Type := {
  pf_name : string;
  pf_image : option string;
  pf_category : string;
  pf_price : Q;
  pf_stock : Q
}.

(** [NewUserRequestBody] of [types/types.ts]. *)
Record NewUserRequestBody : Type := {
  nu_id : string;
  nu_name : string;
  nu_email : string;
  nu_image : string;
  nu_dob : Z;
  nu_gender : string
}.

(** ** The document-query interface *)

(** The queries the controllers issue, one constructor per call shape. *)
Inductive Query : Type :=
| Product_find_createdAt (gt lte : Z)
| User_find_createdAt (gte lte : Z)
| Order_find_createdAt (gte lte : Z)
| Product_countDocuments
| User_countDocuments
| Order_find_select_total
| Product_find_latest (limit : nat)
| Product_distinct_category
| Product_find_sorted
| Product_findById (id : string)
| Product_create (fields : ProductFields)
| Product_findByIdAndUpdate (id : string) (updates : list (string * Json))
| Product_findByIdAndDelete (id : string)
| User_findById (id : string)
| User_create (body : NewUserRequestBody)
| User_find.

(** Modelled from the spec: [utils/utility-class.ts] is not among the
    sources; the controllers build an [ErrorHandler] from a message and a
    status code.  The other errors are the rejection of a query by the
    data source and the two exceptions of the runtime the controllers can
    meet. *)
Inductive Error : Type :=
| ErrorHandler (message : string) (statusCode : nat)
| DataSourceFailure (q : Query)
| SyntaxError
| TypeError.

(** ** The world *)

Record World : Type := {
  nodeCache : gmap string string;
  products : list ProductDoc;
  users : list UserDoc;
  orders : list OrderDoc;
  clock : Z;
  objectIds : nat -> string;
  generated : nat;
  rejected : Query -> bool;
  issued : list Query;
  invalidations : list InvalidationRequest
}.

Definition withCache (c : gmap string string) (w : World) : World :=
  {| nodeCache := c; products := products w; users := users w;
     orders := orders w; clock := clock w; objectIds := objectIds w;
     generated := generated w; rejected := rejected w; issued := issued w;
     invalidations := invalidations w |}.

Definition withProducts (ps : list ProductDoc) (w : World) : World :=
  {| nodeCache := nodeCache w; products := ps; users := users w;
     orders := orders w; clock := clock w; objectIds := objectIds w;
     generated := generated w; rejected := rejected w; issued := issued w;
     invalidations := invalidations w |}.

Definition withUsers (us : list UserDoc) (w : World) : World :=
  {| nodeCache := nodeCache w; products := products w; users := us;
     orders := orders w; clock := clock w; objectIds := objectIds w;
     generated := generated w; rejected := rejected w; issued := issued w;
     invalidations := invalidations w |}.

Definition withGenerated (n : nat) (w : World) : World :=
  {| nodeCache := nodeCache w; products := products w; users := users w;
     orders := orders w; clock := clock w; objectIds := objectIds w;
     generated := n; rejected := rejected w; issued := issued w;
     invalidations := invalidations w |}.

Definition logQuery (q : Query) (w : World) : World :=
  {| nodeCache := nodeCache w; products := products w; users := users w;
     orders := orders w; clock := clock w; objectIds := objectIds w;
     generated := generated w; rejected := rejected w;
     issued := issued w ++ [q]; invalidations := invalidations w |}.

Definition noteInvalidation (r : InvalidationRequest) (w : World) : World :=
  {| nodeCache := nodeCache w; products := products w; users := users w;
     orders := orders w; clock := clock w; objectIds := objectIds w;
     generated := generated w; rejected := rejected w; issued := issued w;
     invalidations := invalidations w ++ [r] |}.

(** ** Controllers as state transformers *)

(** A computation either leaves the covered fragment of JavaScript
    ([None]), or ends in a world with a value or a thrown error. *)
Definition M (A : Type) : Type := World -> option ((Error + A) * World).

Definition ret {A : Type} (a : A) : M A := fun w => Some (inr a, w).

Definition throw {A : Type} (e : Error) : M A := fun w => Some (inl e, w).

Definition uncovered {A : Type} : M A := fun _ => None.

Definition bind {A B : Type} (m : M A) (k : A -> M B) : M B :=
  fun w =>
    match m w with
    | Some (inr a, w') => k a w'
    | Some (inl e, w') => Some (inl e, w')
    | None => None
    end.

Declare Scope ctl_scope.
Delimit Scope ctl_scope with ctl.
Notation "x <- m ;; k" := (bind m (fun x => k))
  (at level 100, m at next level, right associativity) : ctl_scope.
Notation "m ;; k" := (bind m (fun _ => k))
  (at level 100, right associativity) : ctl_scope.

Definition getWorld : M World := fun w => Some (inr w, w).

Definition modifyCache (f : gmap string string -> gmap string string) : M unit :=
  fun w => Some (inr tt, withCache (f (nodeCache w)) w).

(** [await invalidateCache(request)]: a call of the coordinator.  The
    world keeps the request in its record of the calls, and the cache
    loses the keys the policy names. *)
Definition invalidateCache (r : InvalidationRequest) : M unit :=
  fun w =>
    Some (inr tt,
          noteInvalidation r (withCache (invalidate r (nodeCache w)) w)).

(** A settled promise: rejected with an error or fulfilled with a value. *)
Definition Settled (A : Type) : Type := (Error + A)%type.

(** Issuing a query records it; the data source rejects it when the
    world says so, and otherwise runs it. *)
Definition issue {A : Type} (q : Query) (run : World -> Settled A * World)
  : M (Settled A) :=
  fun w =>
    let w' := logQuery q w in
    if rejected w q then Some (inr (inl (DataSourceFailure q)), w')
    else let '(r, w'') := run w' in Some (inr r, w'').

(** A read-only query. *)
Definition reading {A : Type} (answer : World -> A) (w : World)
  : Settled A * World := (inr (answer w), w).

(** How a read-only query with answer [a] settles in world [w]. *)
Definition settled {A : Type} (w : World) (q : Query) (a : A) : Settled A :=
  if rejected w q then inl (DataSourceFailure q) else inr a.

(** [await p]: the value of a fulfilled promise; a rejected one throws. *)
Definition await {A : Type} (p : Settled A) : M A :=
  match p with
  | inl e => throw e
  | inr a => ret a
  end.

(** The pairwise step of [Promise.all]: fulfilled when both are, rejected
    with the error of a rejected one otherwise.  When more than one
    promise rejects, [Promise.all] reports the one that rejects first in
    time; the model has no clock for the data source and takes the first
    in the order of the arguments, and no statement says which rejected
    query is the one reported. *)
Definition both {A B : Type} (x : Settled A) (y : Settled B) : Settled (A * B) :=
  match x, y with
  | inr a, inr b => inr (a, b)
  | inl e, _ => inl e
  | inr _, inl e => inl e
  end.

(** ** Strings *)

(** A string of the model is the UTF-8 encoding of the string of
    JavaScript, byte by byte. *)
Definition inRange (lo hi c : ascii) : bool :=
  (nat_of_ascii lo <=? nat_of_ascii c)%nat && (nat_of_ascii c <=? nat_of_ascii hi)%nat.

Definition isByte (n : nat) (c : ascii) : bool := (nat_of_ascii c =? n)%nat.

(** The white space and the line terminators of JavaScript, which [trim]
    removes and [Number] skips: TAB, LF, VT, FF, CR and the space; *)
Definition isSpace1 (c : ascii) : bool :=
  let n := nat_of_ascii c in
  ((9 <=? n)%nat && (n <=? 13)%nat) || (n =? 32)%nat.

(** U+00A0; *)
Definition isSpace2 (c1 c2 : ascii) : bool := isByte 194 c1 && isByte 160 c2.

(** U+1680, U+2000 to U+200A, U+2028, U+2029, U+202F, U+205F, U+3000
    and U+FEFF. *)
Definition isSpace3 (c1 c2 c3 : ascii) : bool :=
  let n3 := nat_of_ascii c3 in
  (isByte 225 c1 && isByte 154 c2 && isByte 128 c3)
  || (isByte 226 c1 && isByte 128 c2
      && (((128 <=? n3)%nat && (n3 <=? 138)%nat)
          || isByte 168 c3 || isByte 169 c3 || isByte 175 c3))
  || (isByte 226 c1 && isByte 129 c2 && isByte 159 c3)
  || (isByte 227 c1 && isByte 128 c2 && isByte 128 c3)
  || (isByte 239 c1 && isByte 187 c2 && isByte 191 c3).

(** [String.prototype.trimStart] *)
Fixpoint trimStart (s : string) : string :=
  match s with
  | EmptyString => s
  | String c1 rest1 =>
      if isSpace1 c1 then trimStart rest1
      else
        match rest1 with
        | EmptyString => s
        | String c2 rest2 =>
            if isSpace2 c1 c2 then trimStart rest2
            else
              match rest2 with
              | EmptyString => s
              | String c3 rest3 =>
                  if isSpace3 c1 c2 c3 then trimStart rest3 else s
              end
        end
  end.

(** [String.prototype.trimEnd]: the string is cut where what follows is
    white space only. *)
Fixpoint trimEnd (s : string) : string :=
  match s with
  | EmptyString => s
  | String c rest =>
      if String.eqb (trimStart s) "" then "" else String c (trimEnd rest)
  end.

(** [String.prototype.trim] *)
Definition trim (s : string) : string := trimEnd (trimStart s).

(** [String.prototype.toLowerCase].  The letters A to Z and the Kelvin
    sign (U+212A, whose lower case is [k]) are the only characters with
    a lower case in ASCII; every other character outside ASCII is left
    as it is here, where JavaScript may give another character outside
    ASCII.  The one use, on the email of a user, is followed by a
    validator that refuses every string with a character outside ASCII,
    so that no stored value depends on the difference. *)
Fixpoint toLowerCase (s : string) : string :=
  match s with
  | EmptyString => s
  | String c1 rest1 =>
      if inRange "A" "Z" c1
      then String (ascii_of_nat (nat_of_ascii c1 + 32)) (toLowerCase rest1)
      else
        match rest1 with
        | String c2 (String c3 rest3) =>
            if isByte 226 c1 && isByte 132 c2 && isByte 170 c3
            then String "k" (toLowerCase rest3)
            else String c1 (toLowerCase rest1)
        | _ => String c1 (toLowerCase rest1)
        end
  end.

(** ** Numbers read from strings *)

(** [10^e], for an exponent of either sign. *)
Definition pow10 (e : Z) : Q :=
  match e with
  | Zneg p => 1 # (10 ^ p)
  | _ => inject_Z (10 ^ e)
  end.

Definition isDigit (c : ascii) : bool := inRange "0" "9" c.

Definition digitValue (c : ascii) : Z := Z.of_nat (nat_of_ascii c) - 48.

(** The decimal digits at the start of [s]: their value after [value],
    their number after [count], and what follows them. *)
Fixpoint decimalDigits (s : string) (value count : Z) : Z * Z * string :=
  match s with
  | String c rest =>
      if isDigit c then decimalDigits rest (10 * value + digitValue c) (count + 1)
      else (value, count, s)
  | EmptyString => (value, count, s)
  end.

(** The value of a digit in a base up to 16. *)
Definition digitIn (base : Z) (c : ascii) : option Z :=
  let n := Z.of_nat (nat_of_ascii c) in
  let d := if isDigit c then n - 48
           else if inRange "a" "f" c then n - 87
           else if inRange "A" "F" c then n - 55
           else 16 in
  if d <? base then Some d else None.

(** A string of digits of a base, all of it. *)
Fixpoint integerIn (base : Z) (s : string) (value : Z) : option Z :=
  match s with
  | EmptyString => Some value
  | String c rest =>
      match digitIn base c with
      | Some d => integerIn base rest (base * value + d)
      | None => None
      end
  end.

(** [0x], [0o] and [0b] literals: [None] when [s] has no such prefix,
    [Some None] when the prefix is not followed by digits of the base
    alone. *)
Definition nonDecimalLiteral (s : string) : option (option Z) :=
  match s with
  | String "0" (String x digits) =>
      let base := if Ascii.eqb x "x" || Ascii.eqb x "X" then Some 16
                  else if Ascii.eqb x "o" || Ascii.eqb x "O" then Some 8
                  else if Ascii.eqb x "b" || Ascii.eqb x "B" then Some 2
                  else None in
      match base with
      | Some b =>
          match digits with
          | EmptyString => Some None
          | _ => Some (integerIn b digits 0)
          end
      | None => None
      end
  | _ => None
  end.

(** The exponent part that ends a decimal literal, absent or [e] or [E]
    with a signed integer: its value, or [None] when [s] is neither. *)
Definition exponentPart (s : string) : option Z :=
  match s with
  | EmptyString => Some 0
  | String c rest =>
      if Ascii.eqb c "e" || Ascii.eqb c "E" then
        let '(negative, digits) :=
          match rest with
          | String "-" r => (true, r)
          | String "+" r => (false, r)
          | _ => (false, rest)
          end in
        match decimalDigits digits 0 0 with
        | (value, count, EmptyString) =>
            if 0 <? count then Some (if negative then - value else value) else None
        | _ => None
        end
      else None
  end.

(** An unsigned decimal literal: digits, a point and digits (digits on
    one side of the point at least), an exponent part. *)
Definition unsignedDecimal (s : string) : option Q :=
  let '(whole, wholeCount, afterWhole) := decimalDigits s 0 0 in
  let '(mantissa, fractionCount, afterFraction) :=
    match afterWhole with
    | String "." fraction => decimalDigits fraction whole 0
    | _ => (whole, 0, afterWhole)
    end in
  if 0 <? wholeCount + fractionCount then
    match exponentPart afterFraction with
    | Some e => Some (inject_Z mantissa * pow10 (e - fractionCount))%Q
    | None => None
    end
  else None.

(** A decimal literal with its sign, or [Infinity] with its sign. *)
Definition strDecimalLiteral (s : string) : option JsNumber :=
  let '(negative, body) :=
    match s with
    | String "-" r => (true, r)
    | String "+" r => (false, r)
    | _ => (false, s)
    end in
  if String.eqb body "Infinity" then Some (Infinite negative)
  else
    match unsignedDecimal body with
    | Some q => Some (roundDouble (if negative then - q else q))
    | None => None
    end.

(** [Number(s)] for a string: [None] is [NaN].  White space around the
    literal is skipped, and a string of white space alone is 0. *)
Definition stringToNumber (s : string) : option JsNumber :=
  let literal := trim s in
  if String.eqb literal "" then Some (Finite 0)
  else
    match nonDecimalLiteral literal with
    | Some (Some n) => Some (roundDouble (inject_Z n))
    | Some None => None
    | None => strDecimalLiteral literal
    end.

(** ** The user schema *)

(** [models/userModal.ts]: the validator of the email path, and the
    document the setters and the defaults of the schema make of a
    request. *)
Definition isAlphaNum (c : ascii) : bool :=
  inRange "a" "z" c || inRange "A" "Z" c || inRange "0" "9" c.

(** The class [[a-zA-Z0-9+_.-]]. *)
Definition isLocalChar (c : ascii) : bool :=
  isAlphaNum c || Ascii.eqb c "+" || Ascii.eqb c "_" || Ascii.eqb c "."
  || Ascii.eqb c "-".

(** The class [[a-zA-Z0-9.-]]. *)
Definition isDomainChar (c : ascii) : bool :=
  isAlphaNum c || Ascii.eqb c "." || Ascii.eqb c "-".

(** [[a-zA-Z0-9.-]+$], [seen] telling whether a character of the class
    has been read. *)
Fixpoint matchDomain (s : string) (seen : bool) : bool :=
  match s with
  | EmptyString => seen
  | String c rest => isDomainChar c && matchDomain rest true
  end.

(** [[a-zA-Z0-9+_.-]+@] followed by the domain, [seen] telling whether a
    character of the class has been read. *)
Fixpoint matchLocal (s : string) (seen : bool) : bool :=
  match s with
  | EmptyString => false
  | String c rest =>
      if isLocalChar c then matchLocal rest true
      else seen && Ascii.eqb c "@" && matchDomain rest false
  end.

(** The validator of the [email] path:
    [/^[a-zA-Z0-9+_.-]+@[a-zA-Z0-9.-]+$/.test(value)]. *)
Definition emailValidator (value : string) : bool := matchLocal value false.

Fixpoint allChars (p : ascii -> bool) (s : string) : bool :=
  match s with
  | EmptyString => true
  | String c rest => p c && allChars p rest
  end.

(** The document [UserModal.create] stores for a request body at a given
    time: the setters of [userSchema] trim the name and trim and
    lower-case the email, and the role takes its default. *)
Definition newUserDoc (b : NewUserRequestBody) (now : Z) : UserDoc :=
  {| u_id := nu_id b; u_name := trim (nu_name b);
     u_email := toLowerCase (trim (nu_email b));
     u_image := nu_image b; u_role := "user"; u_dob := nu_dob b;
     u_gender := nu_gender b; u_createdAt := now; u_updatedAt := now |}.

(** ** The models *)

Fixpoint insertDesc {A : Type} (key : A -> Z) (x : A) (l : list A) : list A :=
  match l with
  | [] => [x]
  | y :: l' => if key y <=? key x then x :: l else y :: insertDesc key x l'
  end.

(** [.sort({createdAt: -1})]: newest first. *)
Definition sortDesc {A : Type} (key : A -> Z) (l : list A) : list A :=
  fold_right (insertDesc key) [] l.

Module ProductModel.

(** The documents created after [gt] and no later than [lte], newest
    first. *)
Definition createdIn (gt lte : Z) (ps : list ProductDoc) : list ProductDoc :=
  sortDesc p_createdAt
    (List.filter (fun p => (gt <? p_createdAt p) && (p_createdAt p <=? lte)) ps).

(** [Product.find({createdAt: {$gt, $lte}}).sort({createdAt: -1})] *)
Definition find_createdAt (gt lte : Z) : M (Settled (list ProductDoc)) :=
  issue (Product_find_createdAt gt lte)
    (reading (fun w => createdIn gt lte (products w))).

Definition countDocuments : M (Settled nat) :=
  issue Product_countDocuments (reading (fun w => length (products w))).

(** [Product.find({}).sort({createdAt: -1}).limit(n)] *)
Definition find_latest (n : nat) : M (Settled (list ProductDoc)) :=
  issue (Product_find_latest n)
    (reading (fun w => firstn n (sortDesc p_createdAt (products w)))).

(** [Product.find({}).sort({createdAt: -1})] *)
Definition find_sorted : M (Settled (list ProductDoc)) :=
  issue Product_find_sorted
    (reading (fun w => sortDesc p_createdAt (products w))).

(** [Product.distinct("category")] *)
Definition distinct_category : M (Settled (list string)) :=
  issue Product_distinct_category
    (reading (fun w => remove_dups (map p_category (products w)))).

Definition lookup (id : string) (ps : list ProductDoc) : option ProductDoc :=
  List.find (fun p => String.eqb (p_id p) id) ps.

(** [Product.findById({_id: id})]: the document, or [null]. *)
Definition findById (id : string) : M (Settled (option ProductDoc)) :=
  issue (Product_findById id) (reading (fun w => lookup id (products w))).

(** [Product.create(fields)]: the document gets a fresh identifier and
    the current time as both timestamps; an identifier already in the
    collection is refused by its unique index. *)
Definition create (f : ProductFields) : M (Settled ProductDoc) :=
  issue (Product_create f)
    (fun w =>
       let id := objectIds w (generated w) in
       let w' := withGenerated (S (generated w)) w in
       let doc := {| p_id := id; p_name := pf_name f; p_image := pf_image f;
                     p_category := pf_category f; p_price := pf_price f;
                     p_stock := pf_stock f; p_createdAt := clock w;
                     p_updatedAt := clock w |} in
       match lookup id (products w) with
       | Some _ => (inl (DataSourceFailure (Product_create f)), w')
       | None => (inr doc, withProducts (products w ++ [doc]) w')
       end).

(** [Product.findByIdAndDelete({_id: id})]: removes the document and
    answers it, or answers [null]. *)
Definition findByIdAndDelete (id : string) : M (Settled (option ProductDoc)) :=
  issue (Product_findByIdAndDelete id)
    (fun w =>
       match lookup id (products w) with
       | Some doc =>
           (inr (Some doc),
            withProducts
              (List.filter (fun p => negb (String.eqb (p_id p) id)) (products w)) w)
       | None => (inr None, w)
       end).

(** A document with some of its fields replaced. *)
Definition amend (d : ProductDoc) (name : option string) (image : option string)
  (category : option string) (price stock : option Q) : ProductDoc :=
  {| p_id := p_id d;
     p_name := default (p_name d) name;
     p_image := match image with Some path => Some path | None => p_image d end;
     p_category := default (p_category d) category;
     p_price := default (p_price d) price;
     p_stock := default (p_stock d) stock;
     p_createdAt := p_createdAt d;
     p_updatedAt := p_updatedAt d |}.

Definition touch (now : Z) (d : ProductDoc) : ProductDoc :=
  {| p_id := p_id d; p_name := p_name d; p_image := p_image d;
     p_category := p_category d; p_price := p_price d; p_stock := p_stock d;
     p_createdAt := p_createdAt d; p_updatedAt := now |}.

(** What Mongoose makes of a value it is to store under a path: the
    value of the path's type, a [CastError], or a case the model does
    not cover. *)
Inductive Cast (A : Type) : Type :=
| Cast_value (a : A)
| Cast_error
| Cast_uncovered.

Arguments Cast_value {A} a.
Arguments Cast_error {A}.
Arguments Cast_uncovered {A}.

Definition castMap {A B : Type} (f : A -> B) (c : Cast A) : Cast B :=
  match c with
  | Cast_value a => Cast_value (f a)
  | Cast_error => Cast_error
  | Cast_uncovered => Cast_uncovered
  end.

(** The cast of a [Number] path.  A number is kept.  A string other than
    the empty one is read by [Number], and [NaN] is a [CastError].  Not
    covered: what the document of the model cannot hold ([null], which
    is also what the empty string becomes, and the infinities), and the
    values a multipart form or a typed JSON client does not send for a
    number (booleans, arrays, objects). *)
Definition castNumber (v : Json) : Cast Q :=
  match v with
  | JNum q => Cast_value q
  | JStr s =>
      if String.eqb s "" then Cast_uncovered
      else
        match stringToNumber s with
        | Some (Finite q) => Cast_value q
        | Some (Infinite _) => Cast_uncovered
        | None => Cast_error
        end
  | _ => Cast_uncovered
  end.

(** The cast of a [String] path: a string is kept; other values are not
    covered. *)
Definition castString (v : Json) : Cast string :=
  match v with
  | JStr s => Cast_value s
  | _ => Cast_uncovered
  end.

(** One assignment of an update, as a change of the document. *)
Definition castUpdate (k : string) (v : Json) : Cast (ProductDoc -> ProductDoc) :=
  if String.eqb k "name"
  then castMap (fun s d => amend d (Some s) None None None None) (castString v)
  else if String.eqb k "category"
  then castMap (fun s d => amend d None None (Some s) None None) (castString v)
  else if String.eqb k "image"
  then castMap (fun s d => amend d None (Some s) None None None) (castString v)
  else if String.eqb k "price"
  then castMap (fun q d => amend d None None None (Some q) None) (castNumber v)
  else if String.eqb k "stock"
  then castMap (fun q d => amend d None None None None (Some q)) (castNumber v)
  else Cast_uncovered.

(** The assignments of an update, one after the other. *)
Fixpoint castUpdates (updates : list (string * Json))
  : Cast (ProductDoc -> ProductDoc) :=
  match updates with
  | [] => Cast_value (fun d => d)
  | (k, v) :: rest =>
      match castUpdate k v with
      | Cast_value assign =>
          castMap (fun assignRest d => assignRest (assign d)) (castUpdates rest)
      | Cast_error => Cast_error
      | Cast_uncovered => Cast_uncovered
      end
  end.

(** [Product.findByIdAndUpdate({_id: id}, updates, {new: true, ...})]:
    the update is cast first, and a [CastError] rejects the query; then
    the document is updated, with the time as [updatedAt], and answered,
    or [null] is answered when there is none with that id.  The schema
    of the products is not among the sources: whether its validators
    accept the update is the data source's answer ([rejected]). *)
Definition findByIdAndUpdate (id : string) (updates : list (string * Json))
  : M (Settled (option ProductDoc)) :=
  let q := Product_findByIdAndUpdate id updates in
  match castUpdates updates with
  | Cast_uncovered => uncovered
  | Cast_error => issue q (fun w => (inl (DataSourceFailure q), w))
  | Cast_value assign =>
      issue q
        (fun w =>
           match lookup id (products w) with
           | None => (inr None, w)
           | Some doc =>
               let doc' := touch (clock w) (assign doc) in
               (inr (Some doc'),
                withProducts
                  (map (fun p => if String.eqb (p_id p) id then doc' else p)
                     (products w)) w)
           end)
  end.

End ProductModel.

Module UserModel.

(** The documents created no earlier than [gte] and no later than
    [lte]. *)
Definition createdIn (gte lte : Z) (us : list UserDoc) : list UserDoc :=
  List.filter (fun u => (gte <=? u_createdAt u) && (u_createdAt u <=? lte)) us.

(** [UserModel.find({createdAt: {$gte, $lte}})] *)
Definition find_createdAt (gte lte : Z) : M (Settled (list UserDoc)) :=
  issue (User_find_createdAt gte lte)
    (reading (fun w => createdIn gte lte (users w))).

Definition countDocuments : M (Settled nat) :=
  issue User_countDocuments (reading (fun w => length (users w))).

Definition lookup (id : string) (us : list UserDoc) : option UserDoc :=
  List.find (fun u => String.eqb (u_id u) id) us.

Definition findById (id : string) : M (Settled (option UserDoc)) :=
  issue (User_findById id) (reading (fun w => lookup id (users w))).

Definition find : M (Settled (list UserDoc)) :=
  issue User_find (reading users).

(** [UserModal.create(body)]: the setters run, then the validators.  The
    validator of the email is the one of the schema, and an identifier
    already in the collection is always refused; whether the other
    validators ([required], the lengths of the name, the [enum] of the
    gender) and the unique index of the email accept the document is
    the data source's answer ([rejected]).  A refusal is the rejection
    of the query, whatever its cause. *)
Definition create (b : NewUserRequestBody) : M (Settled UserDoc) :=
  issue (User_create b)
    (fun w =>
       let doc := newUserDoc b (clock w) in
       if emailValidator (u_email doc)
       then
         match lookup (nu_id b) (users w) with
         | Some _ => (inl (DataSourceFailure (User_create b)), w)
         | None => (inr doc, withUsers (users w ++ [doc]) w)
         end
       else (inl (DataSourceFailure (User_create b)), w)).

End UserModel.

Module OrderModel.

(** The documents created no earlier than [gte] and no later than
    [lte]. *)
Definition createdIn (gte lte : Z) (os : list OrderDoc) : list OrderDoc :=
  List.filter (fun o => (gte <=? o_createdAt o) && (o_createdAt o <=? lte)) os.

(** [Order.find({createdAt: {$gte, $lte}})] *)
Definition find_createdAt (gte lte : Z) : M (Settled (list OrderDoc)) :=
  issue (Order_find_createdAt gte lte)
    (reading (fun w => createdIn gte lte (orders w))).

(** [Order.find({}).select("total")]: every order, with its total. *)
Definition find_select_total : M (Settled (list OrderDoc)) :=
  issue Order_find_select_total (reading orders).

End OrderModel.

(** ** The middleware *)

(** What a controller does with the request: it sends a response, or it
    hands an error to [next]. *)
Inductive Outcome : Type :=
| Sent (status : nat) (body : Json)
| Forwarded (e : Error).

(** [middlewares/error.ts]: an exception thrown by the controller is
    caught and passed to [next]. *)
Definition TryCatch {R : Type} (controller : R -> M Outcome)
  : R -> World -> option (Outcome * World) :=
  fun req w =>
    match controller req w with
    | Some (inr out, w') => Some (out, w')
    | Some (inl error, w') => Some (Forwarded error, w')
    | None => None
    end.

(** ** The statistics controller *)

Record TimeWindow : Type := { w_start : Z; w_end : Z }.

Definition thisMonthOf (today : Z) : TimeWindow :=
  {| w_start := newDate (getFullYear today) (getMonth today) 1;
     w_end := today |}.

Definition lastMonthOf (today : Z) : TimeWindow :=
  {| w_start := newDate (getFullYear today) (getMonth today - 1) 1;
     w_end := newDate (getFullYear today) (getMonth today) 0 |}.

(** The four figures of a snapshot; [R] is the type of the revenue: a
    percentage among the percentages, a sum of totals among the
    counts. *)
Record Figures (R : Type) : Type :=
  { revenue : R; product : Q; user : Q; order : Q }.

Arguments revenue {R} _.
Arguments product {R} _.
Arguments user {R} _.
Arguments order {R} _.

Record StatsSnapshot : Type :=
  { percentage : Figures Q; count : Figures JsNumber }.

Definition figuresToJSON {R : Type} (revenueToJSON : R -> Json) (f : Figures R)
  : Json :=
  JObj [("revenue", revenueToJSON (revenue f)); ("product", JNum (product f));
        ("user", JNum (user f)); ("order", JNum (order f))].

Definition statsToJSON (s : StatsSnapshot) : Json :=
  JObj [("percentage", figuresToJSON JNum (percentage s));
        ("count", figuresToJSON numberToJSON (count s))].

Definition ofNat (n : nat) : Q := inject_Z (Z.of_nat n).

(** [order.total || 0]: a missing total counts as zero (and a total of
    zero, though falsy, is zero either way). *)
Definition totalOrZero (o : OrderDoc) : Q :=
  match o_total o with
  | Some t => t
  | None => 0%Q
  end.

(** [total + (order.total || 0)], the step of the reduction: a double
    addition, which stays at an infinity once it has reached one. *)
Definition addTotal (total : JsNumber) (order : OrderDoc) : JsNumber :=
  match total with
  | Finite t => jsAdd t (totalOrZero order)
  | Infinite negative => Infinite negative
  end.

(** [orders.reduce((total, order) => total + (order.total || 0), 0)]:
    the totals are added from left to right, in doubles. *)
Definition sumTotals (os : list OrderDoc) : JsNumber :=
  fold_left addTotal os (Finite 0).

(** The part of the controller after [Promise.all].  [calculatePercentage]
    is not among the sources and the spec gives it for numbers only: a
    month whose revenue has become an infinity is not covered. *)
Definition assembleStats
  (thisMonthProducts lastMonthProducts : list ProductDoc)
  (thisMonthUsers lastMonthUsers : list UserDoc)
  (thisMonthOrders lastMonthOrders : list OrderDoc)
  (totalProducts totalUsers : nat) (allOrder : list OrderDoc)
  : option StatsSnapshot :=
  match sumTotals thisMonthOrders, sumTotals lastMonthOrders with
  | Finite thisMonthRevenue, Finite lastMonthRevenue =>
      Some
        {| percentage :=
             {| revenue := calculatePercentage thisMonthRevenue lastMonthRevenue;
                product := calculatePercentage (ofNat (length thisMonthProducts))
                             (ofNat (length lastMonthProducts));
                user := calculatePercentage (ofNat (length thisMonthUsers))
                          (ofNat (length lastMonthUsers));
                order := calculatePercentage (ofNat (length thisMonthOrders))
                           (ofNat (length lastMonthOrders)) |};
           count :=
             {| revenue := sumTotals allOrder;
                product := ofNat totalProducts;
                user := ofNat totalUsers;
                order := ofNat (length allOrder) |} |}
  | _, _ => None
  end.

(** The nine queries of the statistics, in the order [Promise.all]
    receives them. *)
Definition statsQueries (today : Z) : list Query :=
  let thisMonth := thisMonthOf today in
  let lastMonth := lastMonthOf today in
  [Product_find_createdAt (w_start thisMonth) (w_end thisMonth);
   Product_find_createdAt (w_start lastMonth) (w_end lastMonth);
   User_find_createdAt (w_start thisMonth) (w_end thisMonth);
   User_find_createdAt (w_start lastMonth) (w_end lastMonth);
   Order_find_createdAt (w_start thisMonth) (w_end thisMonth);
   Order_find_createdAt (w_start lastMonth) (w_end lastMonth);
   Product_countDocuments; User_countDocuments; Order_find_select_total].

Definition logQueries (qs : list Query) (w : World) : World :=
  fold_left (fun acc q => logQuery q acc) qs w.

(** What the nine queries and the reduction come to in a world: the
    snapshot ([None] where the reduction is not covered), or the
    rejection [Promise.all] reports. *)
Definition statsResult (w : World) : Settled (option StatsSnapshot) :=
  let thisMonth := thisMonthOf (clock w) in
  let lastMonth := lastMonthOf (clock w) in
  let ps := products w in
  let us := users w in
  let os := orders w in
  match
    both (settled w (Product_find_createdAt (w_start thisMonth) (w_end thisMonth))
            (ProductModel.createdIn (w_start thisMonth) (w_end thisMonth) ps))
   (both (settled w (Product_find_createdAt (w_start lastMonth) (w_end lastMonth))
            (ProductModel.createdIn (w_start lastMonth) (w_end lastMonth) ps))
   (both (settled w (User_find_createdAt (w_start thisMonth) (w_end thisMonth))
            (UserModel.createdIn (w_start thisMonth) (w_end thisMonth) us))
   (both (settled w (User_find_createdAt (w_start lastMonth) (w_end lastMonth))
            (UserModel.createdIn (w_start lastMonth) (w_end lastMonth) us))
   (both (settled w (Order_find_createdAt (w_start thisMonth) (w_end thisMonth))
            (OrderModel.createdIn (w_start thisMonth) (w_end thisMonth) os))
   (both (settled w (Order_find_createdAt (w_start lastMonth) (w_end lastMonth))
            (OrderModel.createdIn (w_start lastMonth) (w_end lastMonth) os))
   (both (settled w Product_countDocuments (length ps))
   (both (settled w User_countDocuments (length us))
         (settled w Order_find_select_total os))))))))
  with
  | inl e => inl e
  | inr (thisMonthProducts, (lastMonthProducts, (thisMonthUsers,
         (lastMonthUsers, (thisMonthOrders, (lastMonthOrders,
         (totalProducts, (totalUsers, allOrder)))))))) =>
      inr (assembleStats thisMonthProducts lastMonthProducts
             thisMonthUsers lastMonthUsers thisMonthOrders lastMonthOrders
             totalProducts totalUsers allOrder)
  end.

(** ** Helpers of the product controllers *)

(** The value of an own property of an object. *)
Definition property (name : string) (fields : list (string * Json)) : option Json :=
  match List.find (fun kv => String.eqb (fst kv) name) (rev fields) with
  | Some kv => Some (snd kv)
  | None => None
  end.

(** [obj[name] = v]: overwrites the property in place, or adds it last. *)
Fixpoint setProperty (name : string) (v : Json) (fields : list (string * Json))
  : list (string * Json) :=
  match fields with
  | [] => [(name, v)]
  | (k, x) :: rest =>
      if String.eqb k name then (k, v) :: rest
      else (k, x) :: setProperty name v rest
  end.

(** [items.length > 0] on a parsed value: reading a property of [null]
    throws; a number or a boolean has no [length], and [undefined > 0] is
    false; an object answers with its own [length] property, whose
    comparison with zero is covered for numbers, booleans and [null]. *)
Definition lengthPositive (items : Json) : M bool :=
  match items with
  | JNull => throw TypeError
  | JArr l => ret (0 <? length l)%nat
  | JStr s => ret (0 <? String.length s)%nat
  | JBool _ | JNum _ => ret false
  | JObj fields =>
      match property "length" fields with
      | None => ret false
      | Some (JNum q) => ret (negb (Qle_bool q 0))
      | Some (JBool b) => ret b
      | Some JNull => ret false
      | Some _ => uncovered
      end
  end.

(** Modelled from the spec: [utils/allowedFields.ts] is not among the
    sources, and the spec leaves request-field validation to a
    collaborator.  The create controller treats the result as the list of
    the body's field names that are not allowed, or a falsy value when
    there is none. *)
Definition validateAllowedFields (bodyKeys allowedFields : list string)
  : option (list string) :=
  match List.filter (fun k => negb (existsb (String.eqb k) allowedFields)) bodyKeys with
  | [] => None
  | invalid => Some invalid
  end.

(** The loop of [prepareUpdates]: copies the body's properties in
    enumeration order and throws at the first one that is not allowed. *)
Fixpoint prepareUpdatesFrom (updates body : list (string * Json))
  (allowedFields : list string) : Settled (list (string * Json)) :=
  match body with
  | [] => inr updates
  | (key, v) :: rest =>
      if existsb (String.eqb key) allowedFields then
        prepareUpdatesFrom (setProperty key v updates) rest allowedFields
      else inl (ErrorHandler ("Field " +:+ key +:+ " is not allowed for update") 400)
  end.

Definition prepareUpdates (body : list (string * Json)) (allowedFields : list string)
  : Settled (list (string * Json)) :=
  prepareUpdatesFrom [] body allowedFields.

Section Controllers.

Context `{JsonCodec}.

Local Open Scope ctl_scope.

(** [JSON.parse(nodeCache.get(key) as string)] *)
Definition parseCached (key : string) : M Json :=
  w <- getWorld ;;
  match CacheStore.get key (nodeCache w) with
  | Some text =>
      match JSON_parse text with
      | Some v => ret v
      | None => throw SyntaxError
      end
  | None => throw SyntaxError
  end.

(** The miss branch of [handleGetDashboardStats]: the two windows, the
    nine queries joined by [Promise.all], and the reduction. *)
Definition computeDashboardStats : M StatsSnapshot :=
  w <- getWorld ;;
  let today := clock w in
  let thisMonth := thisMonthOf today in
  let lastMonth := lastMonthOf today in
  q1 <- ProductModel.find_createdAt (w_start thisMonth) (w_end thisMonth) ;;
  q2 <- ProductModel.find_createdAt (w_start lastMonth) (w_end lastMonth) ;;
  q3 <- UserModel.find_createdAt (w_start thisMonth) (w_end thisMonth) ;;
  q4 <- UserModel.find_createdAt (w_start lastMonth) (w_end lastMonth) ;;
  q5 <- OrderModel.find_createdAt (w_start thisMonth) (w_end thisMonth) ;;
  q6 <- OrderModel.find_createdAt (w_start lastMonth) (w_end lastMonth) ;;
  q7 <- ProductModel.countDocuments ;;
  q8 <- UserModel.countDocuments ;;
  q9 <- OrderModel.find_select_total ;;
  all <- await (both q1 (both q2 (both q3 (both q4 (both q5 (both q6
                 (both q7 (both q8 q9)))))))) ;;
  let '(thisMonthProducts, (lastMonthProducts, (thisMonthUsers,
        (lastMonthUsers, (thisMonthOrders, (lastMonthOrders,
        (totalProducts, (totalUsers, allOrder)))))))) := all in
  match assembleStats thisMonthProducts lastMonthProducts
          thisMonthUsers lastMonthUsers thisMonthOrders lastMonthOrders
          totalProducts totalUsers allOrder with
  | Some stats => ret stats
  | None => uncovered
  end.

(** [controllers/statsControllers.ts], [handleGetDashboardStats]. *)
Definition handleGetDashboardStats : unit -> World -> option (Outcome * World) :=
  TryCatch (fun _ =>
    w <- getWorld ;;
    let key := "admin-stats" in
    stats <- (if CacheStore.has key (nodeCache w)
              then parseCached key
              else s <- computeDashboardStats ;; ret (statsToJSON s)) ;;
    ret (Sent 200 (JObj [("success", JBool true);
                         ("message", JStr "Successfully get dashboard stats");
                         ("payload", stats)]))).

(** *** Product controllers *)

Record NewProductRequest : Type := {
  npr_body : NewProductRequestBody;
  npr_bodyKeys : list string;
  npr_file : option string
}.

(** [handleNewProduct] *)
Definition handleNewProduct : NewProductRequest -> World -> option (Outcome * World) :=
  TryCatch (fun req =>
    let allowedFields := ["name"; "category"; "price"; "stock"; "image"] in
    match validateAllowedFields (npr_bodyKeys req) allowedFields with
    | Some invalidFields =>
        ret (Forwarded (ErrorHandler
               ("Invalid fields: " +:+ String.concat ", " invalidFields) 400))
    | None =>
        q <- ProductModel.create
               {| pf_name := np_name (npr_body req); pf_image := npr_file req;
                  pf_category := np_category (npr_body req);
                  pf_price := np_price (npr_body req);
                  pf_stock := np_stock (npr_body req) |} ;;
        newProduct <- await q ;;
        invalidateCache {| entityKind := Product; entityId := None |} ;;
        ret (Sent 201 (JObj [("success", JBool true);
                             ("message", JStr "Product created successfully");
                             ("payload", productToJSON newProduct)]))
    end).

(** The response the three listing controllers share, up to the
    message: [200] with the list when it is not empty, [404] with an
    empty list otherwise. *)
Definition listResponse (items : Json) (found notFound : string) : M Outcome :=
  nonEmpty <- lengthPositive items ;;
  ret (Sent (if nonEmpty then 200 else 404)%nat
         (JObj [("success", JBool nonEmpty);
                ("message", JStr (if nonEmpty then found else notFound));
                ("payload", if nonEmpty then items else JArr [])])).

(** [handleGetLatestProducts] *)
Definition handleGetLatestProducts : unit -> World -> option (Outcome * World) :=
  TryCatch (fun _ =>
    w <- getWorld ;;
    products <- (if CacheStore.has "latestProducts" (nodeCache w)
                 then parseCached "latestProducts"
                 else q <- ProductModel.find_latest 5 ;;
                      docs <- await q ;;
                      let products := JArr (map productToJSON docs) in
                      modifyCache (CacheStore.set "latestProducts"
                                     (JSON_stringify products)) ;;
                      ret products) ;;
    listResponse products "Latest products" "No products found").

(** [handleGetAllCategories] *)
Definition handleGetAllCategories : unit -> World -> option (Outcome * World) :=
  TryCatch (fun _ =>
    w <- getWorld ;;
    categories <- (if CacheStore.has "categories" (nodeCache w)
                   then parseCached "categories"
                   else q <- ProductModel.distinct_category ;;
                        names <- await q ;;
                        let categories := JArr (map JStr names) in
                        modifyCache (CacheStore.set "categories"
                                       (JSON_stringify categories)) ;;
                        ret categories) ;;
    listResponse categories "All available categories" "No categories found").

(** [handleGetAllAdminProducts] *)
Definition handleGetAllAdminProducts : unit -> World -> option (Outcome * World) :=
  TryCatch (fun _ =>
    w <- getWorld ;;
    products <- (if CacheStore.has "admin-products" (nodeCache w)
                 then parseCached "admin-products"
                 else q <- ProductModel.find_sorted ;;
                      docs <- await q ;;
                      let products := JArr (map productToJSON docs) in
                      modifyCache (CacheStore.set "admin-products"
                                     (JSON_stringify products)) ;;
                      ret products) ;;
    listResponse products "Fetch all product" "No products found").

(** The response of the single-product controller: [200] with the
    product when the value is truthy, [404] with an empty object
    otherwise. *)
Definition productResponse (product : Json) : Outcome :=
  let found := truthy product in
  Sent (if found then 200 else 404)%nat
    (JObj [("success", JBool found);
           ("message", JStr (if found then "Product found" else "Product not found"));
           ("payload", if found then product else JObj [])]).

(** [handleGetSingleProduct]; the request is the [id] parameter. *)
Definition handleGetSingleProduct : string -> World -> option (Outcome * World) :=
  TryCatch (fun id =>
    w <- getWorld ;;
    product <- (if CacheStore.has (productKey id) (nodeCache w)
                then parseCached (productKey id)
                else q <- ProductModel.findById id ;;
                     doc <- await q ;;
                     let product := match doc with
                                    | Some p => productToJSON p
                                    | None => JNull
                                    end in
                     modifyCache (CacheStore.set (productKey id)
                                    (JSON_stringify product)) ;;
                     ret product) ;;
    ret (productResponse product)).

Record UpdateProductRequest : Type := {
  upr_id : string;
  upr_body : list (string * Json);
  upr_file : option string
}.

(** [handleUpdateSingleProduct].  Removing the old image file is an
    effect on the file system, which the world does not hold. *)
Definition handleUpdateSingleProduct
  : UpdateProductRequest -> World -> option (Outcome * World) :=
  TryCatch (fun req =>
    q <- ProductModel.findById (upr_id req) ;;
    productExists <- await q ;;
    match productExists with
    | None => ret (Forwarded (ErrorHandler "Product not found" 404))
    | Some _ =>
        let allowFields := ["name"; "category"; "price"; "stock"; "image"] in
        updates <- await (prepareUpdates (upr_body req) allowFields) ;;
        let updates := match upr_file req with
                       | Some path => setProperty "image" (JStr path) updates
                       | None => updates
                       end in
        q <- ProductModel.findByIdAndUpdate (upr_id req) updates ;;
        updatedProduct <- await q ;;
        match updatedProduct with
        | None => ret (Forwarded (ErrorHandler "Error updating product" 404))
        | Some doc =>
            invalidateCache {| entityKind := Product;
                               entityId := Some (p_id doc) |} ;;
            ret (Sent 200 (JObj [("success", JBool true);
                                 ("message", JStr "Product updated successfully");
                                 ("payload", productToJSON doc)]))
        end
    end).

(** [handleDeleteProduct]; the request is the [id] parameter. *)
Definition handleDeleteProduct : string -> World -> option (Outcome * World) :=
  TryCatch (fun id =>
    q <- ProductModel.findById id ;;
    productExists <- await q ;;
    match productExists with
    | None => ret (Forwarded (ErrorHandler "Product not found" 404))
    | Some _ =>
        q <- ProductModel.findByIdAndDelete id ;;
        deletedProduct <- await q ;;
        match deletedProduct with
        | None => ret (Forwarded (ErrorHandler "Error deleting product" 404))
        | Some doc =>
            invalidateCache {| entityKind := Product;
                               entityId := Some (p_id doc) |} ;;
            ret (Sent 200 (JObj [("success", JBool true);
                                 ("message", JStr "Product deleted successfully");
                                 ("payload", productToJSON doc)]))
        end
    end).

(** *** User controllers *)

(** [controllers/userControllers.ts], [handleNewUser]. *)
Definition handleNewUser : NewUserRequestBody -> World -> option (Outcome * World) :=
  TryCatch (fun body =>
    q <- UserModel.findById (nu_id body) ;;
    user <- await q ;;
    match user with
    | Some u =>
        ret (Sent 200 (JObj [("success", JBool true);
                             ("message", JStr ("Welcome back " +:+ nu_name body +:+ "!"));
                             ("payload", userToJSON u)]))
    | None =>
        q <- UserModel.create body ;;
        created <- await q ;;
        ret (Sent 201 (JObj [("success", JBool true);
                             ("message",
                              JStr ("Welcome " +:+ u_name created
                                    +:+ "! Your account has been created successfully!"))]))
    end).

(** *** The read-through pattern *)

(** The read-through pattern the product read paths spell out: answer
    from the cache when the key is present; otherwise query, store the
    serialized answer and return it. *)
Definition readThrough {A : Type} (key : string) (q : Query)
  (answer : World -> A) (toJson : A -> Json) : M Json :=
  w <- getWorld ;;
  if CacheStore.has key (nodeCache w) then parseCached key
  else p <- issue q (reading answer) ;;
       a <- await p ;;
       let v := toJson a in
       modifyCache (CacheStore.set key (JSON_stringify v)) ;;
       ret v.

Definition productOrNull (doc : option ProductDoc) : Json :=
  match doc with
  | Some p => productToJSON p
  | None => JNull
  end.

End Controllers.

(** ** Reference data *)

(** A shop on 15 June 2024 at noon, with an empty cache: two products (one
    created at the very first instant of May), two users (one created at
    that same instant), and three orders, of which one was placed on
    31 May at 10:00 and one has no total. *)
Definition noon15June : Z := 1718452800000.
Definition startOfMay : Z := 1714521600000.
Definition tenOn31May : Z := 1717149600000.
Definition tenOn10June : Z := 1718013600000.

Definition sampleShop : World :=
  {| nodeCache := ∅;
     products :=
       [ {| p_id := "p1"; p_name := "kettle"; p_image := None;
            p_category := "kitchen"; p_price := 30%Q; p_stock := 4%Q;
            p_createdAt := startOfMay; p_updatedAt := startOfMay |};
         {| p_id := "p2"; p_name := "lamp"; p_image := Some "uploads/lamp.png";
            p_category := "home"; p_price := 45%Q; p_stock := 2%Q;
            p_createdAt := tenOn10June; p_updatedAt := tenOn10June |} ];
     users :=
       [ {| u_id := "u1"; u_name := "Asha"; u_email := "asha@example.org";
            u_image := "a.png"; u_role := "user"; u_dob := 0;
            u_gender := "female"; u_createdAt := startOfMay;
            u_updatedAt := startOfMay |};
         {| u_id := "u2"; u_name := "Bram"; u_email := "bram@example.org";
            u_image := "b.png"; u_role := "admin"; u_dob := 0;
            u_gender := "male"; u_createdAt := tenOn10June;
            u_updatedAt := tenOn10June |} ];
     orders :=
       [ {| o_id := "o1"; o_total := Some 100%Q; o_createdAt := tenOn31May |};
         {| o_id := "o2"; o_total := Some 200%Q; o_createdAt := tenOn10June |};
         {| o_id := "o3"; o_total := None; o_createdAt := tenOn10June |} ];
     clock := noon15June;
     objectIds := fun n => "p" +:+ String (digitChar (Z.of_nat n + 3)) "";
     generated := 0;
     rejected := fun _ => false;
     issued := [];
     invalidations := [] |}.

(** A cache that holds the detail entries of two products. *)
Definition detailEntries : gmap string string :=
  CacheStore.set (productKey "p1") "kettle" (CacheStore.set (productKey "p2") "lamp" ∅).

(** A cached snapshot taken when the shop had two users. *)
Definition cachedStats : StatsSnapshot :=
  {| percentage := {| revenue := 0%Q; product := 0%Q; user := 0%Q; order := 0%Q |};
     count := {| revenue := Finite 300; product := 2%Q; user := 2%Q;
                 order := 3%Q |} |}.

Definition newUserCara : NewUserRequestBody :=
  {| nu_id := "u3"; nu_name := "Cara"; nu_email := "cara@example.org";
     nu_image := "c.png"; nu_dob := 0; nu_gender := "other" |}.

Definition newProductRequest : NewProductRequest :=
  {| npr_body := {| np_name := "mug"; np_category := "kitchen";
                    np_price := 8%Q; np_stock := 12%Q |};
     npr_bodyKeys := ["name"; "category"; "price"; "stock"];
     npr_file := None |}.

(** ** A reference codec *)

(** A codec that satisfies the interface: a prefix code in which every
    writer takes the text that follows.  It stands for the pair of
    built-ins wherever a statement is evaluated on concrete data. *)
Module ReferenceCodec.

Local Open Scope char_scope.

Fixpoint putPos (p : positive) (k : string) : string :=
  match p with
  | xH => String "." k
  | xO p' => String "0" (putPos p' k)
  | xI p' => String "1" (putPos p' k)
  end.

Definition putZ (z : Z) (k : string) : string :=
  match z with
  | Z0 => String "z" k
  | Zpos p => String "+" (putPos p k)
  | Zneg p => String "-" (putPos p k)
  end.

Definition putStr (s k : string) : string :=
  putZ (Z.of_nat (String.length s)) (s +:+ k).

Fixpoint put (v : Json) (k : string) : string :=
  match v with
  | JNull => String "n" k
  | JBool b => String (if b then "t" else "f") k
  | JNum q => String "#" (putZ (Qnum q) (putPos (Qden q) k))
  | JStr s => String "s" (putStr s k)
  | JArr items => String "[" (fold_right put (String "]" k) items)
  | JObj fields =>
      String "{"
        (fold_right (fun kv acc => putStr (fst kv) (put (snd kv) acc))
           (String "}" k) fields)
  end.

Fixpoint getPos (s : string) : option (positive * string) :=
  match s with
  | EmptyString => None
  | String c r =>
      if Ascii.eqb c "." then Some (xH, r)
      else if Ascii.eqb c "0" then
        match getPos r with Some (p, r') => Some (xO p, r') | None => None end
      else if Ascii.eqb c "1" then
        match getPos r with Some (p, r') => Some (xI p, r') | None => None end
      else None
  end.

Definition getZ (s : string) : option (Z * string) :=
  match s with
  | EmptyString => None
  | String c r =>
      if Ascii.eqb c "z" then Some (Z0, r)
      else if Ascii.eqb c "+" then
        match getPos r with Some (p, r') => Some (Zpos p, r') | None => None end
      else if Ascii.eqb c "-" then
        match getPos r with Some (p, r') => Some (Zneg p, r') | None => None end
      else None
  end.

Fixpoint takeChars (n : nat) (s : string) : option (string * string) :=
  match n with
  | O => Some (EmptyString, s)
  | S n' =>
      match s with
      | EmptyString => None
      | String c r =>
          match takeChars n' r with
          | Some (a, b) => Some (String c a, b)
          | None => None
          end
      end
  end.

Definition getStr (s : string) : option (string * string) :=
  match getZ s with
  | Some (n, r) => takeChars (Z.to_nat n) r
  | None => None
  end.

Fixpoint get (fuel : nat) (s : string) {struct fuel} : option (Json * string) :=
  match fuel with
  | O => None
  | S fuel' =>
      match s with
      | EmptyString => None
      | String c r =>
          if Ascii.eqb c "n" then Some (JNull, r)
          else if Ascii.eqb c "t" then Some (JBool true, r)
          else if Ascii.eqb c "f" then Some (JBool false, r)
          else if Ascii.eqb c "#" then
            match getZ r with
            | Some (n, r1) =>
                match getPos r1 with
                | Some (d, r2) => Some (JNum (Qmake n d), r2)
                | None => None
                end
            | None => None
            end
          else if Ascii.eqb c "s" then
            match getStr r with
            | Some (x, r1) => Some (JStr x, r1)
            | None => None
            end
          else if Ascii.eqb c "[" then
            match getItems fuel' r with
            | Some (l, r1) => Some (JArr l, r1)
            | None => None
            end
          else if Ascii.eqb c "{" then
            match getFields fuel' r with
            | Some (l, r1) => Some (JObj l, r1)
            | None => None
            end
          else None
      end
  end
with getItems (fuel : nat) (s : string) {struct fuel}
  : option (list Json * string) :=
  match fuel with
  | O => None
  | S fuel' =>
      match s with
      | EmptyString => None
      | String c r =>
          if Ascii.eqb c "]" then Some ([], r)
          else
            match get fuel' s with
            | Some (x, r1) =>
                match getItems fuel' r1 with
                | Some (l, r2) => Some (x :: l, r2)
                | None => None
                end
            | None => None
            end
      end
  end
with getFields (fuel : nat) (s : string) {struct fuel}
  : option (list (string * Json) * string) :=
  match fuel with
  | O => None
  | S fuel' =>
      match s with
      | EmptyString => None
      | String c r =>
          if Ascii.eqb c "}" then Some ([], r)
          else
            match getStr s with
            | Some (key, r1) =>
                match get fuel' r1 with
                | Some (x, r2) =>
                    match getFields fuel' r2 with
                    | Some (l, r3) => Some ((key, x) :: l, r3)
                    | None => None
                    end
                | None => None
                end
            | None => None
            end
      end
  end.

Definition stringify (v : Json) : string := put v EmptyString.

Definition parse (s : string) : option Json :=
  match get (String.length s) s with
  | Some (v, EmptyString) => Some v
  | _ => None
  end.

(** The nesting depth the reader needs as fuel. *)
Fixpoint height (v : Json) : nat :=
  match v with
  | JArr items => S (fold_right (fun x h => S (Nat.max (height x) h)) 1%nat items)
  | JObj fields =>
      S (fold_right (fun kv h => S (Nat.max (height (snd kv)) h)) 1%nat fields)
  | _ => 1%nat
  end.

End ReferenceCodec.

(** The sample shop with a snapshot cached under [admin-stats]. *)
Definition shopWithCachedStats : World :=
  withCache
    (CacheStore.set "admin-stats" (ReferenceCodec.stringify (statsToJSON cachedStats)) ∅)
    sampleShop.

(** The sample shop while the data source rejects the count of users. *)
Definition shopDuringOutage : World :=
  {| nodeCache := nodeCache sampleShop; products := products sampleShop;
     users := users sampleShop; orders := orders sampleShop;
     clock := clock sampleShop; objectIds := objectIds sampleShop;
     generated := generated sampleShop;
     rejected := fun q => match q with User_countDocuments => true | _ => false end;
     issued := issued sampleShop;
     invalidations := invalidations sampleShop |}.

(** ** The other user controllers *)

(** [controllers/userControllers.ts], [handleGetAllUsers]. *)
Definition handleGetAllUsers : unit -> World -> option (Outcome * World) :=
  TryCatch (fun _ =>
    bind UserModel.find (fun q =>
    bind (await q) (fun found =>
    ret (Sent 200 (JObj [("success", JBool true);
                         ("payload", JArr (map userToJSON found))]))))).

(** [handleGetUser]; the request is the [id] parameter.  Printing the
    document on the console is not part of the world. *)
Definition handleGetUser : string -> World -> option (Outcome * World) :=
  TryCatch (fun id =>
    bind (UserModel.findById id) (fun q =>
    bind (await q) (fun found =>
    match found with
    | None => ret (Forwarded (ErrorHandler "Invalid user id" 400))
    | Some u =>
        ret (Sent 200 (JObj [("success", JBool true); ("payload", userToJSON u)]))
    end))).

(** ** The error middleware *)

(** [middlewares/error.ts], [errorMiddleWare], on the two properties of
    the error it reads: its message, and its status code if it has one.
    An empty message and a missing or zero status code are falsy and
    take the defaults. *)
Definition errorMiddleWare (message : string) (statusCode : option nat) : Outcome :=
  let message := if String.eqb message "" then "Internal Server Error" else message in
  let statusCode := match statusCode with
                    | Some (S n) => S n
                    | Some O | None => 500%nat
                    end in
  Sent statusCode (JObj [("success", JBool false); ("message", JStr message)]).

(** [notFound]: hands a 404 error that names the requested URL to
    [next]. *)
Definition notFound (originalUrl : string) : Outcome :=
  Forwarded (ErrorHandler ("Not Found - " +:+ originalUrl) 404).

(** ** The virtual age of a user *)

(** [Date.prototype.getDate]: the day of the month. *)
Definition getDate (t : Z) : Z :=
  let '(_, _, d) := civilFromDays (t / msPerDay) in d.

(** [models/userModal.ts], the virtual [age] of a user born at [dob],
    read at [today]. *)
Definition age (today dob : Z) : Z :=
  let age := getFullYear today - getFullYear dob in
  let month := getMonth today - getMonth dob in
  if (month <? 0) || ((month =? 0) && (getDate today <? getDate dob))
  then age - 1 else age.

(** ** The pagination of the product search *)

(** [Number(x) || d], [None] standing for a value that is missing or not
    a number. *)
Definition numberOr (x : option Q) (d : Q) : Q :=
  match x with
  | Some q => if Qeq_bool q 0 then d else q
  | None => d
  end.



(** The page and the page size of a request:
    [Number(req.query.page) || 1] and
    [Number(process.env.PRODUCTS_LIMIT) || 8]. *)
Definition pageOf (queryPage : option Q) : Q := numberOr queryPage 1.

Definition limitOf (envLimit : option Q) : Q := numberOr envLimit 8.

(** ** The upload middleware *)

(** [stripPrefix pattern s]: what follows [pattern] at the start of [s],
    if [s] starts with it. *)
Fixpoint stripPrefix (pattern s : string) : option string :=
  match pattern, s with
  | EmptyString, _ => Some s
  | String a pattern', String b s' =>
      if Ascii.eqb a b then stripPrefix pattern' s' else None
  | String _ _, EmptyString => None
  end.

(** [s.replace(pattern, "")] for a string [pattern]: the first
    occurrence of [pattern] in [s] is taken out, and [s] is returned as
    it is when there is none. *)
Fixpoint removeFirst (pattern s : string) : string :=
  match stripPrefix pattern s with
  | Some rest => rest
  | None =>
      match s with
      | EmptyString => EmptyString
      | String c s' => String c (removeFirst pattern s')
      end
  end.

(** [middlewares/multer.ts], the [filename] callback of the disk storage:
    [Date.now() + "-" + file.originalname.replace(extensionName, "") +
    extensionName].  [stamp] is the decimal text of [Date.now()], and
    [extensionName] what [extname] of Node's [path] module answers for
    the original name. *)
Definition filename (stamp extensionName originalname : string) : string :=
  stamp +:+ "-" +:+ removeFirst extensionName originalname +:+ extensionName.

(** ** Vocabulary of the statements *)

(** A text field of a document [before] and [after] an update that
    carries [given] for it: unchanged when the update does not name the
    field, the string the update carries when it carries one. *)
Definition storedString (given : option Json) (before after : string) : Prop :=
  match given with
  | None => after = before
  | Some (JStr s) => after = s
  | Some _ => True
  end.

(** The same for the image, which a document may lack. *)
Definition storedImage (given : option Json) (before after : option string)
  : Prop :=
  match given with
  | None => after = before
  | Some (JStr s) => after = Some s
  | Some _ => True
  end.

(** A number field [before] and [after] an update that carries [given]
    for it: unchanged when the update does not name the field; the
    number the update carries; for a string that is not empty, the
    number [Number] reads from it, which is not [NaN] (and may be an
    infinity, which the documents of the model do not hold). *)
Definition storedNumber (given : option Json) (before after : Q) : Prop :=
  match given with
  | None => after = before
  | Some (JNum q) => after = q
  | Some (JStr s) =>
      s = ""
      \/ stringToNumber s = Some (Finite after)
      \/ exists negative, stringToNumber s = Some (Infinite negative)
  | Some _ => True
  end.

(** The number a float of the Standard Library's specification of
    IEEE 754 ([SpecFloat]) stands for; [None] for [NaN]. *)
Definition ofSpecFloat (x : SpecFloat.spec_float) : option JsNumber :=
  match x with
  | SpecFloat.S754_zero _ => Some (Finite 0)
  | SpecFloat.S754_infinity negative => Some (Infinite negative)
  | SpecFloat.S754_nan => None
  | SpecFloat.S754_finite negative m e =>
      Some (Finite (Qred ((if negative then -1 else 1) * inject_Z (Zpos m) * pow2 e)))
  end.

(** The float with mantissa [m] and exponent [e], and the rational it
    is. *)
Definition toSpecFloat (m e : Z) : SpecFloat.spec_float :=
  match m with
  | Z0 => SpecFloat.S754_zero false
  | Zpos p => SpecFloat.S754_finite false p e
  | Zneg p => SpecFloat.S754_finite true p e
  end.

Definition dyadic (m e : Z) : Q := Qred (inject_Z m * pow2 e).

(** Whether [jsAdd] and the binary64 addition of [SpecFloat] agree on
    two floats. *)
Definition agreesWithSpecFloat (x y : Z * Z) : bool :=
  match ofSpecFloat (SpecFloat.SFadd 53 1024 (toSpecFloat (fst x) (snd x))
                       (toSpecFloat (fst y) (snd y))),
        jsAdd (dyadic (fst x) (snd x)) (dyadic (fst y) (snd y)) with
  | Some (Finite a), Finite b => Z.eqb (Qnum a) (Qnum b) && Pos.eqb (Qden a) (Qden b)
  | Some (Infinite s), Infinite t => Bool.eqb s t
  | _, _ => false
  end.

(** The sum of a list of integers. *)
Definition sumZ (zs : list Z) : Z := fold_right Z.add 0 zs.

(** The fields [handleUpdateSingleProduct] allows an update to name. *)
Definition allowFields : list string := ["name"; "category"; "price"; "stock"; "image"].

(** [newerFirst key a b]: [a] may stand before [b] when the newest come
    first. *)
Definition newerFirst {A : Type} (key : A -> Z) (a b : A) : Prop :=
  (key b <= key a)%Z.

(** [onOrBefore a b]: the calendar day [a] (year, month, day) is the
    day [b] or an earlier one. *)
Definition onOrBefore (a b : Z * Z * Z) : Prop :=
  let '(y1, m1, d1) := a in
  let '(y2, m2, d2) := b in
  (y1 < y2 \/ (y1 = y2 /\ (m1 < m2 \/ (m1 = m2 /\ d1 <= d2))))%Z.

(** ** Further reference data *)

(** The first product and the first user of the sample shop. *)
Definition kettle : ProductDoc :=
  {| p_id := "p1"; p_name := "kettle"; p_image := None;
     p_category := "kitchen"; p_price := 30%Q; p_stock := 4%Q;
     p_createdAt := startOfMay; p_updatedAt := startOfMay |}.

Definition asha : UserDoc :=
  {| u_id := "u1"; u_name := "Asha"; u_email := "asha@example.org";
     u_image := "a.png"; u_role := "user"; u_dob := 0;
     u_gender := "female"; u_createdAt := startOfMay;
     u_updatedAt := startOfMay |}.

(** A request whose name and email the setters of the schema change. *)
Definition newUserDana : NewUserRequestBody :=
  {| nu_id := "u4"; nu_name := " Dana Lee "; nu_email := " Dana@Example.ORG";
     nu_image := "d.png"; nu_dob := 0; nu_gender := "female" |}.

(** Asha signing in again, under another display name. *)
Definition returningAsha : NewUserRequestBody :=
  {| nu_id := "u1"; nu_name := "Asha K"; nu_email := "asha@example.org";
     nu_image := "a.png"; nu_dob := 0; nu_gender := "female" |}.

(** Bodies of update requests: one that names allowed fields only, and
    one that names [role] between two allowed fields. *)
Definition priceAndStock : list (string * Json) :=
  [("price", JNum 35); ("stock", JNum 3)].

(** An update as a multipart form delivers it: every value a string,
    and a file. *)
Definition restockKettle : UpdateProductRequest :=
  {| upr_id := "p1";
     upr_body := [("name", JStr "kettle pro"); ("price", JStr "35.50");
                  ("stock", JStr " 3 ")];
     upr_file := Some "uploads/kettle.png" |}.

Definition promoteKettle : UpdateProductRequest :=
  {| upr_id := "p1";
     upr_body := [("price", JNum 35)] ++ ("role", JStr "admin") :: [("stock", JNum 3)];
     upr_file := None |}.

Definition repriceUnknown : UpdateProductRequest :=
  {| upr_id := "p9"; upr_body := priceAndStock; upr_file := None |}.

(** The sample shop with a text under [admin-stats] that is no
    serialized value. *)
Definition shopWithMalformedStats : World :=
  withCache (CacheStore.set "admin-stats" "?" ∅) sampleShop.

(** * Properties *)

Local Open Scope list_scope.

(** ** The reference codec satisfies the interface *)

Module ReferenceCodecFacts.

Import ReferenceCodec.
Local Open Scope char_scope.

Lemma getPos_putPos (p : positive) (k : string) : getPos (putPos p k) = Some (p, k).
Proof. induction p as [p IH | p IH |]; simpl; rewrite ?IH; reflexivity. Qed.

Lemma getZ_putZ (z : Z) (k : string) : getZ (putZ z k) = Some (z, k).
Proof. destruct z; simpl; rewrite ?getPos_putPos; reflexivity. Qed.

Lemma takeChars_append (s k : string) :
  takeChars (String.length s) (s +:+ k) = Some (s, k).
Proof. induction s as [| c s IH]; simpl; rewrite ?IH; reflexivity. Qed.

Lemma getStr_putStr (s k : string) : getStr (putStr s k) = Some (s, k).
Proof.
  unfold getStr, putStr. rewrite getZ_putZ, Nat2Z.id. apply takeChars_append.
Qed.

Lemma putStr_head (s k : string) :
  exists c r, putStr s k = String c r /\ Ascii.eqb c "}" = false.
Proof.
  unfold putStr. destruct (Z.of_nat (String.length s)); simpl; eauto.
Qed.

Lemma put_head (v : Json) (k : string) :
  exists c r, put v k = String c r /\ Ascii.eqb c "]" = false.
Proof. destruct v as [| [] | | | |]; simpl; eauto. Qed.

Lemma get_put :
  forall (v : Json) (fuel : nat) (k : string),
    (height v <= fuel)%nat -> get fuel (put v k) = Some (v, k).
Proof.
  fix IH 1. intros v fuel k Hf.
  destruct fuel as [| fuel]; [destruct v; simpl in Hf; lia |].
  destruct v as [| b | q | s | items | fields]; simpl.
  - reflexivity.
  - destruct b; reflexivity.
  - rewrite getZ_putZ, getPos_putPos. destruct q; reflexivity.
  - rewrite getStr_putStr. reflexivity.
  - simpl in Hf. apply Nat.succ_le_mono in Hf.
    enough (E : getItems fuel (fold_right put (String "]" k) items) = Some (items, k))
      by (rewrite E; reflexivity).
    revert fuel Hf. induction items as [| x items IHitems]; intros fuel Hf.
    + destruct fuel; [simpl in Hf; lia | reflexivity].
    + simpl in Hf. destruct fuel as [| fuel]; [lia |].
      apply Nat.succ_le_mono in Hf.
      cbn [fold_right].
      destruct (put_head x (fold_right put (String "]" k) items)) as (c & r & E & Hc).
      cbn [getItems]. rewrite E, Hc, <- E.
      rewrite (IH x) by lia. rewrite IHitems by lia. reflexivity.
  - simpl in Hf. apply Nat.succ_le_mono in Hf.
    enough (E : getFields fuel
                  (fold_right (fun kv acc => putStr (fst kv) (put (snd kv) acc))
                     (String "}" k) fields) = Some (fields, k))
      by (rewrite E; reflexivity).
    revert fuel Hf. induction fields as [| [key x] fields IHfields]; intros fuel Hf.
    + destruct fuel; [simpl in Hf; lia | reflexivity].
    + simpl in Hf. destruct fuel as [| fuel]; [lia |].
      apply Nat.succ_le_mono in Hf.
      cbn [fold_right fst snd].
      match goal with |- getFields _ (putStr key ?rest) = _ =>
        destruct (putStr_head key rest) as (c & r & E & Hc) end.
      cbn [getFields]. rewrite E, Hc, <- E.
      rewrite getStr_putStr. rewrite (IH x) by lia. rewrite IHfields by lia.
      reflexivity.
Qed.

Lemma length_append (s k : string) :
  String.length (s +:+ k) = (String.length s + String.length k)%nat.
Proof. induction s as [| c s IH]; simpl; [reflexivity | rewrite IH; reflexivity]. Qed.

Lemma length_putPos (p : positive) (k : string) :
  (String.length k < String.length (putPos p k))%nat.
Proof. induction p; simpl; lia. Qed.

Lemma length_putZ (z : Z) (k : string) :
  (String.length k < String.length (putZ z k))%nat.
Proof. destruct z; simpl; try lia; pose proof (length_putPos p k); lia. Qed.

Lemma length_putStr (s k : string) :
  (String.length k < String.length (putStr s k))%nat.
Proof.
  unfold putStr. pose proof (length_putZ (Z.of_nat (String.length s)) (s +:+ k)).
  rewrite length_append in *. lia.
Qed.

Lemma height_pos (v : Json) : (1 <= height v)%nat.
Proof. destruct v; simpl; lia. Qed.

Lemma fold_height_pos {A : Type} (h : A -> nat) (l : list A) :
  (1 <= fold_right (fun x acc => S (Nat.max (h x) acc)) 1 l)%nat.
Proof. destruct l; simpl; lia. Qed.

Lemma height_length :
  forall (v : Json) (k : string),
    (height v + String.length k <= String.length (put v k))%nat.
Proof.
  fix IH 1. intros v k.
  destruct v as [| b | q | s | items | fields]; simpl.
  - lia.
  - lia.
  - pose proof (length_putZ (Qnum q) (putPos (Qden q) k)).
    pose proof (length_putPos (Qden q) k). lia.
  - pose proof (length_putStr s k). lia.
  - apply le_n_S.
    induction items as [| x items IHitems]; simpl; [lia |].
    pose proof (IH x (fold_right put (String "]" k) items)).
    pose proof (height_pos x). pose proof (fold_height_pos height items). lia.
  - apply le_n_S.
    induction fields as [| [key x] fields IHfields]; simpl; [lia |].
    match goal with |- context [putStr key (put x ?rest)] =>
      pose proof (IH x rest); pose proof (length_putStr key (put x rest)) end.
    pose proof (height_pos x).
    pose proof (fold_height_pos (fun kv => height (snd kv)) fields). simpl in *. lia.
Qed.

Lemma parse_stringify (v : Json) : parse (stringify v) = Some v.
Proof.
  unfold parse, stringify. rewrite get_put; [reflexivity |].
  pose proof (height_length v EmptyString). lia.
Qed.

End ReferenceCodecFacts.

#[export] Instance referenceCodec : JsonCodec := {|
  JSON_stringify := ReferenceCodec.stringify;
  JSON_parse := ReferenceCodec.parse;
  JSON_parse_stringify := ReferenceCodecFacts.parse_stringify
|}.

(** ** The cache store *)

Section CacheFacts.

Implicit Types (c : gmap string string) (k : string) (ks : list string).

Lemma has_false k c : CacheStore.has k c = false <-> c !! k = None.
Proof.
  unfold CacheStore.has. rewrite bool_decide_eq_false.
  rewrite <- eq_None_not_Some. reflexivity.
Qed.

Lemma has_true k c : CacheStore.has k c = true <-> is_Some (c !! k).
Proof. unfold CacheStore.has. apply bool_decide_eq_true. Qed.

Lemma get_set k v c : CacheStore.get k (CacheStore.set k v c) = Some v.
Proof. unfold CacheStore.get, CacheStore.set. apply lookup_insert_eq. Qed.

Lemma has_set k v c : CacheStore.has k (CacheStore.set k v c) = true.
Proof.
  apply has_true. unfold CacheStore.set. rewrite lookup_insert_eq. eauto.
Qed.

Lemma has_del k c : CacheStore.has k (CacheStore.del k c) = false.
Proof. apply has_false. unfold CacheStore.del. apply lookup_delete_eq. Qed.

Lemma del_absent k c : c !! k = None -> CacheStore.del k c = c.
Proof. unfold CacheStore.del. apply delete_id. Qed.

(** A batch removal empties the listed keys and keeps the others. *)
Lemma lookup_deleteMany ks c k :
  CacheStore.deleteMany ks c !! k = if decide (k ∈ ks) then None else c !! k.
Proof.
  unfold CacheStore.deleteMany, CacheStore.del.
  revert c. induction ks as [| k' ks IH]; intros c; cbn [fold_left].
  - destruct (decide (k ∈ [])) as [Hin | _]; [inversion Hin | reflexivity].
  - rewrite IH. destruct (decide (k = k')) as [-> | Hne].
    + rewrite lookup_delete_eq.
      destruct (decide (k' ∈ k' :: ks)) as [_ | Hout].
      * destruct (decide (k' ∈ ks)); reflexivity.
      * destruct Hout. apply list_elem_of_here.
    + rewrite lookup_delete_ne by congruence.
      destruct (decide (k ∈ ks)) as [Hin | Hout],
               (decide (k ∈ k' :: ks)) as [Hin' | Hout']; try reflexivity.
      * destruct Hout'. apply list_elem_of_further, Hin.
      * apply elem_of_cons in Hin' as [E | Hin']; [congruence | contradiction].
Qed.

Lemma has_invalidated (r : InvalidationRequest) c k :
  k ∈ keysToPurge r -> CacheStore.has k (invalidate r c) = false.
Proof.
  intros Hin. apply has_false. unfold invalidate.
  rewrite lookup_deleteMany. case_decide; [reflexivity | contradiction].
Qed.

Lemma get_not_invalidated (r : InvalidationRequest) c k :
  k ∉ keysToPurge r ->
  CacheStore.get k (invalidate r c) = CacheStore.get k c.
Proof.
  intros Hout. unfold invalidate, CacheStore.get.
  rewrite lookup_deleteMany. case_decide; [contradiction | reflexivity].
Qed.

Lemma productKey_inj (x y : string) : productKey x = productKey y -> x = y.
Proof. unfold productKey. apply (inj (String.app "product-")). Qed.

Lemma productKey_not_shared (id : string) :
  productKey id ∉ ["latestProducts"; "categories"; "admin-products"; "admin-stats"].
Proof.
  unfold productKey. simpl. rewrite !elem_of_cons, elem_of_nil.
  intros [E | [E | [E | [E | []]]]]; discriminate E.
Qed.

End CacheFacts.

(** C3.  After the invalidation for a product write that names no
    product, none of the keys [latestProducts], [categories],
    [admin-products] and [admin-stats] is in the cache, whatever the cache
    held before. *)
Theorem invalidate_product_purges_views (c : gmap string string) :
  let c' := invalidate {| entityKind := Product; entityId := None |} c in
  CacheStore.has "latestProducts" c' = false
  /\ CacheStore.has "categories" c' = false
  /\ CacheStore.has "admin-products" c' = false
  /\ CacheStore.has "admin-stats" c' = false.
Proof.
  cbv zeta. repeat split; apply has_invalidated; simpl; set_solver.
Qed.

(** C4.  After the invalidation for a write to product [X], the detail
    entry of [X] is absent, and the detail entry of every other product
    reads as it did before: the same payload, or still absent. *)
Theorem invalidate_product_id_frame (X : string) (c : gmap string string) :
  let c' := invalidate {| entityKind := Product; entityId := Some X |} c in
  CacheStore.has (productKey X) c' = false
  /\ forall Y : string,
       Y <> X ->
       CacheStore.get (productKey Y) c' = CacheStore.get (productKey Y) c
       /\ CacheStore.has (productKey Y) c' = CacheStore.has (productKey Y) c.
Proof.
  cbv zeta. split.
  - apply has_invalidated. simpl. set_solver.
  - intros Y Hne.
    assert (G : CacheStore.get (productKey Y)
                  (invalidate {| entityKind := Product; entityId := Some X |} c)
                = CacheStore.get (productKey Y) c).
    { apply get_not_invalidated. simpl.
      change (productKey Y ∉ (["latestProducts"; "categories"; "admin-products";
                               "admin-stats"] ++ [productKey X])%list).
      rewrite elem_of_app, list_elem_of_singleton.
      intros [Hin | E].
      - exact (productKey_not_shared Y Hin).
      - apply Hne, productKey_inj, E. }
    split; [exact G |].
    unfold CacheStore.has. unfold CacheStore.get in G. rewrite G. reflexivity.
Qed.

(** ** The controllers *)

Section ControllerFacts.

Context `{JsonCodec}.

Lemma Some_pair_inv {A B : Type} (a a' : A) (b b' : B) :
  Some (a, b) = Some (a', b') -> a = a' /\ b = b'.
Proof. intros E. inversion E. split; reflexivity. Qed.

Lemma bind_getWorld {B : Type} (k : World -> M B) (w : World) :
  bind getWorld k w = k w w.
Proof. reflexivity. Qed.

Lemma bind_issue_reading {A B : Type} (q : Query) (answer : World -> A)
  (k : Settled A -> M B) (w : World) :
  bind (issue q (reading answer)) k w
  = k (settled w q (answer (logQuery q w))) (logQuery q w).
Proof.
  unfold bind, issue, reading, settled. destruct (rejected w q); reflexivity.
Qed.

Lemma issued_logQueries (qs : list Query) (w : World) :
  issued (logQueries qs w) = issued w ++ qs.
Proof.
  unfold logQueries. revert w.
  induction qs as [| q qs IH]; intros w; simpl.
  - symmetry. apply app_nil_r.
  - rewrite IH. simpl. rewrite <- app_assoc. reflexivity.
Qed.

(** The statistics computation issues the nine queries and changes
    nothing else in the world. *)
Lemma computeDashboardStats_run (w : World) :
  computeDashboardStats w
  = match statsResult w with
    | inl e => Some (inl e, logQueries (statsQueries (clock w)) w)
    | inr (Some s) => Some (inr s, logQueries (statsQueries (clock w)) w)
    | inr None => None
    end.
Proof.
  unfold computeDashboardStats. rewrite bind_getWorld. cbv zeta.
  unfold ProductModel.find_createdAt, UserModel.find_createdAt,
    OrderModel.find_createdAt, ProductModel.countDocuments,
    UserModel.countDocuments, OrderModel.find_select_total.
  repeat (rewrite bind_issue_reading; cbv beta).
  unfold statsResult, settled. cbn [rejected products users orders logQuery clock].
  unfold bind, await, throw, ret, logQueries, statsQueries. cbn [fold_left].
  cbv zeta.
  match goal with
  | |- match match ?j with _ => _ end _ with _ => _ end = _ => destruct j as [e | all]
  end.
  - reflexivity.
  - destruct all as (a1 & a2 & a3 & a4 & a5 & a6 & a7 & a8 & a9).
    destruct (assembleStats a1 a2 a3 a4 a5 a6 a7 a8 a9); reflexivity.
Qed.

Lemma handleGetDashboardStats_miss (w : World) :
  CacheStore.has "admin-stats" (nodeCache w) = false ->
  handleGetDashboardStats tt w
  = match statsResult w with
    | inl e => Some (Forwarded e, logQueries (statsQueries (clock w)) w)
    | inr (Some s) =>
        Some (Sent 200 (JObj [("success", JBool true);
                              ("message", JStr "Successfully get dashboard stats");
                              ("payload", statsToJSON s)]),
              logQueries (statsQueries (clock w)) w)
    | inr None => None
    end.
Proof.
  intros Hmiss. unfold handleGetDashboardStats, TryCatch.
  rewrite bind_getWorld. rewrite Hmiss. unfold bind at 1 2.
  rewrite computeDashboardStats_run.
  destruct (statsResult w) as [e | [s |]]; reflexivity.
Qed.

Lemma handleGetDashboardStats_hit (w : World) :
  CacheStore.has "admin-stats" (nodeCache w) = true ->
  exists out, handleGetDashboardStats tt w = Some (out, w).
Proof.
  intros Hhit. unfold handleGetDashboardStats, TryCatch.
  rewrite bind_getWorld. rewrite Hhit.
  unfold bind, parseCached, bind, getWorld, throw, ret.
  destruct (CacheStore.get "admin-stats" (nodeCache w)) as [text |];
    [destruct (JSON_parse text) |]; eauto.
Qed.

Lemma nodeCache_logQueries (qs : list Query) (w : World) :
  nodeCache (logQueries qs w) = nodeCache w.
Proof.
  unfold logQueries. revert w.
  induction qs as [| q qs IH]; intros w; simpl; [reflexivity |].
  rewrite IH. reflexivity.
Qed.

(** No call of the statistics controller writes to the cache. *)
Lemma handleGetDashboardStats_cache (w w' : World) (out : Outcome) :
  handleGetDashboardStats tt w = Some (out, w') -> nodeCache w' = nodeCache w.
Proof.
  destruct (CacheStore.has "admin-stats" (nodeCache w)) eqn:Hhas.
  - destruct (handleGetDashboardStats_hit w Hhas) as [out' E].
    rewrite E. intros E'. apply Some_pair_inv in E' as [_ <-]. reflexivity.
  - rewrite (handleGetDashboardStats_miss w Hhas).
    destruct (statsResult w) as [e | [s |]]; [| | discriminate]; intros E;
      apply Some_pair_inv in E as [_ <-]; apply nodeCache_logQueries.
Qed.

(** A rejected query among the nine makes [Promise.all] reject with the
    error of a rejected query. *)
Lemma statsResult_rejected (w : World) (q : Query) :
  q ∈ statsQueries (clock w) -> rejected w q = true ->
  exists q', statsResult w = inl (DataSourceFailure q')
             /\ q' ∈ statsQueries (clock w) /\ rejected w q' = true.
Proof.
  intros Hin Hrej. unfold statsResult, settled, statsQueries in *.
  cbv zeta in *.
  generalize dependent (thisMonthOf (clock w)).
  generalize dependent (lastMonthOf (clock w)).
  intros lastMonth thisMonth Hin.
  repeat match goal with
  | |- context [if rejected w ?qi then _ else _] =>
      destruct (rejected w qi) eqn:?;
        [ cbn [both]; eexists; split; [reflexivity |];
          split; [| eassumption]; rewrite !elem_of_cons; tauto
        | ]
  end.
  rewrite !elem_of_cons, elem_of_nil in Hin.
  repeat destruct Hin as [-> | Hin]; try congruence. destruct Hin.
Qed.

Lemma statsResult_fulfilled (w : World) :
  (forall q, q ∈ statsQueries (clock w) -> rejected w q = false) ->
  statsResult w
  = inr (assembleStats
           (ProductModel.createdIn (w_start (thisMonthOf (clock w)))
              (w_end (thisMonthOf (clock w))) (products w))
           (ProductModel.createdIn (w_start (lastMonthOf (clock w)))
              (w_end (lastMonthOf (clock w))) (products w))
           (UserModel.createdIn (w_start (thisMonthOf (clock w)))
              (w_end (thisMonthOf (clock w))) (users w))
           (UserModel.createdIn (w_start (lastMonthOf (clock w)))
              (w_end (lastMonthOf (clock w))) (users w))
           (OrderModel.createdIn (w_start (thisMonthOf (clock w)))
              (w_end (thisMonthOf (clock w))) (orders w))
           (OrderModel.createdIn (w_start (lastMonthOf (clock w)))
              (w_end (lastMonthOf (clock w))) (orders w))
           (length (products w)) (length (users w)) (orders w)).
Proof.
  intros Hok. unfold statsResult, settled. cbv zeta.
  unfold statsQueries in Hok. cbv zeta in Hok.
  generalize dependent (thisMonthOf (clock w)).
  generalize dependent (lastMonthOf (clock w)).
  intros lastMonth thisMonth Hok.
  rewrite !Hok by (rewrite !elem_of_cons; tauto).
  reflexivity.
Qed.

End ControllerFacts.

(** ** The statistics are never stored *)

(** C1.  On the sample shop, whose cache is empty, the statistics
    controller answers 200 with a snapshot, and afterwards the key
    [admin-stats] is still absent: the miss branch computes the snapshot
    and does not store it. *)
Theorem dashboard_stats_miss_not_stored :
  CacheStore.has "admin-stats" (nodeCache sampleShop) = false
  /\ exists body w',
       handleGetDashboardStats tt sampleShop = Some (Sent 200 body, w')
       /\ CacheStore.has "admin-stats" (nodeCache w') = false
       /\ CacheStore.get "admin-stats" (nodeCache w') = None.
Proof.
  assert (Hmiss : CacheStore.has "admin-stats" (nodeCache sampleShop) = false)
    by reflexivity.
  split; [exact Hmiss |].
  pose proof (handleGetDashboardStats_miss sampleShop Hmiss) as Hrun.
  destruct (statsResult sampleShop) as [e | [s |]] eqn:Hres;
    [vm_compute in Hres; discriminate Hres | | vm_compute in Hres; discriminate Hres].
  eexists. eexists. split; [exact Hrun |].
  rewrite nodeCache_logQueries. split; reflexivity.
Qed.

Lemma clock_logQueries (qs : list Query) (w : World) :
  clock (logQueries qs w) = clock w.
Proof.
  unfold logQueries. revert w.
  induction qs as [| q qs IH]; intros w; simpl; [reflexivity |].
  rewrite IH. reflexivity.
Qed.

Lemma statsResult_logQueries (qs : list Query) (w : World) :
  statsResult (logQueries qs w) = statsResult w.
Proof.
  unfold logQueries. revert w.
  induction qs as [| q qs IH]; intros w; simpl; [reflexivity |].
  rewrite IH. reflexivity.
Qed.

(** Whenever the statistics are not cached, a call that ends is followed
    by a call that ends the same way and issues the nine queries
    again. *)
Lemma handleGetDashboardStats_twice `{JsonCodec} (w w1 : World) (out : Outcome) :
  CacheStore.has "admin-stats" (nodeCache w) = false ->
  handleGetDashboardStats tt w = Some (out, w1) ->
  exists w2 : World,
    handleGetDashboardStats tt w1 = Some (out, w2)
    /\ issued w2
       = issued w ++ statsQueries (clock w) ++ statsQueries (clock w).
Proof.
  intros Hmiss.
  assert (Hmiss1 : CacheStore.has "admin-stats"
                     (nodeCache (logQueries (statsQueries (clock w)) w)) = false)
    by (rewrite nodeCache_logQueries; exact Hmiss).
  rewrite (handleGetDashboardStats_miss w Hmiss).
  pose proof (handleGetDashboardStats_miss _ Hmiss1) as Hrun.
  rewrite statsResult_logQueries in Hrun.
  rewrite clock_logQueries in Hrun.
  destruct (statsResult w) as [e | [s |]]; [| | discriminate]; intros E;
    apply Some_pair_inv in E as [<- <-];
    (eexists; split; [exact Hrun |]);
    rewrite !issued_logQueries, <- app_assoc; reflexivity.
Qed.

(** C5.  Two calls of the statistics controller in a row on the sample
    shop, with nothing in between: both answer 200 with the same body,
    but the second call is not served from the cache; it issues the nine
    queries again, eighteen in all. *)
Theorem dashboard_stats_second_call_recomputes :
  exists (body : Json) (w1 w2 : World),
    handleGetDashboardStats tt sampleShop = Some (Sent 200 body, w1)
    /\ handleGetDashboardStats tt w1 = Some (Sent 200 body, w2)
    /\ nodeCache w1 = nodeCache sampleShop
    /\ issued w1 = statsQueries (clock sampleShop)
    /\ issued w2 = statsQueries (clock sampleShop) ++ statsQueries (clock sampleShop)
    /\ length (issued w2) = 18%nat.
Proof.
  assert (Hmiss : CacheStore.has "admin-stats" (nodeCache sampleShop) = false)
    by reflexivity.
  pose proof (handleGetDashboardStats_miss sampleShop Hmiss) as Hrun1.
  set (w1 := logQueries (statsQueries (clock sampleShop)) sampleShop) in *.
  assert (Hmiss1 : CacheStore.has "admin-stats" (nodeCache w1) = false)
    by (unfold w1; rewrite nodeCache_logQueries; exact Hmiss).
  pose proof (handleGetDashboardStats_miss w1 Hmiss1) as Hrun2.
  assert (Hsame : statsResult w1 = statsResult sampleShop) by reflexivity.
  rewrite Hsame in Hrun2.
  destruct (statsResult sampleShop) as [e | [s |]] eqn:Hres;
    [vm_compute in Hres; discriminate Hres | | vm_compute in Hres; discriminate Hres].
  eexists. exists w1. eexists. split; [exact Hrun1 |]. split; [exact Hrun2 |].
  split; [unfold w1; apply nodeCache_logQueries |].
  assert (Hclock : clock w1 = clock sampleShop) by reflexivity.
  rewrite Hclock. rewrite !issued_logQueries. unfold w1.
  rewrite issued_logQueries. repeat split; reflexivity.
Qed.

(** ** Revenue and counts *)

Lemma insertDesc_length {A : Type} (key : A -> Z) (x : A) (l : list A) :
  length (insertDesc key x l) = S (length l).
Proof.
  induction l as [| y l IH]; simpl; [reflexivity |].
  destruct (key y <=? key x); simpl; [reflexivity | rewrite IH; reflexivity].
Qed.

(** Sorting keeps every document: the products counted in a window are
    the products the filter selects. *)
Lemma sortDesc_length {A : Type} (key : A -> Z) (l : list A) :
  length (sortDesc key l) = length l.
Proof.
  unfold sortDesc. induction l as [| x l IH]; simpl; [reflexivity |].
  rewrite insertDesc_length, IH. reflexivity.
Qed.

(** *** Double arithmetic *)

Lemma Qred_inject_Z (z : Z) : Qred (inject_Z z) = inject_Z z.
Proof.
  unfold Qred, inject_Z.
  pose proof (Z.ggcd_gcd z 1) as Hg.
  pose proof (Z.ggcd_correct_divisors z 1) as Hd.
  destruct (Z.ggcd z 1) as [g [n d]]. simpl in Hg. rewrite Z.gcd_1_r in Hg.
  subst g. destruct Hd as [Hn Hd]. rewrite Z.mul_1_l in Hn, Hd.
  subst n d. reflexivity.
Qed.

(** Rounding reads the value of a rational, not its numerator and
    denominator. *)
Lemma roundDouble_proper (p q : Q) : (p == q)%Q -> roundDouble p = roundDouble q.
Proof. intros E. unfold roundDouble. rewrite (Qred_complete _ _ E). reflexivity. Qed.

Lemma roundHalfEven_integer (q : Q) (k : Z) :
  (q == inject_Z k)%Q -> roundHalfEven q = k.
Proof.
  intros E. unfold roundHalfEven.
  assert (Hf : Qfloor q = k) by (rewrite E; apply Qfloor_Z).
  rewrite Hf.
  assert (Hc : (q - inject_Z k ?= 1 # 2)%Q = Lt).
  { rewrite <- Qlt_alt. rewrite E. unfold Qlt, Qminus, Qplus, Qopp, inject_Z.
    simpl. lia. }
  rewrite Hc. reflexivity.
Qed.

(** A non-negative integer below [2^53], or [2^53] itself, is a whole
    multiple of its unit in the last place. *)
Lemma scaled_integer (n : Z) (u : Z) :
  0 <= n -> -52 <= u <= 1 -> (u = 1 -> Z.even n = true) ->
  exists k, (inject_Z n / pow2 u == inject_Z k)%Q
            /\ (inject_Z k * pow2 u == inject_Z n)%Q.
Proof.
  intros Hn Hu Heven.
  destruct u as [| p | p].
  - exists n. change (pow2 0) with 1%Q. split; [field | ring].
  - assert (p = 1%positive) by lia. subst p.
    specialize (Heven eq_refl). apply Z.even_spec in Heven as [h ->].
    exists h. change (pow2 1) with (inject_Z 2).
    rewrite inject_Z_mult. split; [field | ring].
  - exists (n * 2 ^ Zpos p). unfold pow2.
    assert (Hp : 0 < 2 ^ Zpos p) by (apply Z.pow_pos_nonneg; lia).
    rewrite inject_Z_mult.
    assert (E : (1 # 2 ^ p == / inject_Z (2 ^ Zpos p))%Q).
    { rewrite <- Pos2Z.inj_pow. unfold Qeq, Qinv, inject_Z. simpl. lia. }
    rewrite E.
    assert (Hnz : ~ (inject_Z (2 ^ Zpos p) == 0)%Q).
    { unfold Qeq, inject_Z. simpl. lia. }
    split; field; exact Hnz.
Qed.

(** An integer of absolute value at most [2^53] is a double. *)
Lemma roundDouble_integer (z : Z) :
  Z.abs z <= 2 ^ 53 -> roundDouble (inject_Z z) = Finite (inject_Z z).
Proof.
  intros Hz. unfold roundDouble. cbv zeta. rewrite Qred_inject_Z.
  destruct (Z.eq_dec z 0) as [-> | Hnz]; [reflexivity |].
  assert (Hne : Qeq_bool (inject_Z z) 0 = false).
  { apply not_true_is_false. intros E. apply Qeq_bool_iff in E.
    unfold Qeq, inject_Z in E. simpl in E. lia. }
  rewrite Hne.
  assert (Ha : Qabs (inject_Z z) = inject_Z (Z.abs z)) by reflexivity.
  rewrite Ha.
  set (n := Z.abs z) in *.
  assert (Hn : 0 < n) by (unfold n; lia).
  assert (Hlog : ilog2 (inject_Z n) = Z.log2 n).
  { unfold ilog2. cbn [Qnum Qden inject_Z]. change (Z.log2 1) with 0.
    rewrite Z.sub_0_r.
    assert (Hle : Qle_bool (pow2 (Z.log2 n)) (inject_Z n) = true).
    { apply Qle_bool_iff. pose proof (Z.log2_nonneg n) as H0.
      destruct (Z.log2_spec n Hn) as [Hlo _].
      unfold pow2. destruct (Z.log2 n) eqn:El; try lia;
        rewrite <- Zle_Qle; exact Hlo. }
    rewrite Hle. reflexivity. }
  rewrite Hlog.
  assert (H53 : Z.log2 n <= 53).
  { rewrite <- (Z.log2_pow2 53) by lia. apply Z.log2_le_mono. exact Hz. }
  pose proof (Z.log2_nonneg n) as H0.
  rewrite Z.max_l by lia.
  assert (Heven : Z.log2 n - 52 = 1 -> Z.even n = true).
  { intros E. assert (El : Z.log2 n = 53) by lia.
    destruct (Z.log2_spec n Hn) as [Hlo _]. rewrite El in Hlo.
    assert (E53 : n = 2 ^ 53) by lia. rewrite E53. reflexivity. }
  destruct (scaled_integer n (Z.log2 n - 52) ltac:(lia) ltac:(lia) Heven)
    as (k & Hk & Hback).
  rewrite (roundHalfEven_integer _ _ Hk).
  assert (Hsmall : Qle_bool (pow2 1024) (inject_Z k * pow2 (Z.log2 n - 52)) = false).
  { apply not_true_is_false. intros E. apply Qle_bool_iff in E.
    rewrite Hback in E. unfold pow2 in E. rewrite <- Zle_Qle in E.
    assert (2 ^ 53 < 2 ^ 1024) by (apply Z.pow_lt_mono_r; lia). lia. }
  rewrite Hsmall. f_equal.
  transitivity (Qred (inject_Z z)); [| apply Qred_inject_Z].
  apply Qred_complete.
  change (Qnum (inject_Z z)) with z.
  destruct (z <? 0) eqn:Es; [apply Z.ltb_lt in Es | apply Z.ltb_ge in Es];
    rewrite Hback; unfold n, Qeq, Qopp, inject_Z; simpl; lia.
Qed.

(** The addition of doubles agrees with the exact one on whole numbers
    while the sum stays within [2^53]; beyond, and on fractions, it
    rounds. *)
Example jsAdd_examples :
  jsAdd 100 200 = Finite 300
  /\ jsAdd (inject_Z (2 ^ 53)) 1 = Finite (inject_Z (2 ^ 53))
  /\ roundDouble (1 # 10) = Finite (3602879701896397 # 36028797018963968)
  /\ roundDouble (2 # 10) = Finite (3602879701896397 # 18014398509481984)
  /\ jsAdd (3602879701896397 # 36028797018963968)
       (3602879701896397 # 18014398509481984)
     = Finite (1351079888211149 # 4503599627370496)
  /\ roundDouble (3 # 10) = Finite (5404319552844595 # 18014398509481984)
  /\ jsAdd (inject_Z (2 ^ 1023)) (inject_Z (2 ^ 1023)) = Infinite false.
Proof. repeat split; vm_compute; reflexivity. Qed.

(** [jsAdd] against the binary64 addition of the Standard Library's
    specification of IEEE 754, on sums that are exact, that round down,
    up and to even, that are subnormal, that cancel and that
    overflow. *)
Example jsAdd_agrees_with_SpecFloat :
  forallb (fun xy => agreesWithSpecFloat (fst xy) (snd xy))
    [ ((3602879701896397, -55), (3602879701896397, -54));
      ((1, 0), (1, -53)); ((1, 0), (3, -54)); ((1, 0), (1, -52));
      ((2 ^ 53 - 1, 0), (1, 0)); ((2 ^ 53, 0), (1, 0)); ((2 ^ 53, 0), (3, 0));
      ((2 ^ 53 + 2, 0), (1, 0)); ((2 ^ 53 - 1, 971), (2 ^ 53 - 1, 971));
      ((2 ^ 53 - 1, 971), (1, 970)); ((2 ^ 53 - 1, 971), (1, 969));
      ((1, -1074), (1, -1074)); ((3, -1074), (-1, -1074));
      ((2 ^ 52, -1074), (1, -1074)); ((- (2 ^ 53 - 1), 971), (-1, 970));
      ((5, 0), (-5, 0)); ((4503599627370497, -52), (1, -53));
      ((4503599627370497, -52), (-1, -54)); ((1, 100), (1, 0));
      ((1, 100), (-1, 0)); ((7, -3), (9, 20)) ]
  = true.
Proof. vm_compute. reflexivity. Qed.

(** *** The reduction *)

Lemma sumZ_abs_nonneg (zs : list Z) : 0 <= sumZ (map Z.abs zs).
Proof. induction zs as [| z zs IH]; simpl; lia. Qed.

(** While the totals are whole numbers and their absolute values add up
    to at most [2^53], no addition rounds. *)
Lemma fold_addTotal_whole (os : list OrderDoc) (zs : list Z) (a : Z) :
  Forall2 (fun o z => (totalOrZero o == inject_Z z)%Q) os zs ->
  Z.abs a + sumZ (map Z.abs zs) <= 2 ^ 53 ->
  fold_left addTotal os (Finite (inject_Z a)) = Finite (inject_Z (a + sumZ zs)).
Proof.
  intros Hall. revert a.
  induction Hall as [| o z os zs Ho Hall IH]; intros a Hbound; simpl in *.
  - rewrite Z.add_0_r. reflexivity.
  - pose proof (sumZ_abs_nonneg zs) as Hpos.
    unfold jsAdd.
    rewrite (roundDouble_proper _ (inject_Z (a + z)))
      by (rewrite Ho, inject_Z_plus; reflexivity).
    rewrite roundDouble_integer by lia.
    rewrite IH by lia. rewrite Z.add_assoc. reflexivity.
Qed.

Lemma sumTotals_whole (os : list OrderDoc) (zs : list Z) :
  Forall2 (fun o z => (totalOrZero o == inject_Z z)%Q) os zs ->
  sumZ (map Z.abs zs) <= 2 ^ 53 ->
  sumTotals os = Finite (inject_Z (sumZ zs)).
Proof.
  intros Hall Hbound. unfold sumTotals.
  change (Finite 0) with (Finite (inject_Z 0)).
  rewrite (fold_addTotal_whole os zs 0 Hall) by (simpl; lia).
  reflexivity.
Qed.

Lemma sumTotals_snoc (os : list OrderDoc) (o : OrderDoc) :
  sumTotals (os ++ [o]) = addTotal (sumTotals os) o.
Proof. unfold sumTotals. rewrite fold_left_app. reflexivity. Qed.

Section StatisticsFacts.

Context `{JsonCodec}.

(** C8.  When the statistics are not cached, none of the nine queries is
    rejected and the revenue of either month is a finite sum, the
    controller answers 200 with a snapshot in which: the revenue
    percentage compares the sums of the totals of the this-month and of
    the last-month orders; the revenue count is the sum of the totals of
    all orders; and the other counts are the number of products, the
    number of users and the number of orders.  A sum is what [reduce]
    computes: from 0, the totals are added one after the other in
    doubles, a missing total as 0.  It is the exact sum whenever the
    totals are whole numbers whose absolute values add up to at most
    [2^53]; it is not in general: the doubles nearest to 0.1 and to 0.2
    add up to 0.30000000000000004. *)
Theorem stats_revenue_and_counts (w : World)
  (thisMonthRevenue lastMonthRevenue : Q) :
  CacheStore.has "admin-stats" (nodeCache w) = false ->
  (forall q, q ∈ statsQueries (clock w) -> rejected w q = false) ->
  let thisMonth := thisMonthOf (clock w) in
  let lastMonth := lastMonthOf (clock w) in
  let thisMonthProducts :=
    ProductModel.createdIn (w_start thisMonth) (w_end thisMonth) (products w) in
  let lastMonthProducts :=
    ProductModel.createdIn (w_start lastMonth) (w_end lastMonth) (products w) in
  let thisMonthUsers :=
    UserModel.createdIn (w_start thisMonth) (w_end thisMonth) (users w) in
  let lastMonthUsers :=
    UserModel.createdIn (w_start lastMonth) (w_end lastMonth) (users w) in
  let thisMonthOrders :=
    OrderModel.createdIn (w_start thisMonth) (w_end thisMonth) (orders w) in
  let lastMonthOrders :=
    OrderModel.createdIn (w_start lastMonth) (w_end lastMonth) (orders w) in
  let total := fun o : OrderDoc => default 0%Q (o_total o) in
  sumTotals thisMonthOrders = Finite thisMonthRevenue ->
  sumTotals lastMonthOrders = Finite lastMonthRevenue ->
  (exists w' : World,
     handleGetDashboardStats tt w
     = Some (Sent 200
               (JObj [("success", JBool true);
                      ("message", JStr "Successfully get dashboard stats");
                      ("payload",
                       JObj [("percentage",
                              JObj [("revenue",
                                     JNum (calculatePercentage thisMonthRevenue
                                             lastMonthRevenue));
                                    ("product",
                                     JNum (calculatePercentage
                                             (ofNat (length thisMonthProducts))
                                             (ofNat (length lastMonthProducts))));
                                    ("user",
                                     JNum (calculatePercentage
                                             (ofNat (length thisMonthUsers))
                                             (ofNat (length lastMonthUsers))));
                                    ("order",
                                     JNum (calculatePercentage
                                             (ofNat (length thisMonthOrders))
                                             (ofNat (length lastMonthOrders))))]);
                             ("count",
                              JObj [("revenue",
                                     match sumTotals (orders w) with
                                     | Finite revenue => JNum revenue
                                     | Infinite _ => JNull
                                     end);
                                    ("product",
                                     JNum (inject_Z (Z.of_nat (length (products w)))));
                                    ("user",
                                     JNum (inject_Z (Z.of_nat (length (users w)))));
                                    ("order",
                                     JNum (inject_Z (Z.of_nat (length (orders w)))))])])]),
             w'))
  /\ sumTotals [] = Finite 0
  /\ (forall os o,
        sumTotals (os ++ [o])
        = match sumTotals os with
          | Finite sum => jsAdd sum (total o)
          | Infinite negative => Infinite negative
          end)
  /\ (forall os zs,
        Forall2 (fun o z => (total o == inject_Z z)%Q) os zs ->
        sumZ (map Z.abs zs) <= 2 ^ 53 ->
        sumTotals os = Finite (inject_Z (sumZ zs)))
  /\ (forall a b : OrderDoc,
        o_total a = Some (3602879701896397 # 36028797018963968)%Q ->
        o_total b = Some (3602879701896397 # 18014398509481984)%Q ->
        sumTotals [a; b] = Finite (1351079888211149 # 4503599627370496)%Q).
Proof.
  intros Hmiss Hok. cbv zeta. intros Hthis Hlast.
  split.
  { rewrite (handleGetDashboardStats_miss w Hmiss).
    rewrite (statsResult_fulfilled w Hok).
    unfold assembleStats. rewrite Hthis, Hlast.
    eexists. reflexivity. }
  split; [reflexivity |].
  split; [intros os o; apply sumTotals_snoc |].
  split; [intros os zs Hall Hbound; apply sumTotals_whole; assumption |].
  intros a b Ha Hb. unfold sumTotals. cbn [fold_left].
  assert (Efirst : addTotal (Finite 0) a
                   = Finite (3602879701896397 # 36028797018963968)%Q)
    by (unfold addTotal, totalOrZero; rewrite Ha; vm_compute; reflexivity).
  rewrite Efirst. unfold addTotal, totalOrZero. rewrite Hb.
  vm_compute. reflexivity.
Qed.

(** C9.  When the statistics are not cached and the data source rejects
    one of the nine queries, the controller sends no snapshot: it hands
    the rejection of a rejected query to [next]; the cache is as it was,
    without [admin-stats]; and the next call runs, and issues the nine
    queries again. *)
Theorem stats_failure_aborts (w : World) (q : Query) :
  CacheStore.has "admin-stats" (nodeCache w) = false ->
  q ∈ statsQueries (clock w) ->
  rejected w q = true ->
  exists (q' : Query) (w' : World),
    handleGetDashboardStats tt w = Some (Forwarded (DataSourceFailure q'), w')
    /\ q' ∈ statsQueries (clock w) /\ rejected w q' = true
    /\ nodeCache w' = nodeCache w
    /\ CacheStore.has "admin-stats" (nodeCache w') = false
    /\ issued w' = issued w ++ statsQueries (clock w)
    /\ exists (out : Outcome) (w'' : World),
         handleGetDashboardStats tt w' = Some (out, w'')
         /\ issued w'' = issued w' ++ statsQueries (clock w').
Proof.
  intros Hmiss Hin Hrej.
  destruct (statsResult_rejected w q Hin Hrej) as (q' & Hres & Hin' & Hrej').
  exists q', (logQueries (statsQueries (clock w)) w).
  rewrite (handleGetDashboardStats_miss w Hmiss), Hres.
  rewrite nodeCache_logQueries, issued_logQueries.
  repeat (split; [first [reflexivity | assumption] |]).
  assert (Hmiss' : CacheStore.has "admin-stats"
                     (nodeCache (logQueries (statsQueries (clock w)) w)) = false)
    by (rewrite nodeCache_logQueries; exact Hmiss).
  rewrite (handleGetDashboardStats_miss _ Hmiss').
  rewrite statsResult_logQueries, Hres.
  eexists. eexists. split; [reflexivity |].
  rewrite !issued_logQueries. reflexivity.
Qed.

End StatisticsFacts.

(** ** The percentage *)

Section PercentageFacts.

Local Open Scope Q_scope.

Lemma calculatePercentage_zero_baseline (current previous : Q) :
  previous == 0 -> calculatePercentage current previous = current * 100.
Proof.
  intros Hz. unfold calculatePercentage.
  apply Qeq_bool_iff in Hz. rewrite Hz. reflexivity.
Qed.

Lemma calculatePercentage_baseline (current previous : Q) :
  ~ previous == 0 ->
  calculatePercentage current previous
  = roundToHundredths (((current - previous) / previous) * 100).
Proof.
  intros Hnz. unfold calculatePercentage.
  destruct (Qeq_bool previous 0) eqn:E; [| reflexivity].
  apply Qeq_bool_iff in E. contradiction.
Qed.

(** Rounding gives a whole number of hundredths, at most half a
    hundredth away. *)
Lemma roundToHundredths_near (x : Q) :
  (exists n : Z, roundToHundredths x = n # 100)
  /\ Qabs (roundToHundredths x - x) <= 1 # 200.
Proof.
  unfold roundToHundredths. split; [eexists; reflexivity |].
  set (y := x * 100 + (1 # 2)).
  pose proof (Qfloor_le y) as Hlo. pose proof (Qlt_floor y) as Hhi.
  rewrite inject_Z_plus in Hhi.
  apply Qabs_Qle_condition.
  assert (E : (Qfloor y # 100) == inject_Z (Qfloor y) / 100) by apply Qmake_Qdiv.
  set (f := inject_Z (Qfloor y)) in *.
  set (r := Qfloor y # 100) in *.
  assert (E' : r * 100 == f) by (rewrite E; field).
  unfold y in *. change (inject_Z 1) with 1 in Hhi.
  split; lra.
Qed.

(** C6.  For non-negative [current] and [previous]: with a zero baseline
    the percentage is [current * 100]; otherwise it is the relative
    change [((current - previous) / previous) * 100] rounded to two
    decimal places, that is a whole number of hundredths at most half a
    hundredth away from it.  In particular the percentage of (5, 0) is
    500, of (150, 100) is 50, of (50, 100) is -50 and of (0, 0) is 0. *)
Theorem calculatePercentage_spec (current previous : Q) :
  0 <= current -> 0 <= previous ->
  (previous == 0 -> calculatePercentage current previous == current * 100)
  /\ (~ previous == 0 ->
      let exact := ((current - previous) / previous) * 100 in
      calculatePercentage current previous = roundToHundredths exact
      /\ (exists n : Z, calculatePercentage current previous = n # 100)
      /\ Qabs (calculatePercentage current previous - exact) <= 1 # 200)
  /\ calculatePercentage 5 0 == 500
  /\ calculatePercentage 150 100 == 50
  /\ calculatePercentage 50 100 == -50
  /\ calculatePercentage 0 0 == 0.
Proof.
  intros _ _. split; [| split].
  - intros Hz. rewrite (calculatePercentage_zero_baseline _ _ Hz). reflexivity.
  - intros Hnz. cbv zeta.
    rewrite (calculatePercentage_baseline _ _ Hnz).
    split; [reflexivity |]. apply roundToHundredths_near.
  - repeat split; reflexivity.
Qed.

End PercentageFacts.

(** ** The time windows *)

Example dates_of_the_sample :
  toISOString noon15June = "2024-06-15T12:00:00.000Z"
  /\ toISOString startOfMay = "2024-05-01T00:00:00.000Z"
  /\ toISOString tenOn31May = "2024-05-31T10:00:00.000Z"
  /\ toISOString tenOn10June = "2024-06-10T10:00:00.000Z"
  /\ newDate 2024 5 1 = 1717200000000
  /\ newDate 2024 (-1) 1 = newDate 2023 11 1
  /\ getFullYear noon15June = 2024 /\ getMonth noon15June = 5.
Proof. repeat split; reflexivity. Qed.

(** The last-month window ends at the midnight that starts the last day
    of the previous month, one whole day before this month starts. *)
Lemma lastMonth_end_before_thisMonth (today : Z) :
  w_end (lastMonthOf today) = w_start (thisMonthOf today) - msPerDay.
Proof.
  unfold lastMonthOf, thisMonthOf, newDate, MakeDay. cbn [w_start w_end].
  lia.
Qed.

(** An instant of that last day, after its midnight, belongs to neither
    window, for each of the three kinds of documents. *)
Lemma final_day_in_no_window (today t : Z) :
  w_end (lastMonthOf today) < t < w_start (thisMonthOf today) ->
  (w_start (lastMonthOf today) <=? t) && (t <=? w_end (lastMonthOf today)) = false
  /\ (w_start (lastMonthOf today) <? t) && (t <=? w_end (lastMonthOf today)) = false
  /\ (w_start (thisMonthOf today) <=? t) && (t <=? w_end (thisMonthOf today)) = false
  /\ (w_start (thisMonthOf today) <? t) && (t <=? w_end (thisMonthOf today)) = false.
Proof.
  intros [Hlo Hhi].
  apply Z.leb_gt in Hlo. apply Z.leb_gt in Hhi as Hge. apply Z.lt_le_incl in Hhi.
  apply Z.ltb_ge in Hhi.
  rewrite Hlo, Hge, Hhi, !andb_false_r. repeat split; reflexivity.
Qed.

(** C7.  On the sample shop, on 15 June 2024 at noon: the last-month
    window runs from 1 May 00:00 to 31 May 00:00, so the order placed on
    31 May at 10:00 is in neither the last-month nor the this-month list
    and the order percentage compares 2 with 0; and of a user and a
    product both created on 1 May at 00:00, the user is among the
    last-month users and the product is not among the last-month
    products. *)
Theorem last_month_window_misses_final_day :
  let lastMonth := lastMonthOf (clock sampleShop) in
  let thisMonth := thisMonthOf (clock sampleShop) in
  toISOString (w_start lastMonth) = "2024-05-01T00:00:00.000Z"
  /\ toISOString (w_end lastMonth) = "2024-05-31T00:00:00.000Z"
  /\ toISOString (w_start thisMonth) = "2024-06-01T00:00:00.000Z"
  /\ toISOString (w_end thisMonth) = "2024-06-15T12:00:00.000Z"
  /\ map (fun o => (o_id o, toISOString (o_createdAt o))) (orders sampleShop)
     = [("o1", "2024-05-31T10:00:00.000Z"); ("o2", "2024-06-10T10:00:00.000Z");
        ("o3", "2024-06-10T10:00:00.000Z")]
  /\ map o_id (OrderModel.createdIn (w_start lastMonth) (w_end lastMonth)
                 (orders sampleShop)) = []
  /\ map o_id (OrderModel.createdIn (w_start thisMonth) (w_end thisMonth)
                 (orders sampleShop)) = ["o2"; "o3"]
  /\ map (fun u => (u_id u, toISOString (u_createdAt u)))
       (UserModel.createdIn (w_start lastMonth) (w_end lastMonth) (users sampleShop))
     = [("u1", "2024-05-01T00:00:00.000Z")]
  /\ map (fun p => (p_id p, toISOString (p_createdAt p))) (products sampleShop)
     = [("p1", "2024-05-01T00:00:00.000Z"); ("p2", "2024-06-10T10:00:00.000Z")]
  /\ map p_id (ProductModel.createdIn (w_start lastMonth) (w_end lastMonth)
                 (products sampleShop)) = []
  /\ exists (s : StatsSnapshot) (w' : World),
       handleGetDashboardStats tt sampleShop
       = Some (Sent 200 (JObj [("success", JBool true);
                               ("message", JStr "Successfully get dashboard stats");
                               ("payload", statsToJSON s)]), w')
       /\ (order (percentage s) == calculatePercentage 2 0)%Q
       /\ (revenue (percentage s) == calculatePercentage 200 0)%Q
       /\ (user (percentage s) == calculatePercentage 1 1)%Q
       /\ (product (percentage s) == calculatePercentage 1 0)%Q.
Proof.
  cbv zeta. repeat (split; [vm_compute; reflexivity |]).
  assert (Hmiss : CacheStore.has "admin-stats" (nodeCache sampleShop) = false)
    by reflexivity.
  pose proof (handleGetDashboardStats_miss sampleShop Hmiss) as Hrun.
  destruct (statsResult sampleShop) as [e | [s |]] eqn:Hres;
    [vm_compute in Hres; discriminate Hres | | vm_compute in Hres; discriminate Hres].
  exists s. eexists. split; [exact Hrun |].
  assert (Hs : inr (Some s) = statsResult sampleShop) by (symmetry; exact Hres).
  vm_compute in Hs. injection Hs as ->.
  repeat split; reflexivity.
Qed.

(** ** Read-through paths *)

Section ReadThroughFacts.

Context `{JsonCodec}.

Local Open Scope ctl_scope.

Lemma parseCached_world (key : string) (w w' : World) (r : Error + Json) :
  parseCached key w = Some (r, w') -> w' = w.
Proof.
  unfold parseCached. rewrite bind_getWorld.
  destruct (CacheStore.get key (nodeCache w)) as [text |];
    [destruct (JSON_parse text) |];
    unfold ret, throw; intros E; apply Some_pair_inv in E as [_ <-]; reflexivity.
Qed.

Lemma parseCached_stored (key : string) (v : Json) (w : World) :
  CacheStore.get key (nodeCache w) = Some (JSON_stringify v) ->
  parseCached key w = Some (inr v, w).
Proof.
  intros Hget. unfold parseCached. rewrite bind_getWorld, Hget.
  rewrite JSON_parse_stringify. reflexivity.
Qed.

Lemma readThrough_hit {A : Type} (key : string) (q : Query)
  (answer : World -> A) (toJson : A -> Json) (w : World) :
  CacheStore.has key (nodeCache w) = true ->
  readThrough key q answer toJson w = parseCached key w.
Proof.
  intros Hhit. unfold readThrough. rewrite bind_getWorld, Hhit. reflexivity.
Qed.

Lemma readThrough_miss {A : Type} (key : string) (q : Query)
  (answer : World -> A) (toJson : A -> Json) (w : World) :
  CacheStore.has key (nodeCache w) = false ->
  readThrough key q answer toJson w
  = if rejected w q then Some (inl (DataSourceFailure q), logQuery q w)
    else Some (inr (toJson (answer (logQuery q w))),
               withCache (CacheStore.set key
                            (JSON_stringify (toJson (answer (logQuery q w))))
                            (nodeCache w))
                 (logQuery q w)).
Proof.
  intros Hmiss. unfold readThrough. rewrite bind_getWorld, Hmiss.
  rewrite bind_issue_reading. unfold settled.
  destruct (rejected w q); reflexivity.
Qed.

(** A read that returned a value returns the same value when repeated
    on the world it left, and leaves that world as it is; the first
    read issued at most the one query of the path. *)
Lemma readThrough_again {A : Type} (key : string) (q : Query)
  (answer : World -> A) (toJson : A -> Json) (w w1 : World) (v : Json) :
  readThrough key q answer toJson w = Some (inr v, w1) ->
  readThrough key q answer toJson w1 = Some (inr v, w1)
  /\ (issued w1 = issued w \/ issued w1 = issued w ++ [q]).
Proof.
  destruct (CacheStore.has key (nodeCache w)) eqn:Hhas.
  - rewrite (readThrough_hit _ _ _ _ _ Hhas). intros Hrun.
    pose proof (parseCached_world _ _ _ _ Hrun) as ->.
    rewrite (readThrough_hit _ _ _ _ _ Hhas). auto.
  - rewrite (readThrough_miss _ _ _ _ _ Hhas).
    destruct (rejected w q); intros Hrun;
      apply Some_pair_inv in Hrun as [Hv <-]; [discriminate Hv |].
    injection Hv as <-. split; [| right; reflexivity].
    rewrite readThrough_hit by apply has_set.
    apply parseCached_stored. apply get_set.
Qed.

(** The response builders do not look at the world. *)
Lemma listResponse_world (items : Json) (found notFound : string)
  (w w' : World) (r : Error + Outcome) :
  listResponse items found notFound w = Some (r, w') ->
  w' = w /\ forall w2, listResponse items found notFound w2 = Some (r, w2).
Proof.
  unfold listResponse, lengthPositive.
  destruct items as [| b | q | s | l | fields];
    try (intros E; apply Some_pair_inv in E as [<- <-]; split; reflexivity).
  destruct (property "length" fields) as [[| b | q | s | l | fs] |];
    try (intros E; apply Some_pair_inv in E as [<- <-]; split; reflexivity);
    discriminate.
Qed.

(** A controller made of a read-through and a response builder. *)
Lemma read_path_again {A : Type} (key : string) (q : Query)
  (answer : World -> A) (toJson : A -> Json) (respond : Json -> M Outcome)
  (w w1 : World) (status : nat) (body : Json) :
  (forall v u u' r, respond v u = Some (r, u') ->
                    u' = u /\ forall u2, respond v u2 = Some (r, u2)) ->
  TryCatch (fun _ : unit => v <- readThrough key q answer toJson ;; respond v) tt w
  = Some (Sent status body, w1) ->
  TryCatch (fun _ : unit => v <- readThrough key q answer toJson ;; respond v) tt w1
  = Some (Sent status body, w1)
  /\ (issued w1 = issued w \/ issued w1 = issued w ++ [q]).
Proof.
  intros Hpure. unfold TryCatch, bind.
  destruct (readThrough key q answer toJson w) as [[[e | v] w0] |] eqn:Hread;
    [discriminate | | discriminate].
  destruct (respond v w0) as [[[e | out] w0'] |] eqn:Hresp;
    [discriminate | | discriminate].
  intros E. apply Some_pair_inv in E as [-> ->].
  destruct (Hpure _ _ _ _ Hresp) as [-> Hany].
  destruct (readThrough_again _ _ _ _ _ _ _ Hread) as [Hagain Hlog].
  rewrite Hagain, Hany. auto.
Qed.

(** The latest products, the categories, the admin listing and the
    single product are read-through paths: a call that sent a response
    sends the same one when repeated with nothing in between, without
    querying the data source again. *)
Lemma handleGetLatestProducts_again (w w1 : World) (status : nat) (body : Json) :
  handleGetLatestProducts tt w = Some (Sent status body, w1) ->
  handleGetLatestProducts tt w1 = Some (Sent status body, w1)
  /\ (issued w1 = issued w \/ issued w1 = issued w ++ [Product_find_latest 5]).
Proof.
  apply (read_path_again "latestProducts" (Product_find_latest 5)
           (fun w => firstn 5 (sortDesc p_createdAt (products w)))
           (fun docs => JArr (map productToJSON docs))
           (fun v => listResponse v "Latest products" "No products found")).
  intros v u u' r. apply listResponse_world.
Qed.

Lemma handleGetAllCategories_again (w w1 : World) (status : nat) (body : Json) :
  handleGetAllCategories tt w = Some (Sent status body, w1) ->
  handleGetAllCategories tt w1 = Some (Sent status body, w1)
  /\ (issued w1 = issued w \/ issued w1 = issued w ++ [Product_distinct_category]).
Proof.
  apply (read_path_again "categories" Product_distinct_category
           (fun w => remove_dups (map p_category (products w)))
           (fun names => JArr (map JStr names))
           (fun v => listResponse v "All available categories" "No categories found")).
  intros v u u' r. apply listResponse_world.
Qed.

Lemma handleGetAllAdminProducts_again (w w1 : World) (status : nat) (body : Json) :
  handleGetAllAdminProducts tt w = Some (Sent status body, w1) ->
  handleGetAllAdminProducts tt w1 = Some (Sent status body, w1)
  /\ (issued w1 = issued w \/ issued w1 = issued w ++ [Product_find_sorted]).
Proof.
  apply (read_path_again "admin-products" Product_find_sorted
           (fun w => sortDesc p_createdAt (products w))
           (fun docs => JArr (map productToJSON docs))
           (fun v => listResponse v "Fetch all product" "No products found")).
  intros v u u' r. apply listResponse_world.
Qed.

Lemma handleGetSingleProduct_read (id : string) :
  handleGetSingleProduct id
  = TryCatch (fun _ : unit =>
      product <- readThrough (productKey id) (Product_findById id)
                   (fun w => ProductModel.lookup id (products w)) productOrNull ;;
      ret (productResponse product)) tt.
Proof. reflexivity. Qed.

Lemma handleGetSingleProduct_again (id : string) (w w1 : World)
  (status : nat) (body : Json) :
  handleGetSingleProduct id w = Some (Sent status body, w1) ->
  handleGetSingleProduct id w1 = Some (Sent status body, w1)
  /\ (issued w1 = issued w \/ issued w1 = issued w ++ [Product_findById id]).
Proof.
  rewrite handleGetSingleProduct_read. apply read_path_again.
  intros v u u' r E. apply Some_pair_inv in E as [<- <-].
  split; reflexivity.
Qed.

End ReadThroughFacts.

(** ** A missing product is remembered as missing *)

Section SingleProductFacts.

Context `{JsonCodec}.

Lemma handleGetSingleProduct_miss (id : string) (w : World) :
  CacheStore.has (productKey id) (nodeCache w) = false ->
  rejected w (Product_findById id) = false ->
  let product := productOrNull (ProductModel.lookup id (products w)) in
  handleGetSingleProduct id w
  = Some (productResponse product,
          withCache (CacheStore.set (productKey id) (JSON_stringify product)
                       (nodeCache w))
            (logQuery (Product_findById id) w)).
Proof.
  intros Hmiss Hok. cbv zeta. rewrite handleGetSingleProduct_read.
  unfold TryCatch, bind at 1.
  rewrite (readThrough_miss _ _ _ _ _ Hmiss), Hok. reflexivity.
Qed.

Lemma handleGetSingleProduct_stored (id : string) (v : Json) (w : World) :
  CacheStore.get (productKey id) (nodeCache w) = Some (JSON_stringify v) ->
  handleGetSingleProduct id w = Some (productResponse v, w).
Proof.
  intros Hget. rewrite handleGetSingleProduct_read.
  unfold TryCatch, bind at 1.
  rewrite readThrough_hit
    by (apply has_true; unfold CacheStore.get in Hget; rewrite Hget; eauto).
  rewrite (parseCached_stored _ _ _ Hget). reflexivity.
Qed.

(** C10.  A request for an id that matches no product, not yet cached,
    is answered 404 "Product not found", and stores the serialized
    [null] under [product-<id>].  From then on, in any world that still
    holds that entry, whatever its products are, the request is
    answered 404 again and the world, its log of queries included, is
    left as it is. *)
Theorem missing_product_cached_as_not_found (id : string) (w : World) :
  CacheStore.has (productKey id) (nodeCache w) = false ->
  rejected w (Product_findById id) = false ->
  ProductModel.lookup id (products w) = None ->
  let notFound :=
    Sent 404 (JObj [("success", JBool false);
                    ("message", JStr "Product not found");
                    ("payload", JObj [])]) in
  exists w1 : World,
    handleGetSingleProduct id w = Some (notFound, w1)
    /\ issued w1 = issued w ++ [Product_findById id]
    /\ CacheStore.get (productKey id) (nodeCache w1) = Some (JSON_stringify JNull)
    /\ forall w2 : World,
         CacheStore.get (productKey id) (nodeCache w2) = Some (JSON_stringify JNull) ->
         handleGetSingleProduct id w2 = Some (notFound, w2).
Proof.
  intros Hmiss Hok Hnone. cbv zeta.
  eexists. split; [| split; [| split]].
  - rewrite (handleGetSingleProduct_miss id w Hmiss Hok), Hnone. reflexivity.
  - reflexivity.
  - cbn [nodeCache withCache productOrNull]. apply get_set.
  - intros w2 Hget. apply (handleGetSingleProduct_stored id JNull w2 Hget).
Qed.

End SingleProductFacts.

(** The scenario: product [p3] is asked for before it exists, then
    created, then asked for again.  The creation purges the product
    views but not [product-p3], and the second request is answered 404
    although the product is in the collection. *)
Example product_created_later_still_not_found :
  exists (w1 w2 : World) (created : Json),
    handleGetSingleProduct "p3" sampleShop = Some (productResponse JNull, w1)
    /\ handleNewProduct newProductRequest w1 = Some (Sent 201 created, w2)
    /\ option_map p_name (ProductModel.lookup "p3" (products w2)) = Some "mug"
    /\ handleGetSingleProduct "p3" w2 = Some (productResponse JNull, w2)
    /\ productResponse JNull
       = Sent 404 (JObj [("success", JBool false);
                         ("message", JStr "Product not found");
                         ("payload", JObj [])]).
Proof.
  eexists. eexists. eexists.
  split; [vm_compute; reflexivity |].
  split; [vm_compute; reflexivity |].
  repeat split; vm_compute; reflexivity.
Qed.

(** ** Writes and the statistics entry *)

Section WriteFacts.

Context `{JsonCodec}.

(** Creating a user, or greeting a known one, neither touches the cache
    nor calls the invalidation coordinator. *)
Lemma handleNewUser_cache (body : NewUserRequestBody) (w w' : World)
  (out : Outcome) :
  handleNewUser body w = Some (out, w') ->
  nodeCache w' = nodeCache w /\ invalidations w' = invalidations w.
Proof.
  unfold handleNewUser, TryCatch, UserModel.findById, UserModel.create.
  rewrite bind_issue_reading. unfold settled.
  destruct (rejected w (User_findById (nu_id body))); cbn [await].
  - unfold bind, throw. intros E. apply Some_pair_inv in E as [_ <-].
    split; reflexivity.
  - unfold bind at 1, ret at 1.
    destruct (UserModel.lookup (nu_id body) (users (logQuery _ w))) as [u |].
    + unfold ret. intros E. apply Some_pair_inv in E as [_ <-]. split; reflexivity.
    + unfold bind, issue, await, throw, ret.
      destruct (rejected (logQuery _ w) (User_create body)).
      * intros E. apply Some_pair_inv in E as [_ <-]. split; reflexivity.
      * cbn [users logQuery].
        destruct (emailValidator _);
          [destruct (UserModel.lookup (nu_id body) (users w)) |];
          intros E; apply Some_pair_inv in E as [_ <-]; split; reflexivity.
Qed.

(** A product creation that answers 201 has called the coordinator once,
    for a product write without an id, and so has purged the product
    views and the statistics. *)
Lemma handleNewProduct_cache (req : NewProductRequest) (w w' : World)
  (body : Json) :
  handleNewProduct req w = Some (Sent 201 body, w') ->
  nodeCache w' = invalidate {| entityKind := Product; entityId := None |} (nodeCache w)
  /\ invalidations w'
     = invalidations w ++ [{| entityKind := Product; entityId := None |}].
Proof.
  unfold handleNewProduct, TryCatch.
  destruct (validateAllowedFields _ _); [unfold ret; discriminate |].
  unfold ProductModel.create, bind, issue, await, throw, ret, invalidateCache.
  destruct (rejected w _); [discriminate |].
  cbn [products logQuery clock objectIds generated].
  destruct (ProductModel.lookup _ (products w)); [discriminate |].
  intros E. apply Some_pair_inv in E as [_ <-]. split; reflexivity.
Qed.

End WriteFacts.

(** C2.  On the sample shop with a snapshot cached under [admin-stats],
    creating the user Cara answers 201 and adds her to the collection;
    the invalidation coordinator is not called and the cache is exactly
    as before: [admin-stats] is still present, and the statistics
    controller then answers with the cached snapshot, whose user count is
    still 2. *)
Theorem new_user_keeps_cached_stats :
  CacheStore.has "admin-stats" (nodeCache shopWithCachedStats) = true
  /\ invalidations shopWithCachedStats = []
  /\ exists (body : Json) (w' : World),
       handleNewUser newUserCara shopWithCachedStats = Some (Sent 201 body, w')
       /\ map u_id (users w') = ["u1"; "u2"; "u3"]
       /\ invalidations w' = []
       /\ nodeCache w' = nodeCache shopWithCachedStats
       /\ CacheStore.has "admin-stats" (nodeCache w') = true
       /\ handleGetDashboardStats tt w'
          = Some (Sent 200 (JObj [("success", JBool true);
                                  ("message", JStr "Successfully get dashboard stats");
                                  ("payload", statsToJSON cachedStats)]), w').
Proof.
  split; [vm_compute; reflexivity |]. split; [reflexivity |].
  eexists. eexists.
  split; [vm_compute; reflexivity |].
  repeat split; vm_compute; reflexivity.
Qed.

(** On the sample shop itself, whose cache is empty, the same request is
    served without a call of the coordinator either. *)
Example new_user_no_invalidation :
  exists (body : Json) (w' : World),
    handleNewUser newUserCara sampleShop = Some (Sent 201 body, w')
    /\ map u_id (users w') = ["u1"; "u2"; "u3"]
    /\ invalidations w' = [].
Proof.
  eexists. eexists. split; [vm_compute; reflexivity |].
  split; vm_compute; reflexivity.
Qed.

(** Creating a product on the sample shop, in contrast, calls it. *)
Example new_product_invalidates :
  exists (body : Json) (w' : World),
    handleNewProduct newProductRequest sampleShop = Some (Sent 201 body, w')
    /\ invalidations w' = [{| entityKind := Product; entityId := None |}].
Proof.
  eexists. eexists. split; [vm_compute; reflexivity |].
  vm_compute; reflexivity.
Qed.

(** ** Product writes and the detail entries *)

Section ProductWriteFacts.

Context `{JsonCodec}.

Lemma lookup_id (id : string) (ps : list ProductDoc) (doc : ProductDoc) :
  ProductModel.lookup id ps = Some doc -> p_id doc = id.
Proof.
  unfold ProductModel.lookup. intros Hfind.
  apply find_some in Hfind as [_ Heq]. apply String.eqb_eq, Heq.
Qed.

(** An assignment of an update changes one of the five fields and
    nothing else. *)
Lemma castUpdate_cases (k : string) (v : Json)
  (assign : ProductDoc -> ProductDoc) :
  ProductModel.castUpdate k v = ProductModel.Cast_value assign ->
  (k = "name" /\ exists s, v = JStr s
      /\ assign = fun d => ProductModel.amend d (Some s) None None None None)
  \/ (k = "category" /\ exists s, v = JStr s
      /\ assign = fun d => ProductModel.amend d None None (Some s) None None)
  \/ (k = "image" /\ exists s, v = JStr s
      /\ assign = fun d => ProductModel.amend d None (Some s) None None None)
  \/ (k = "price" /\ exists q, ProductModel.castNumber v = ProductModel.Cast_value q
      /\ assign = fun d => ProductModel.amend d None None None (Some q) None)
  \/ (k = "stock" /\ exists q, ProductModel.castNumber v = ProductModel.Cast_value q
      /\ assign = fun d => ProductModel.amend d None None None None (Some q)).
Proof.
  unfold ProductModel.castUpdate.
  destruct (String.eqb_spec k "name") as [-> | _].
  { destruct v; try discriminate. intros [= <-]. left. eauto. }
  destruct (String.eqb_spec k "category") as [-> | _].
  { destruct v; try discriminate. intros [= <-]. right. left. eauto. }
  destruct (String.eqb_spec k "image") as [-> | _].
  { destruct v; try discriminate. intros [= <-]. do 2 right. left. eauto. }
  destruct (String.eqb_spec k "price") as [-> | _].
  { destruct (ProductModel.castNumber v) as [q | |] eqn:E; try discriminate.
    intros [= <-]. do 3 right. left. eauto. }
  destruct (String.eqb_spec k "stock") as [-> | _]; [| discriminate].
  destruct (ProductModel.castNumber v) as [q | |] eqn:E; try discriminate.
  intros [= <-]. do 4 right. eauto.
Qed.

Lemma castUpdates_cons (k : string) (v : Json) (rest : list (string * Json))
  (assign : ProductDoc -> ProductDoc) :
  ProductModel.castUpdates ((k, v) :: rest) = ProductModel.Cast_value assign ->
  exists first others,
    ProductModel.castUpdate k v = ProductModel.Cast_value first
    /\ ProductModel.castUpdates rest = ProductModel.Cast_value others
    /\ assign = fun d => others (first d).
Proof.
  simpl.
  destruct (ProductModel.castUpdate k v) as [first | |]; try discriminate.
  destruct (ProductModel.castUpdates rest) as [others | |]; try discriminate.
  intros [= <-]. eauto.
Qed.

(** An update keeps the identifier and the time of creation. *)
Lemma castUpdates_id (updates : list (string * Json))
  (assign : ProductDoc -> ProductDoc) (doc : ProductDoc) :
  ProductModel.castUpdates updates = ProductModel.Cast_value assign ->
  p_id (assign doc) = p_id doc /\ p_createdAt (assign doc) = p_createdAt doc.
Proof.
  revert assign doc. induction updates as [| [k v] rest IH]; intros assign doc.
  - intros [= <-]. split; reflexivity.
  - intros Hcast.
    destruct (castUpdates_cons _ _ _ _ Hcast) as (first & others & Hone & Hrest & ->).
    destruct (IH others (first doc) Hrest) as [-> ->].
    destruct (castUpdate_cases _ _ _ Hone)
      as [(_ & s & _ & ->) | [(_ & s & _ & ->) | [(_ & s & _ & ->)
          | [(_ & q & _ & ->) | (_ & q & _ & ->)]]]]; split; reflexivity.
Qed.

(** How [findByIdAndUpdate] runs on a document that is there. *)
Lemma findByIdAndUpdate_run (id : string) (updates : list (string * Json))
  (w : World) (doc : ProductDoc) :
  ProductModel.lookup id (products w) = Some doc ->
  let q := Product_findByIdAndUpdate id updates in
  ProductModel.findByIdAndUpdate id updates w
  = match ProductModel.castUpdates updates with
    | ProductModel.Cast_uncovered => None
    | ProductModel.Cast_error =>
        Some (inr (inl (DataSourceFailure q)), logQuery q w)
    | ProductModel.Cast_value assign =>
        if rejected w q then Some (inr (inl (DataSourceFailure q)), logQuery q w)
        else
          let doc' := ProductModel.touch (clock w) (assign doc) in
          Some (inr (inr (Some doc')),
                withProducts
                  (map (fun p => if String.eqb (p_id p) id then doc' else p)
                     (products w))
                  (logQuery q w))
    end.
Proof.
  intros Hdoc. cbv zeta. unfold ProductModel.findByIdAndUpdate.
  destruct (ProductModel.castUpdates updates) as [assign | |].
  - unfold issue. destruct (rejected w _); [reflexivity |].
    cbn [products clock logQuery]. rewrite Hdoc. reflexivity.
  - unfold issue. destruct (rejected w _); reflexivity.
  - reflexivity.
Qed.

(** A deletion that answers 200 has purged the product views, the
    statistics and the detail entry of the deleted product. *)
Lemma handleDeleteProduct_cache (id : string) (w w' : World) (body : Json) :
  handleDeleteProduct id w = Some (Sent 200 body, w') ->
  nodeCache w' = invalidate {| entityKind := Product; entityId := Some id |} (nodeCache w)
  /\ invalidations w'
     = invalidations w ++ [{| entityKind := Product; entityId := Some id |}].
Proof.
  unfold handleDeleteProduct, TryCatch, ProductModel.findById.
  rewrite bind_issue_reading. unfold settled.
  destruct (rejected w (Product_findById id)); cbn [await];
    [unfold bind, throw; discriminate |].
  unfold bind at 1, ret at 1. cbn [products logQuery].
  destruct (ProductModel.lookup id (products w)) as [doc |] eqn:Hdoc;
    [| unfold ret; discriminate].
  unfold ProductModel.findByIdAndDelete, bind, issue, await, throw, ret,
    invalidateCache.
  cbn [rejected products logQuery].
  destruct (rejected w (Product_findByIdAndDelete id)); [discriminate |].
  rewrite Hdoc. intros E. apply Some_pair_inv in E as [_ <-].
  cbn [nodeCache invalidations noteInvalidation withCache withProducts logQuery].
  rewrite (lookup_id _ _ _ Hdoc). split; reflexivity.
Qed.

(** An update that answers 200 has purged the product views, the
    statistics and the detail entry of the updated product. *)
Lemma handleUpdateSingleProduct_cache (req : UpdateProductRequest)
  (w w' : World) (body : Json) :
  handleUpdateSingleProduct req w = Some (Sent 200 body, w') ->
  nodeCache w'
  = invalidate {| entityKind := Product; entityId := Some (upr_id req) |}
      (nodeCache w)
  /\ invalidations w'
     = invalidations w
       ++ [{| entityKind := Product; entityId := Some (upr_id req) |}].
Proof.
  unfold handleUpdateSingleProduct, TryCatch, ProductModel.findById.
  rewrite bind_issue_reading. unfold settled.
  destruct (rejected w (Product_findById (upr_id req))); cbn [await];
    [unfold bind, throw; discriminate |].
  unfold bind at 1, ret at 1. cbn [products logQuery].
  destruct (ProductModel.lookup (upr_id req) (products w)) as [doc |] eqn:Hdoc;
    [| unfold ret; discriminate].
  destruct (prepareUpdates (upr_body req) _) as [e | updates]; cbn [await];
    [unfold bind, throw; discriminate |].
  unfold bind at 1, ret at 1.
  set (updates' := match upr_file req with
                   | Some path => setProperty "image" (JStr path) updates
                   | None => updates
                   end).
  unfold bind.
  rewrite (findByIdAndUpdate_run (upr_id req) updates'
             (logQuery (Product_findById (upr_id req)) w) doc Hdoc).
  destruct (ProductModel.castUpdates updates') as [assign | |] eqn:Hcast;
    [| unfold await, throw; discriminate | discriminate].
  cbn [rejected logQuery clock products].
  destruct (rejected w (Product_findByIdAndUpdate (upr_id req) updates'));
    [unfold await, throw; discriminate |].
  unfold await, ret, invalidateCache.
  intros E. apply Some_pair_inv in E as [_ <-].
  cbn [nodeCache invalidations noteInvalidation withCache withProducts logQuery
       ProductModel.touch p_id].
  destruct (castUpdates_id _ _ doc Hcast) as [-> _].
  rewrite (lookup_id _ _ _ Hdoc).
  split; reflexivity.
Qed.

End ProductWriteFacts.

(** ** The statements at the reference data *)

Lemma invalidate_product_id_frame_at_sample :
  "p2" <> "p1"
  /\ CacheStore.has (productKey "p1")
       (invalidate {| entityKind := Product; entityId := Some "p1" |}
          detailEntries) = false
  /\ CacheStore.get (productKey "p2")
       (invalidate {| entityKind := Product; entityId := Some "p1" |}
          detailEntries) = Some "lamp".
Proof.
  assert (Hne : "p2" <> "p1") by discriminate.
  destruct (invalidate_product_id_frame "p1" detailEntries) as [Hgone Hframe].
  destruct (Hframe "p2" Hne) as [Hget _].
  split; [exact Hne |]. split; [exact Hgone |].
  rewrite Hget. reflexivity.
Defined.

Lemma calculatePercentage_spec_at_sample :
  ((0 <= 150 /\ 0 <= 100 /\ ~ 100 == 0)
   /\ calculatePercentage 150 100
      = roundToHundredths (((150 - 100) / 100) * 100)
   /\ Qabs (calculatePercentage 150 100 - ((150 - 100) / 100) * 100) <= 1 # 200)%Q
  /\ ((0 <= 5 /\ 0 <= 0 /\ 0 == 0) /\ calculatePercentage 5 0 == 5 * 100)%Q.
Proof.
  assert (H150 : (0 <= 150)%Q) by (unfold Qle; simpl; lia).
  assert (H100 : (0 <= 100)%Q) by (unfold Qle; simpl; lia).
  assert (Hnz : ~ (100 == 0)%Q) by (unfold Qeq; simpl; lia).
  assert (H5 : (0 <= 5)%Q) by (unfold Qle; simpl; lia).
  assert (H0 : (0 <= 0)%Q) by (unfold Qle; simpl; lia).
  assert (Hz : (0 == 0)%Q) by reflexivity.
  destruct (calculatePercentage_spec 150 100 H150 H100) as (_ & Hround & _).
  destruct (Hround Hnz) as (Heq & _ & Hnear).
  destruct (calculatePercentage_spec 5 0 H5 H0) as (Hzero & _).
  split.
  - split; [repeat split; assumption |]. split; [exact Heq | exact Hnear].
  - split; [repeat split; assumption |]. exact (Hzero Hz).
Defined.

Lemma stats_revenue_and_counts_at_sample :
  let w := sampleShop in
  let thisMonth := thisMonthOf (clock w) in
  let lastMonth := lastMonthOf (clock w) in
  let thisMonthOrders :=
    OrderModel.createdIn (w_start thisMonth) (w_end thisMonth) (orders w) in
  let lastMonthOrders :=
    OrderModel.createdIn (w_start lastMonth) (w_end lastMonth) (orders w) in
  CacheStore.has "admin-stats" (nodeCache w) = false
  /\ (forall q, q ∈ statsQueries (clock w) -> rejected w q = false)
  /\ sumTotals thisMonthOrders = Finite 200
  /\ sumTotals lastMonthOrders = Finite 0
  /\ (exists w' : World,
        handleGetDashboardStats tt w
        = Some (Sent 200
                  (JObj [("success", JBool true);
                         ("message", JStr "Successfully get dashboard stats");
                         ("payload",
                          JObj [("percentage",
                                 JObj [("revenue", JNum (calculatePercentage 200 0));
                                       ("product", JNum (calculatePercentage 1 0));
                                       ("user", JNum (calculatePercentage 1 1));
                                       ("order", JNum (calculatePercentage 2 0))]);
                                ("count",
                                 JObj [("revenue", JNum 300);
                                       ("product", JNum 2);
                                       ("user", JNum 2);
                                       ("order", JNum 3)])])]),
                w'))
  /\ sumTotals (orders w) = Finite (inject_Z (sumZ [100; 200; 0])).
Proof.
  cbv zeta.
  assert (Hmiss : CacheStore.has "admin-stats" (nodeCache sampleShop) = false)
    by reflexivity.
  assert (Hok : forall q, q ∈ statsQueries (clock sampleShop) ->
                          rejected sampleShop q = false)
    by (intros q _; reflexivity).
  assert (Hthis : sumTotals
                    (OrderModel.createdIn
                       (w_start (thisMonthOf (clock sampleShop)))
                       (w_end (thisMonthOf (clock sampleShop)))
                       (orders sampleShop)) = Finite 200)
    by (vm_compute; reflexivity).
  assert (Hlast : sumTotals
                    (OrderModel.createdIn
                       (w_start (lastMonthOf (clock sampleShop)))
                       (w_end (lastMonthOf (clock sampleShop)))
                       (orders sampleShop)) = Finite 0)
    by (vm_compute; reflexivity).
  split; [exact Hmiss |]. split; [exact Hok |].
  split; [exact Hthis |]. split; [exact Hlast |].
  destruct (stats_revenue_and_counts sampleShop 200 0 Hmiss Hok Hthis Hlast)
    as ((w' & Hrun) & _ & _ & Hwhole & _).
  split.
  - exists w'. rewrite Hrun. vm_compute. reflexivity.
  - apply Hwhole; [| vm_compute; discriminate].
    repeat constructor.
Defined.

Lemma stats_failure_aborts_at_sample :
  CacheStore.has "admin-stats" (nodeCache shopDuringOutage) = false
  /\ User_countDocuments ∈ statsQueries (clock shopDuringOutage)
  /\ rejected shopDuringOutage User_countDocuments = true
  /\ exists (q' : Query) (w' : World),
       handleGetDashboardStats tt shopDuringOutage
       = Some (Forwarded (DataSourceFailure q'), w')
       /\ nodeCache w' = nodeCache shopDuringOutage.
Proof.
  assert (Hmiss : CacheStore.has "admin-stats" (nodeCache shopDuringOutage) = false)
    by reflexivity.
  assert (Hin : User_countDocuments ∈ statsQueries (clock shopDuringOutage))
    by (unfold statsQueries; cbv zeta; rewrite !elem_of_cons; tauto).
  assert (Hrej : rejected shopDuringOutage User_countDocuments = true)
    by reflexivity.
  split; [exact Hmiss |]. split; [exact Hin |]. split; [exact Hrej |].
  destruct (stats_failure_aborts shopDuringOutage User_countDocuments Hmiss Hin Hrej)
    as (q' & w' & Hrun & _ & _ & Hcache & _).
  exists q', w'. split; [exact Hrun | exact Hcache].
Defined.

Lemma missing_product_cached_as_not_found_at_sample :
  CacheStore.has (productKey "p3") (nodeCache sampleShop) = false
  /\ rejected sampleShop (Product_findById "p3") = false
  /\ ProductModel.lookup "p3" (products sampleShop) = None
  /\ exists w1 : World,
       handleGetSingleProduct "p3" sampleShop
       = Some (Sent 404 (JObj [("success", JBool false);
                               ("message", JStr "Product not found");
                               ("payload", JObj [])]), w1)
       /\ CacheStore.get (productKey "p3") (nodeCache w1) = Some (JSON_stringify JNull).
Proof.
  assert (Hmiss : CacheStore.has (productKey "p3") (nodeCache sampleShop) = false)
    by reflexivity.
  assert (Hok : rejected sampleShop (Product_findById "p3") = false) by reflexivity.
  assert (Hnone : ProductModel.lookup "p3" (products sampleShop) = None)
    by reflexivity.
  split; [exact Hmiss |]. split; [exact Hok |]. split; [exact Hnone |].
  destruct (missing_product_cached_as_not_found "p3" sampleShop Hmiss Hok Hnone)
    as (w1 & Hrun & _ & Hget & _).
  exists w1. split; [exact Hrun | exact Hget].
Defined.

(** * Further properties of the controllers and helpers *)

(** ** Objects as property lists *)

Section PropertyFacts.

Implicit Types (fields : list (string * Json)) (k : string) (v : Json).

Lemma find_snoc {A : Type} (f : A -> bool) (l : list A) (x : A) :
  List.find f (l ++ [x])
  = match List.find f l with
    | Some y => Some y
    | None => if f x then Some x else None
    end.
Proof.
  induction l as [| y l IH]; simpl; [reflexivity |].
  destruct (f y); [reflexivity | exact IH].
Qed.

(** The last binding of a name is the one that counts. *)
Lemma property_cons k k' v fields :
  property k ((k', v) :: fields)
  = match property k fields with
    | Some x => Some x
    | None => if String.eqb k' k then Some v else None
    end.
Proof.
  unfold property. simpl rev. rewrite find_snoc.
  destruct (List.find _ (rev fields)); [reflexivity |].
  simpl. destruct (String.eqb k' k); reflexivity.
Qed.

Lemma property_None k fields :
  property k fields = None <-> k ∉ map fst fields.
Proof.
  induction fields as [| [k' v] fields IH]; simpl.
  - split; [intros _ Hin; inversion Hin | reflexivity].
  - rewrite property_cons, not_elem_of_cons, <- IH.
    destruct (property k fields) as [x |].
    + split; [discriminate | intros [_ E]; discriminate E].
    + destruct (String.eqb k' k) eqn:E.
      * apply String.eqb_eq in E. subst.
        split; [discriminate | intros [Hne _]; contradiction].
      * apply String.eqb_neq in E. split; [intros _; split; congruence | reflexivity].
Qed.

Lemma keys_setProperty k v fields :
  map fst (setProperty k v fields)
  = if decide (k ∈ map fst fields) then map fst fields else map fst fields ++ [k].
Proof.
  induction fields as [| [k' x] fields IH]; simpl.
  - destruct (decide (k ∈ [])) as [Hin | _]; [inversion Hin | reflexivity].
  - destruct (String.eqb k' k) eqn:E.
    + apply String.eqb_eq in E. subst. simpl.
      destruct (decide (k ∈ k :: map fst fields)) as [_ | Hout]; [reflexivity |].
      destruct Hout. apply list_elem_of_here.
    + apply String.eqb_neq in E. simpl. rewrite IH.
      destruct (decide (k ∈ map fst fields)) as [Hin | Hout],
               (decide (k ∈ k' :: map fst fields)) as [Hin' | Hout'];
        try reflexivity.
      * destruct Hout'. apply list_elem_of_further, Hin.
      * apply elem_of_cons in Hin' as [-> | Hin']; [congruence | contradiction].
Qed.

Lemma NoDup_setProperty k v fields :
  NoDup (map fst fields) -> NoDup (map fst (setProperty k v fields)).
Proof.
  intros Hnd. rewrite keys_setProperty.
  destruct (decide (k ∈ map fst fields)) as [Hin | Hout]; [exact Hnd |].
  apply NoDup_app. split; [exact Hnd |]. split; [| apply NoDup_singleton].
  intros x Hx Hx'. apply list_elem_of_singleton in Hx'. subst. contradiction.
Qed.

(** Reading back an assignment, on an object without repeated names. *)
Lemma property_setProperty k k' v fields :
  NoDup (map fst fields) ->
  property k' (setProperty k v fields)
  = if String.eqb k k' then Some v else property k' fields.
Proof.
  induction fields as [| [k0 x] fields IH]; intros Hnd; simpl.
  - rewrite property_cons. reflexivity.
  - apply NoDup_cons in Hnd as [Hout Hnd].
    destruct (String.eqb k0 k) eqn:E.
    + apply String.eqb_eq in E. subst k0. rewrite !property_cons.
      assert (Hnone : property k fields = None) by (apply property_None; exact Hout).
      destruct (String.eqb k k') eqn:E'.
      * apply String.eqb_eq in E'. subst k'. rewrite Hnone. reflexivity.
      * reflexivity.
    + rewrite !property_cons. rewrite (IH Hnd).
      destruct (String.eqb k k'); reflexivity.
Qed.

End PropertyFacts.

(** ** [prepareUpdates] *)

Section PrepareUpdatesFacts.

Implicit Types (body updates : list (string * Json)) (allowed : list string).

Lemma allowed_elem (k : string) allowed :
  existsb (String.eqb k) allowed = true <-> k ∈ allowed.
Proof.
  rewrite existsb_exists, list_elem_of_In. split.
  - intros (x & Hin & E). apply String.eqb_eq in E. subst. exact Hin.
  - intros Hin. exists k. split; [exact Hin | apply String.eqb_refl].
Qed.

Lemma prepareUpdatesFrom_accepts updates body allowed :
  NoDup (map fst updates) ->
  (forall k, k ∈ map fst body -> k ∈ allowed) ->
  exists result,
    prepareUpdatesFrom updates body allowed = inr result
    /\ NoDup (map fst result)
    /\ forall k, property k result
                 = match property k body with
                   | Some v => Some v
                   | None => property k updates
                   end.
Proof.
  revert updates. induction body as [| [key v] rest IH]; intros updates Hnd Hall.
  - exists updates. split; [reflexivity |]. split; [exact Hnd |].
    intros k. reflexivity.
  - simpl.
    assert (Hkey : existsb (String.eqb key) allowed = true).
    { apply allowed_elem, Hall. simpl. apply list_elem_of_here. }
    rewrite Hkey.
    destruct (IH (setProperty key v updates)) as (result & Hrun & Hnd' & Hget).
    + apply NoDup_setProperty, Hnd.
    + intros k Hin. apply Hall. simpl. apply list_elem_of_further, Hin.
    + exists result. split; [exact Hrun |]. split; [exact Hnd' |].
      intros k. rewrite Hget, property_cons, (property_setProperty _ _ _ _ Hnd).
      destruct (property k rest); [reflexivity |].
      destruct (String.eqb key k); reflexivity.
Qed.

(** X1.  When every field of the body is allowed, [prepareUpdates]
    returns an object without repeated names in which every name reads
    as it reads in the body. *)
Theorem prepareUpdates_accepts body allowed :
  (forall k, k ∈ map fst body -> k ∈ allowed) ->
  exists updates,
    prepareUpdates body allowed = inr updates
    /\ NoDup (map fst updates)
    /\ forall k, property k updates = property k body.
Proof.
  intros Hall. unfold prepareUpdates.
  destruct (prepareUpdatesFrom_accepts [] body allowed (NoDup_nil_2 (A := string)) Hall)
    as (updates & Hrun & Hnd & Hget).
  exists updates. split; [exact Hrun |]. split; [exact Hnd |].
  intros k. rewrite Hget. destruct (property k body); reflexivity.
Qed.

Lemma prepareUpdatesFrom_rejects updates pre post allowed (k : string) (v : Json) :
  (forall k', k' ∈ map fst pre -> k' ∈ allowed) ->
  k ∉ allowed ->
  prepareUpdatesFrom updates (pre ++ (k, v) :: post) allowed
  = inl (ErrorHandler ("Field " +:+ k +:+ " is not allowed for update") 400).
Proof.
  revert updates. induction pre as [| [key x] pre IH]; intros updates Hall Hout; simpl.
  - destruct (existsb (String.eqb k) allowed) eqn:E; [| reflexivity].
    apply allowed_elem in E. contradiction.
  - assert (Hkey : existsb (String.eqb key) allowed = true).
    { apply allowed_elem, Hall. simpl. apply list_elem_of_here. }
    rewrite Hkey. apply IH; [| exact Hout].
    intros k' Hin. apply Hall. simpl. apply list_elem_of_further, Hin.
Qed.

(** X2.  When the body has a field that is not allowed, [prepareUpdates]
    throws a 400 error that names the first such field, whatever comes
    after it. *)
Theorem prepareUpdates_rejects pre post allowed (k : string) (v : Json) :
  (forall k', k' ∈ map fst pre -> k' ∈ allowed) ->
  k ∉ allowed ->
  prepareUpdates (pre ++ (k, v) :: post) allowed
  = inl (ErrorHandler ("Field " +:+ k +:+ " is not allowed for update") 400).
Proof. apply prepareUpdatesFrom_rejects. Qed.

End PrepareUpdatesFacts.

(** ** Product writes *)

Section ProductWriteProperties.

Context `{JsonCodec}.

Lemma handleUpdateSingleProduct_found (req : UpdateProductRequest) (w : World)
  (doc : ProductDoc) :
  rejected w (Product_findById (upr_id req)) = false ->
  ProductModel.lookup (upr_id req) (products w) = Some doc ->
  handleUpdateSingleProduct req w
  = match
      match prepareUpdates (upr_body req) allowFields with
      | inl e => Some (inl e, logQuery (Product_findById (upr_id req)) w)
      | inr updates =>
          let updates' := match upr_file req with
                          | Some path => setProperty "image" (JStr path) updates
                          | None => updates
                          end in
          bind (ProductModel.findByIdAndUpdate (upr_id req) updates')
            (fun q =>
               bind (await q) (fun updatedProduct =>
                 match updatedProduct with
                 | None => ret (Forwarded (ErrorHandler "Error updating product" 404))
                 | Some doc' =>
                     bind (invalidateCache {| entityKind := Product;
                                              entityId := Some (p_id doc') |})
                       (fun _ =>
                          ret (Sent 200
                                 (JObj [("success", JBool true);
                                        ("message", JStr "Product updated successfully");
                                        ("payload", productToJSON doc')])))
                 end))
            (logQuery (Product_findById (upr_id req)) w)
      end
    with
    | Some (inr out, w') => Some (out, w')
    | Some (inl error, w') => Some (Forwarded error, w')
    | None => None
    end.
Proof.
  intros Hok Hdoc.
  unfold handleUpdateSingleProduct, TryCatch, ProductModel.findById.
  rewrite bind_issue_reading. unfold settled. rewrite Hok. cbn [await].
  unfold bind at 1, ret at 1. cbn [products logQuery]. rewrite Hdoc.
  fold allowFields.
  destruct (prepareUpdates (upr_body req) allowFields) as [e | updates];
    cbn [await]; reflexivity.
Qed.

(** X3.  An update whose body names a field that is not allowed, for a
    product that exists, hands a 400 error naming the first such field to
    [next]; only the lookup was issued, and the products, the cache and
    the record of coordinator calls are as before. *)
Theorem update_rejects_disallowed_field (req : UpdateProductRequest) (w : World)
  (doc : ProductDoc) (pre post : list (string * Json)) (k : string) (v : Json) :
  rejected w (Product_findById (upr_id req)) = false ->
  ProductModel.lookup (upr_id req) (products w) = Some doc ->
  upr_body req = pre ++ (k, v) :: post ->
  (forall k', k' ∈ map fst pre -> k' ∈ allowFields) ->
  k ∉ allowFields ->
  exists w' : World,
    handleUpdateSingleProduct req w
    = Some (Forwarded (ErrorHandler ("Field " +:+ k +:+ " is not allowed for update") 400),
            w')
    /\ issued w' = issued w ++ [Product_findById (upr_id req)]
    /\ products w' = products w
    /\ nodeCache w' = nodeCache w
    /\ invalidations w' = invalidations w.
Proof.
  intros Hok Hdoc Hbody Hpre Hk.
  rewrite (handleUpdateSingleProduct_found req w doc Hok Hdoc), Hbody.
  unfold prepareUpdates.
  rewrite (prepareUpdatesFrom_rejects [] pre post allowFields k v Hpre Hk).
  eexists. split; [reflexivity |]. repeat split; reflexivity.
Qed.

(** X5.  An update for an id that matches no product hands
    "Product not found" (404) to [next] after the lookup alone, and
    changes neither the products, nor the cache, nor the record of
    coordinator calls. *)
Theorem update_unknown_product (req : UpdateProductRequest) (w : World) :
  rejected w (Product_findById (upr_id req)) = false ->
  ProductModel.lookup (upr_id req) (products w) = None ->
  exists w' : World,
    handleUpdateSingleProduct req w
    = Some (Forwarded (ErrorHandler "Product not found" 404), w')
    /\ issued w' = issued w ++ [Product_findById (upr_id req)]
    /\ products w' = products w
    /\ nodeCache w' = nodeCache w
    /\ invalidations w' = invalidations w.
Proof.
  intros Hok Hnone.
  unfold handleUpdateSingleProduct, TryCatch, ProductModel.findById.
  rewrite bind_issue_reading. unfold settled. rewrite Hok. cbn [await].
  unfold bind at 1, ret at 1. cbn [products logQuery]. rewrite Hnone.
  eexists. split; [reflexivity |]. repeat split; reflexivity.
Qed.

Lemma handleDeleteProduct_found (id : string) (w : World) (doc : ProductDoc) :
  rejected w (Product_findById id) = false ->
  ProductModel.lookup id (products w) = Some doc ->
  handleDeleteProduct id w
  = if rejected w (Product_findByIdAndDelete id)
    then Some (Forwarded (DataSourceFailure (Product_findByIdAndDelete id)),
               logQueries [Product_findById id; Product_findByIdAndDelete id] w)
    else Some (Sent 200 (JObj [("success", JBool true);
                               ("message", JStr "Product deleted successfully");
                               ("payload", productToJSON doc)]),
               noteInvalidation {| entityKind := Product; entityId := Some (p_id doc) |}
                 (withCache
                    (invalidate {| entityKind := Product; entityId := Some (p_id doc) |}
                       (nodeCache w))
                    (withProducts
                       (List.filter (fun p => negb (String.eqb (p_id p) id)) (products w))
                       (logQueries [Product_findById id; Product_findByIdAndDelete id] w)))).
Proof.
  intros Hok Hdoc.
  unfold handleDeleteProduct, TryCatch, ProductModel.findById.
  rewrite bind_issue_reading. unfold settled. rewrite Hok. cbn [await].
  unfold bind at 1, ret at 1. cbn [products logQuery]. rewrite Hdoc.
  unfold ProductModel.findByIdAndDelete, bind, issue, await, throw, ret,
    invalidateCache.
  cbn [rejected products logQuery].
  destruct (rejected w (Product_findByIdAndDelete id)); [reflexivity |].
  rewrite Hdoc. reflexivity.
Qed.

Lemma handleDeleteProduct_missing (id : string) (w : World) :
  rejected w (Product_findById id) = false ->
  ProductModel.lookup id (products w) = None ->
  handleDeleteProduct id w
  = Some (Forwarded (ErrorHandler "Product not found" 404),
          logQuery (Product_findById id) w).
Proof.
  intros Hok Hnone.
  unfold handleDeleteProduct, TryCatch, ProductModel.findById.
  rewrite bind_issue_reading. unfold settled. rewrite Hok. cbn [await].
  unfold bind at 1, ret at 1. cbn [products logQuery]. rewrite Hnone.
  reflexivity.
Qed.

(** X6.  A deletion for an id that matches no product hands
    "Product not found" (404) to [next] after the lookup alone, and
    changes neither the products, nor the cache, nor the record of
    coordinator calls. *)
Theorem delete_unknown_product (id : string) (w : World) :
  rejected w (Product_findById id) = false ->
  ProductModel.lookup id (products w) = None ->
  exists w' : World,
    handleDeleteProduct id w
    = Some (Forwarded (ErrorHandler "Product not found" 404), w')
    /\ issued w' = issued w ++ [Product_findById id]
    /\ products w' = products w
    /\ nodeCache w' = nodeCache w
    /\ invalidations w' = invalidations w.
Proof.
  intros Hok Hnone. rewrite (handleDeleteProduct_missing id w Hok Hnone).
  eexists. split; [reflexivity |]. repeat split; reflexivity.
Qed.

Lemma lookup_filter_out (id : string) (ps : list ProductDoc) :
  ProductModel.lookup id (List.filter (fun p => negb (String.eqb (p_id p) id)) ps)
  = None.
Proof.
  unfold ProductModel.lookup. induction ps as [| p ps IH]; simpl; [reflexivity |].
  destruct (String.eqb (p_id p) id) eqn:E; simpl; [exact IH |].
  rewrite E. exact IH.
Qed.

(** X7.  A deletion of an existing product, with no query rejected,
    answers 200 with the deleted document, removes it from the
    collection and keeps every product with another id, and calls the
    coordinator once, for that id.  Repeating the deletion then hands
    "Product not found" (404) to [next]. *)
Theorem delete_removes_product (id : string) (w : World) (doc : ProductDoc) :
  rejected w (Product_findById id) = false ->
  rejected w (Product_findByIdAndDelete id) = false ->
  ProductModel.lookup id (products w) = Some doc ->
  exists w' w'' : World,
    handleDeleteProduct id w
    = Some (Sent 200 (JObj [("success", JBool true);
                            ("message", JStr "Product deleted successfully");
                            ("payload", productToJSON doc)]), w')
    /\ ProductModel.lookup id (products w') = None
    /\ (forall p, p ∈ products w -> p_id p <> id -> p ∈ products w')
    /\ (forall p, p ∈ products w' -> p ∈ products w)
    /\ invalidations w'
       = invalidations w ++ [{| entityKind := Product; entityId := Some id |}]
    /\ handleDeleteProduct id w'
       = Some (Forwarded (ErrorHandler "Product not found" 404), w'')
    /\ products w'' = products w'.
Proof.
  intros Hok Hok' Hdoc.
  rewrite (handleDeleteProduct_found id w doc Hok Hdoc), Hok'.
  rewrite (lookup_id _ _ _ Hdoc).
  set (w' := noteInvalidation _ _).
  assert (Hgone : ProductModel.lookup id (products w') = None)
    by apply lookup_filter_out.
  pose proof (handleDeleteProduct_missing id w' Hok Hgone) as Hrun.
  exists w', (logQuery (Product_findById id) w').
  split; [reflexivity |]. split; [exact Hgone |].
  split; [| split; [| split; [reflexivity | split; [exact Hrun | reflexivity]]]].
  - intros p Hin Hne. unfold w'. cbn [products noteInvalidation withCache withProducts].
    apply list_elem_of_In, filter_In. split; [apply list_elem_of_In, Hin |].
    apply negb_true_iff, String.eqb_neq, Hne.
  - intros p Hin. unfold w' in Hin.
    cbn [products noteInvalidation withCache withProducts] in Hin.
    apply list_elem_of_In, filter_In in Hin as [Hin _].
    apply list_elem_of_In, Hin.
Qed.

Lemma prepareUpdatesFrom_allowed (updates body result : list (string * Json))
  (allowed : list string) :
  prepareUpdatesFrom updates body allowed = inr result ->
  forall k, k ∈ map fst body -> k ∈ allowed.
Proof.
  revert updates. induction body as [| [key v] rest IH]; intros updates Hrun k Hin.
  - inversion Hin.
  - simpl in Hrun, Hin.
    destruct (existsb (String.eqb key) allowed) eqn:E; [| discriminate].
    apply elem_of_cons in Hin as [-> | Hin].
    + apply allowed_elem, E.
    + apply (IH _ Hrun k Hin).
Qed.

Lemma lookup_replace (id : string) (ps : list ProductDoc) (doc new : ProductDoc) :
  ProductModel.lookup id ps = Some doc ->
  p_id new = id ->
  ProductModel.lookup id
    (map (fun p => if String.eqb (p_id p) id then new else p) ps) = Some new.
Proof.
  unfold ProductModel.lookup. intros Hfind Hnew.
  induction ps as [| p ps IH]; simpl in *; [discriminate |].
  destruct (String.eqb (p_id p) id) eqn:E.
  - rewrite Hnew, String.eqb_refl. reflexivity.
  - rewrite E. apply IH, Hfind.
Qed.

Lemma replace_keeps_others (id : string) (ps : list ProductDoc) (new p : ProductDoc) :
  p ∈ ps -> p_id p <> id ->
  p ∈ map (fun p => if String.eqb (p_id p) id then new else p) ps.
Proof.
  intros Hin Hne. apply list_elem_of_fmap. exists p. split; [| exact Hin].
  apply String.eqb_neq in Hne. rewrite Hne. reflexivity.
Qed.

Lemma castNumber_value (v : Json) (q : Q) :
  ProductModel.castNumber v = ProductModel.Cast_value q ->
  match v with
  | JNum q' => q = q'
  | JStr s => s <> "" /\ stringToNumber s = Some (Finite q)
  | _ => False
  end.
Proof.
  unfold ProductModel.castNumber. destruct v as [| b | q' | s | l | fs];
    try discriminate.
  - intros [= ->]. reflexivity.
  - destruct (String.eqb_spec s "") as [-> | Hne]; [discriminate |].
    destruct (stringToNumber s) as [[q' | negative] |]; try discriminate.
    intros [= ->]. split; [exact Hne | reflexivity].
Qed.

(** The fields of a document after an update: each is what the update
    assigns to it, cast to the type of the field, or what it was. *)
Lemma castUpdates_fields (updates : list (string * Json))
  (assign : ProductDoc -> ProductDoc) (doc : ProductDoc) :
  ProductModel.castUpdates updates = ProductModel.Cast_value assign ->
  match property "name" updates with
  | Some v => v = JStr (p_name (assign doc))
  | None => p_name (assign doc) = p_name doc
  end
  /\ match property "category" updates with
     | Some v => v = JStr (p_category (assign doc))
     | None => p_category (assign doc) = p_category doc
     end
  /\ match property "image" updates with
     | Some v => exists path, v = JStr path /\ p_image (assign doc) = Some path
     | None => p_image (assign doc) = p_image doc
     end
  /\ match property "price" updates with
     | Some v => ProductModel.castNumber v
                 = ProductModel.Cast_value (p_price (assign doc))
     | None => p_price (assign doc) = p_price doc
     end
  /\ match property "stock" updates with
     | Some v => ProductModel.castNumber v
                 = ProductModel.Cast_value (p_stock (assign doc))
     | None => p_stock (assign doc) = p_stock doc
     end.
Proof.
  revert assign doc. induction updates as [| [k v] rest IH]; intros assign doc.
  - intros [= <-]. repeat split; reflexivity.
  - intros Hcast.
    destruct (castUpdates_cons _ _ _ _ Hcast) as (first & others & Hone & Hrest & ->).
    destruct (IH others (first doc) Hrest) as (Hname & Hcat & Himage & Hprice & Hstock).
    rewrite !property_cons.
    destruct (property "name" rest), (property "category" rest),
      (property "image" rest), (property "price" rest), (property "stock" rest);
      destruct (castUpdate_cases _ _ _ Hone)
        as [(-> & s & -> & ->) | [(-> & s & -> & ->) | [(-> & s & -> & ->)
            | [(-> & q & Hq & ->) | (-> & q & Hq & ->)]]]];
      cbn [String.eqb Ascii.eqb Bool.eqb andb] in *;
      cbn [ProductModel.amend p_name p_category p_image p_price p_stock default]
        in *;
      unfold id in *;
      repeat split;
      try assumption; try congruence; try reflexivity;
      try (eexists; split; [reflexivity | congruence]).
Qed.

(** X4.  An update that answers 200 issued the lookup and then one
    update query.  The fields of that query have no repeated names; the
    path of an uploaded file is its [image], whatever the body says;
    every other name reads as in the body.  The stored document keeps
    its identifier and its time of creation and has the time of the
    request as [updatedAt].  A field the query does not name is
    unchanged; a name, a category or an image the query gives as a
    string is that string; a price or a stock given as a number is that
    number, and given as a string that is not empty it is the number
    [Number] reads from the string, which is then not [NaN].  The
    answer carries the stored document; it replaces the old one, the
    other products stay, and the coordinator is called once, for this
    product. *)
Theorem update_sends_body_fields (req : UpdateProductRequest) (w w' : World)
  (body : Json) :
  handleUpdateSingleProduct req w = Some (Sent 200 body, w') ->
  exists (doc doc' : ProductDoc) (updates : list (string * Json)),
    ProductModel.lookup (upr_id req) (products w) = Some doc
    /\ issued w'
       = issued w ++ [Product_findById (upr_id req);
                      Product_findByIdAndUpdate (upr_id req) updates]
    /\ NoDup (map fst updates)
    /\ (forall path, upr_file req = Some path ->
                     property "image" updates = Some (JStr path))
    /\ (forall k, upr_file req = None \/ k <> "image" ->
                  property k updates = property k (upr_body req))
    /\ p_id doc' = upr_id req
    /\ p_createdAt doc' = p_createdAt doc
    /\ p_updatedAt doc' = clock w
    /\ storedString (property "name" updates) (p_name doc) (p_name doc')
    /\ storedString (property "category" updates) (p_category doc) (p_category doc')
    /\ storedImage (property "image" updates) (p_image doc) (p_image doc')
    /\ storedNumber (property "price" updates) (p_price doc) (p_price doc')
    /\ storedNumber (property "stock" updates) (p_stock doc) (p_stock doc')
    /\ body = JObj [("success", JBool true);
                    ("message", JStr "Product updated successfully");
                    ("payload", productToJSON doc')]
    /\ ProductModel.lookup (upr_id req) (products w') = Some doc'
    /\ length (products w') = length (products w)
    /\ (forall p, p ∈ products w -> p_id p <> upr_id req -> p ∈ products w')
    /\ invalidations w'
       = invalidations w
         ++ [{| entityKind := Product; entityId := Some (upr_id req) |}].
Proof.
  intros Hrun.
  destruct (rejected w (Product_findById (upr_id req))) eqn:Hok.
  { revert Hrun.
    unfold handleUpdateSingleProduct, TryCatch, ProductModel.findById.
    rewrite bind_issue_reading. unfold settled. rewrite Hok. cbn [await].
    unfold bind, throw. discriminate. }
  destruct (ProductModel.lookup (upr_id req) (products w)) as [doc |] eqn:Hdoc.
  2:{ revert Hrun.
      unfold handleUpdateSingleProduct, TryCatch, ProductModel.findById.
      rewrite bind_issue_reading. unfold settled. rewrite Hok. cbn [await].
      unfold bind at 1, ret at 1. cbn [products logQuery]. rewrite Hdoc.
      unfold ret. discriminate. }
  rewrite (handleUpdateSingleProduct_found req w doc Hok Hdoc) in Hrun.
  destruct (prepareUpdates (upr_body req) allowFields) as [e | updates0] eqn:Hprep;
    [discriminate |].
  cbv zeta in Hrun.
  set (updates := match upr_file req with
                  | Some path => setProperty "image" (JStr path) updates0
                  | None => updates0
                  end) in *.
  unfold prepareUpdates in Hprep.
  pose proof (prepareUpdatesFrom_allowed _ _ _ _ Hprep) as Hall.
  destruct (prepareUpdatesFrom_accepts [] (upr_body req) allowFields
              (NoDup_nil_2 (A := string)) Hall) as (u & Hu & Hnd & Hget).
  rewrite Hprep in Hu. injection Hu as <-.
  assert (Hget0 : forall k, property k updates0 = property k (upr_body req)).
  { intros k. rewrite Hget. destruct (property k (upr_body req)); reflexivity. }
  revert Hrun. unfold bind.
  rewrite (findByIdAndUpdate_run (upr_id req) updates
             (logQuery (Product_findById (upr_id req)) w) doc Hdoc).
  destruct (ProductModel.castUpdates updates) as [assign | |] eqn:Hcast;
    [| unfold await, throw; discriminate | discriminate].
  cbn [rejected logQuery clock products].
  destruct (rejected w (Product_findByIdAndUpdate (upr_id req) updates));
    [unfold await, throw; discriminate |].
  unfold await, ret, invalidateCache.
  intros E. apply Some_pair_inv in E as [Hout <-]. injection Hout as <-.
  destruct (castUpdates_id _ _ doc Hcast) as [Hid Hcreated].
  destruct (castUpdates_fields _ _ doc Hcast)
    as (Hname & Hcat & Himage & Hprice & Hstock).
  exists doc, (ProductModel.touch (clock w) (assign doc)), updates.
  cbn [ProductModel.touch p_id p_name p_category p_image p_price p_stock
       p_createdAt p_updatedAt].
  split; [reflexivity |].
  split; [cbn [issued noteInvalidation withCache withProducts logQuery];
          rewrite <- app_assoc; reflexivity |].
  split; [unfold updates; destruct (upr_file req);
          [apply NoDup_setProperty, Hnd | exact Hnd] |].
  split.
  { intros path Hfile. unfold updates. rewrite Hfile.
    rewrite (property_setProperty _ _ _ _ Hnd). reflexivity. }
  split.
  { intros k Hk. unfold updates. destruct (upr_file req) as [path |].
    - destruct Hk as [Hk | Hk]; [discriminate |].
      rewrite (property_setProperty _ _ _ _ Hnd).
      destruct (String.eqb "image" k) eqn:E; [| apply Hget0].
      apply String.eqb_eq in E. congruence.
    - apply Hget0. }
  split; [rewrite Hid; apply (lookup_id _ _ _ Hdoc) |].
  split; [exact Hcreated |]. split; [reflexivity |].
  split.
  { destruct (property "name" updates) as [v |]; [| exact Hname].
    subst v. reflexivity. }
  split.
  { destruct (property "category" updates) as [v |]; [| exact Hcat].
    subst v. reflexivity. }
  split.
  { destruct (property "image" updates) as [v |]; [| exact Himage].
    destruct Himage as (path & -> & Himage). exact Himage. }
  split.
  { destruct (property "price" updates) as [v |]; [| exact Hprice].
    apply castNumber_value in Hprice.
    destruct v; try exact I; [exact Hprice |].
    right. left. apply Hprice. }
  split.
  { destruct (property "stock" updates) as [v |]; [| exact Hstock].
    apply castNumber_value in Hstock.
    destruct v; try exact I; [exact Hstock |].
    right. left. apply Hstock. }
  split; [reflexivity |].
  cbn [products invalidations noteInvalidation withCache withProducts logQuery].
  split.
  { apply (lookup_replace _ _ doc); [exact Hdoc |].
    cbn [ProductModel.touch p_id]. rewrite Hid. apply (lookup_id _ _ _ Hdoc). }
  split; [apply length_map |].
  split; [intros p Hin Hne; apply replace_keeps_others; assumption |].
  cbn [ProductModel.touch p_id]. rewrite Hid, (lookup_id _ _ _ Hdoc). reflexivity.
Qed.

(** The cast of a price or a stock on examples: a number is kept, a
    numeric string is read as [Number] reads it and rounded to a double,
    and a string that is no number is a [CastError]. *)
Example castNumber_examples :
  ProductModel.castNumber (JNum 35) = ProductModel.Cast_value 35%Q
  /\ ProductModel.castNumber (JStr "35") = ProductModel.Cast_value 35%Q
  /\ ProductModel.castNumber (JStr " 12.5 ") = ProductModel.Cast_value (25 # 2)%Q
  /\ ProductModel.castNumber (JStr "1e3") = ProductModel.Cast_value 1000%Q
  /\ ProductModel.castNumber (JStr "0x1F") = ProductModel.Cast_value 31%Q
  /\ ProductModel.castNumber (JStr "0.1")
     = ProductModel.Cast_value (3602879701896397 # 36028797018963968)%Q
  /\ ProductModel.castNumber (JStr "12 euros") = ProductModel.Cast_error
  /\ ProductModel.castNumber (JStr "1,5") = ProductModel.Cast_error
  /\ ProductModel.castNumber (JStr "") = ProductModel.Cast_uncovered
  /\ ProductModel.castNumber (JStr "Infinity") = ProductModel.Cast_uncovered.
Proof. repeat split; vm_compute; reflexivity. Qed.

(** X8.  A product write that ends in an error handed to [next] has
    changed neither the products, nor the cache, nor the record of
    coordinator calls: the coordinator is called only after the data
    source has accepted the write.  This holds for the creation, the
    update and the deletion. *)
Theorem failed_product_write_changes_nothing :
  (forall (req : NewProductRequest) (w w' : World) (e : Error),
      handleNewProduct req w = Some (Forwarded e, w') ->
      products w' = products w /\ nodeCache w' = nodeCache w
      /\ invalidations w' = invalidations w)
  /\ (forall (req : UpdateProductRequest) (w w' : World) (e : Error),
         handleUpdateSingleProduct req w = Some (Forwarded e, w') ->
         products w' = products w /\ nodeCache w' = nodeCache w
         /\ invalidations w' = invalidations w)
  /\ (forall (id : string) (w w' : World) (e : Error),
         handleDeleteProduct id w = Some (Forwarded e, w') ->
         products w' = products w /\ nodeCache w' = nodeCache w
         /\ invalidations w' = invalidations w).
Proof.
  split; [| split].
  - intros req w w' e.
    unfold handleNewProduct, TryCatch.
    destruct (validateAllowedFields _ _).
    { unfold ret. intros E. apply Some_pair_inv in E as [_ <-].
      repeat split; reflexivity. }
    unfold ProductModel.create, bind, issue, await, throw, ret, invalidateCache.
    destruct (rejected w _).
    { intros E. apply Some_pair_inv in E as [_ <-]. repeat split; reflexivity. }
    cbn [products logQuery clock objectIds generated].
    destruct (ProductModel.lookup _ (products w)); [| discriminate].
    intros E. apply Some_pair_inv in E as [_ <-]. repeat split; reflexivity.
  - intros req w w' e Hrun.
    destruct (rejected w (Product_findById (upr_id req))) eqn:Hok.
    { revert Hrun.
      unfold handleUpdateSingleProduct, TryCatch, ProductModel.findById.
      rewrite bind_issue_reading. unfold settled. rewrite Hok. cbn [await].
      unfold bind, throw. intros E. apply Some_pair_inv in E as [_ <-].
      repeat split; reflexivity. }
    destruct (ProductModel.lookup (upr_id req) (products w)) as [doc |] eqn:Hdoc.
    2:{ revert Hrun.
        unfold handleUpdateSingleProduct, TryCatch, ProductModel.findById.
        rewrite bind_issue_reading. unfold settled. rewrite Hok. cbn [await].
        unfold bind at 1, ret at 1. cbn [products logQuery]. rewrite Hdoc.
        unfold ret. intros E. apply Some_pair_inv in E as [_ <-].
        repeat split; reflexivity. }
    rewrite (handleUpdateSingleProduct_found req w doc Hok Hdoc) in Hrun.
    destruct (prepareUpdates (upr_body req) allowFields) as [e0 | updates0].
    { apply Some_pair_inv in Hrun as [_ <-]. repeat split; reflexivity. }
    cbv zeta in Hrun. revert Hrun.
    set (updates := match upr_file req with
                    | Some path => setProperty "image" (JStr path) updates0
                    | None => updates0
                    end).
    unfold bind.
    rewrite (findByIdAndUpdate_run (upr_id req) updates
               (logQuery (Product_findById (upr_id req)) w) doc Hdoc).
    destruct (ProductModel.castUpdates updates) as [assign | |];
      [| | discriminate].
    + cbn [rejected logQuery clock products].
      destruct (rejected w (Product_findByIdAndUpdate (upr_id req) updates));
        [| unfold await, ret, invalidateCache; discriminate].
      unfold await, throw. intros E. apply Some_pair_inv in E as [_ <-].
      repeat split; reflexivity.
    + unfold await, throw. intros E. apply Some_pair_inv in E as [_ <-].
      repeat split; reflexivity.
  - intros id w w' e Hrun.
    destruct (rejected w (Product_findById id)) eqn:Hok.
    { revert Hrun. unfold handleDeleteProduct, TryCatch, ProductModel.findById.
      rewrite bind_issue_reading. unfold settled. rewrite Hok. cbn [await].
      unfold bind, throw. intros E. apply Some_pair_inv in E as [_ <-].
      repeat split; reflexivity. }
    destruct (ProductModel.lookup id (products w)) as [doc |] eqn:Hdoc.
    + rewrite (handleDeleteProduct_found id w doc Hok Hdoc) in Hrun.
      destruct (rejected w (Product_findByIdAndDelete id)); [| discriminate].
      apply Some_pair_inv in Hrun as [_ <-]. repeat split; reflexivity.
    + rewrite (handleDeleteProduct_missing id w Hok Hdoc) in Hrun.
      apply Some_pair_inv in Hrun as [_ <-]. repeat split; reflexivity.
Qed.

End ProductWriteProperties.

(** ** The user controllers *)

Section UserProperties.

Lemma handleNewUser_known (body : NewUserRequestBody) (w : World) (u : UserDoc) :
  rejected w (User_findById (nu_id body)) = false ->
  UserModel.lookup (nu_id body) (users w) = Some u ->
  handleNewUser body w
  = Some (Sent 200 (JObj [("success", JBool true);
                          ("message", JStr ("Welcome back " +:+ nu_name body +:+ "!"));
                          ("payload", userToJSON u)]),
          logQuery (User_findById (nu_id body)) w).
Proof.
  intros Hok Hu.
  unfold handleNewUser, TryCatch, UserModel.findById.
  rewrite bind_issue_reading. unfold settled. rewrite Hok. cbn [await].
  unfold bind at 1, ret at 1. cbn [users logQuery]. rewrite Hu. reflexivity.
Qed.

(** What a creation that answers 201 has done. *)
Lemma handleNewUser_created (body : NewUserRequestBody) (w w' : World) (b : Json) :
  handleNewUser body w = Some (Sent 201 b, w') ->
  UserModel.lookup (nu_id body) (users w) = None
  /\ rejected w (User_findById (nu_id body)) = false
  /\ emailValidator (toLowerCase (trim (nu_email body))) = true
  /\ w' = withUsers (users w ++ [newUserDoc body (clock w)])
            (logQueries [User_findById (nu_id body); User_create body] w)
  /\ b = JObj [("success", JBool true);
               ("message",
                JStr ("Welcome " +:+ trim (nu_name body)
                      +:+ "! Your account has been created successfully!"))].
Proof.
  unfold handleNewUser, TryCatch, UserModel.findById, UserModel.create.
  rewrite bind_issue_reading. unfold settled.
  destruct (rejected w (User_findById (nu_id body))); cbn [await];
    [unfold bind, throw; discriminate |].
  unfold bind at 1, ret at 1. cbn [users logQuery].
  destruct (UserModel.lookup (nu_id body) (users w)) as [u |] eqn:Hu;
    [unfold ret; discriminate |].
  unfold bind, issue, await, throw, ret. cbn [rejected users logQuery clock].
  destruct (rejected w (User_create body)); [discriminate |].
  change (u_email (newUserDoc body (clock w)))
    with (toLowerCase (trim (nu_email body))).
  destruct (emailValidator (toLowerCase (trim (nu_email body)))) eqn:Hemail;
    [| discriminate].
  rewrite Hu. intros E. apply Some_pair_inv in E as [Hout <-].
  injection Hout as <-. repeat split; reflexivity.
Qed.

Lemma lookup_user_appended (id : string) (us : list UserDoc) (u : UserDoc) :
  UserModel.lookup id us = None -> u_id u = id ->
  UserModel.lookup id (us ++ [u]) = Some u.
Proof.
  unfold UserModel.lookup. intros Hnone Hid.
  rewrite find_snoc, Hnone, Hid, String.eqb_refl. reflexivity.
Qed.

(** X9.  For an id that is already in the collection, [handleNewUser]
    answers 200 with the stored document and a greeting built from the
    name in the request; it issues the lookup alone and leaves the users
    as they are. *)
Theorem known_user_is_welcomed_back (body : NewUserRequestBody) (w : World)
  (u : UserDoc) :
  rejected w (User_findById (nu_id body)) = false ->
  UserModel.lookup (nu_id body) (users w) = Some u ->
  exists w' : World,
    handleNewUser body w
    = Some (Sent 200 (JObj [("success", JBool true);
                            ("message", JStr ("Welcome back " +:+ nu_name body +:+ "!"));
                            ("payload", userToJSON u)]), w')
    /\ issued w' = issued w ++ [User_findById (nu_id body)]
    /\ users w' = users w.
Proof.
  intros Hok Hu. rewrite (handleNewUser_known body w u Hok Hu).
  eexists. split; [reflexivity |]. split; reflexivity.
Qed.

(** X10.  A creation that answered 201 has stored, after the users that
    were there, one document with the identifier, image, date of birth
    and gender of the request, the name of the request trimmed, its
    email trimmed and in lower case (a form the validator of the schema
    accepts), the role ["user"] and the time of the request as both
    timestamps; the greeting of the answer carries the trimmed name.
    The same request sent again is answered 200 with that document and
    the name as the request spells it, and the collection does not grow
    again. *)
Theorem repeated_creation_is_welcome_back (body : NewUserRequestBody)
  (w w' : World) (b : Json) :
  handleNewUser body w = Some (Sent 201 b, w') ->
  exists doc : UserDoc,
    doc = {| u_id := nu_id body; u_name := trim (nu_name body);
             u_email := toLowerCase (trim (nu_email body));
             u_image := nu_image body; u_role := "user"; u_dob := nu_dob body;
             u_gender := nu_gender body; u_createdAt := clock w;
             u_updatedAt := clock w |}
    /\ emailValidator (u_email doc) = true
    /\ b = JObj [("success", JBool true);
                 ("message",
                  JStr ("Welcome " +:+ u_name doc
                        +:+ "! Your account has been created successfully!"))]
    /\ users w' = users w ++ [doc]
    /\ exists w'' : World,
         handleNewUser body w'
         = Some (Sent 200 (JObj [("success", JBool true);
                                 ("message",
                                  JStr ("Welcome back " +:+ nu_name body +:+ "!"));
                                 ("payload", userToJSON doc)]),
                 w'')
         /\ users w'' = users w'.
Proof.
  intros Hrun.
  destruct (handleNewUser_created body w w' b Hrun)
    as (Hnone & Hok & Hemail & -> & ->).
  exists (newUserDoc body (clock w)).
  split; [reflexivity |]. split; [exact Hemail |]. split; [reflexivity |].
  split; [reflexivity |].
  set (w1 := withUsers _ _) in *.
  assert (Hok1 : rejected w1 (User_findById (nu_id body)) = false) by exact Hok.
  assert (Hfound : UserModel.lookup (nu_id body) (users w1)
                   = Some (newUserDoc body (clock w))).
  { unfold w1. cbn [users withUsers].
    apply lookup_user_appended; [exact Hnone | reflexivity]. }
  rewrite (handleNewUser_known body w1 _ Hok1 Hfound).
  eexists. split; reflexivity.
Qed.

(** X11.  A user created by [handleNewUser] is then answered by
    [handleGetUser] under its id, and is the last entry of the list
    [handleGetAllUsers] answers, after the users that were there: in
    both answers with the name trimmed and the email trimmed and in
    lower case, as stored. *)
Theorem created_user_can_be_read (body : NewUserRequestBody) (w w' : World)
  (b : Json) :
  handleNewUser body w = Some (Sent 201 b, w') ->
  rejected w' (User_findById (nu_id body)) = false ->
  rejected w' User_find = false ->
  exists doc : UserDoc,
    doc = {| u_id := nu_id body; u_name := trim (nu_name body);
             u_email := toLowerCase (trim (nu_email body));
             u_image := nu_image body; u_role := "user"; u_dob := nu_dob body;
             u_gender := nu_gender body; u_createdAt := clock w;
             u_updatedAt := clock w |}
    /\ (exists w1 : World,
          handleGetUser (nu_id body) w'
          = Some (Sent 200 (JObj [("success", JBool true);
                                  ("payload", userToJSON doc)]), w1))
    /\ (exists w2 : World,
          handleGetAllUsers tt w'
          = Some (Sent 200
                    (JObj [("success", JBool true);
                           ("payload",
                            JArr (map userToJSON (users w) ++ [userToJSON doc]))]),
                  w2)).
Proof.
  intros Hrun Hok Hok'.
  destruct (handleNewUser_created body w w' b Hrun) as (Hnone & _ & _ & -> & _).
  exists (newUserDoc body (clock w)). split; [reflexivity |].
  split.
  - unfold handleGetUser, TryCatch, UserModel.findById.
    rewrite bind_issue_reading. unfold settled. rewrite Hok. cbn [await].
    unfold bind at 1, ret at 1.
    cbn [users withUsers logQueries fold_left logQuery].
    rewrite (lookup_user_appended _ _ (newUserDoc body (clock w)) Hnone eq_refl).
    eexists. reflexivity.
  - unfold handleGetAllUsers, TryCatch, UserModel.find.
    rewrite bind_issue_reading. unfold settled. rewrite Hok'. cbn [await].
    unfold bind at 1, ret at 1.
    cbn [users withUsers logQueries fold_left logQuery].
    rewrite map_app. eexists. reflexivity.
Qed.

(** The setters on examples: white space of either kind goes from both
    ends and stays inside; capitals and the Kelvin sign go to lower
    case. *)
Example setters_examples :
  trim "  Dana Lee " = "Dana Lee"
  /\ trim (String (ascii_of_nat 194) (String (ascii_of_nat 160) "Dana"))
     = "Dana"
  /\ trim ("Dana" +:+ String (ascii_of_nat 226)
                        (String (ascii_of_nat 128) (String (ascii_of_nat 169) "")))
     = "Dana"
  /\ trim ("Jos" +:+ String (ascii_of_nat 195) (String (ascii_of_nat 169) " "))
     = "Jos" +:+ String (ascii_of_nat 195) (String (ascii_of_nat 169) "")
  /\ trim (String (ascii_of_nat 9) (String (ascii_of_nat 10) " ")) = ""
  /\ toLowerCase " Dana@Example.ORG" = " dana@example.org"
  /\ toLowerCase (String (ascii_of_nat 226)
                    (String (ascii_of_nat 132) (String (ascii_of_nat 170) "@x.org")))
     = "k@x.org"
  /\ emailValidator (toLowerCase (trim " Dana@Example.ORG ")) = true
  /\ emailValidator " Dana@Example.ORG " = false.
Proof. repeat split; reflexivity. Qed.

(** X12.  [handleGetUser] for an id that matches no user hands
    "Invalid user id" with status 400 to [next], and the world keeps all
    but the lookup it logged. *)
Theorem unknown_user_is_invalid_id (id : string) (w : World) :
  rejected w (User_findById id) = false ->
  UserModel.lookup id (users w) = None ->
  exists w' : World,
    handleGetUser id w = Some (Forwarded (ErrorHandler "Invalid user id" 400), w')
    /\ issued w' = issued w ++ [User_findById id]
    /\ users w' = users w
    /\ nodeCache w' = nodeCache w.
Proof.
  intros Hok Hnone.
  unfold handleGetUser, TryCatch, UserModel.findById.
  rewrite bind_issue_reading. unfold settled. rewrite Hok. cbn [await].
  unfold bind at 1, ret at 1. cbn [users logQuery]. rewrite Hnone.
  eexists. split; [reflexivity |]. repeat split; reflexivity.
Qed.

End UserProperties.

(** ** Sorting by creation time *)

Section SortFacts.

Context {A : Type} (key : A -> Z).

Lemma insertDesc_Permutation (x : A) (l : list A) : insertDesc key x l ≡ₚ x :: l.
Proof.
  induction l as [| y l IH]; simpl; [reflexivity |].
  destruct (key y <=? key x); [reflexivity |].
  rewrite IH. apply Permutation_swap.
Qed.

Lemma sortDesc_Permutation (l : list A) : sortDesc key l ≡ₚ l.
Proof.
  unfold sortDesc. induction l as [| x l IH]; simpl; [reflexivity |].
  rewrite insertDesc_Permutation, IH. reflexivity.
Qed.

Lemma insertDesc_sorted (x : A) (l : list A) :
  StronglySorted (newerFirst key) l -> StronglySorted (newerFirst key) (insertDesc key x l).
Proof.
  induction l as [| y l IH]; intros Hs; simpl.
  - constructor; constructor.
  - apply StronglySorted_cons in Hs as [Hy Hs].
    destruct (key y <=? key x) eqn:E.
    + apply Z.leb_le in E. apply StronglySorted_cons. split.
      * constructor; [exact E |].
        apply Forall_forall. intros z Hz.
        rewrite Forall_forall in Hy. specialize (Hy z Hz).
        unfold newerFirst in *. lia.
      * apply StronglySorted_cons. split; [exact Hy | exact Hs].
    + apply Z.leb_gt in E. apply StronglySorted_cons. split; [| apply IH, Hs].
      apply Forall_forall. intros z Hz.
      rewrite insertDesc_Permutation in Hz.
      apply elem_of_cons in Hz as [-> | Hz].
      * unfold newerFirst. lia.
      * rewrite Forall_forall in Hy. apply Hy, Hz.
Qed.

Lemma sortDesc_sorted (l : list A) : StronglySorted (newerFirst key) (sortDesc key l).
Proof.
  unfold sortDesc. induction l as [| x l IH]; simpl; [constructor |].
  apply insertDesc_sorted, IH.
Qed.

(** The first [n] of the sorted list are the [n] newest. *)
Lemma firstn_sortDesc_newest (n : nat) (l : list A) (x d : A) :
  x ∈ l -> x ∉ firstn n (sortDesc key l) -> d ∈ firstn n (sortDesc key l) ->
  key x <= key d.
Proof.
  intros Hx Hout Hd.
  pose proof (sortDesc_sorted l) as Hs.
  rewrite <- (firstn_skipn n (sortDesc key l)) in Hs.
  rewrite <- sortDesc_Permutation, <- (firstn_skipn n (sortDesc key l)) in Hx.
  apply elem_of_app in Hx as [Hx | Hx]; [contradiction |].
  apply (StronglySorted_app_1_elem_of _ _ _ _ _ Hs Hd Hx).
Qed.

End SortFacts.

(** ** Product reads *)

Section ProductReadProperties.

Context `{JsonCodec}.

Lemma list_path_miss {A : Type} (key : string) (q : Query) (answer : World -> A)
  (toJson : A -> list Json) (found notFound : string) (w : World) :
  CacheStore.has key (nodeCache w) = false ->
  rejected w q = false ->
  let items := toJson (answer (logQuery q w)) in
  let nonEmpty := (0 <? length items)%nat in
  TryCatch (fun _ : unit =>
    bind (readThrough key q answer (fun a => JArr (toJson a)))
      (fun v => listResponse v found notFound)) tt w
  = Some (Sent (if nonEmpty then 200 else 404)%nat
            (JObj [("success", JBool nonEmpty);
                   ("message", JStr (if nonEmpty then found else notFound));
                   ("payload", if nonEmpty then JArr items else JArr [])]),
          withCache (CacheStore.set key (JSON_stringify (JArr items)) (nodeCache w))
            (logQuery q w)).
Proof.
  intros Hmiss Hok. cbv zeta. unfold TryCatch. unfold bind at 1.
  rewrite (readThrough_miss _ _ _ _ _ Hmiss), Hok. reflexivity.
Qed.

(** X13.  On a miss, with the query accepted, [handleGetLatestProducts]
    answers with at most five products, newest first, and no product
    left out is newer than one it shows; the status is 404 with an empty
    list exactly when there is no product; and the list it shows is the
    one it stores under [latestProducts]. *)
Theorem latest_products_are_the_newest (w : World) :
  CacheStore.has "latestProducts" (nodeCache w) = false ->
  rejected w (Product_find_latest 5) = false ->
  exists (docs : list ProductDoc) (w' : World),
    let nonEmpty := (0 <? length docs)%nat in
    handleGetLatestProducts tt w
    = Some (Sent (if nonEmpty then 200 else 404)%nat
              (JObj [("success", JBool nonEmpty);
                     ("message", JStr (if nonEmpty then "Latest products"
                                       else "No products found"));
                     ("payload", JArr (map productToJSON docs))]), w')
    /\ length docs = Nat.min 5 (length (products w))
    /\ StronglySorted (newerFirst p_createdAt) docs
    /\ (forall d, d ∈ docs -> d ∈ products w)
    /\ (forall p d, p ∈ products w -> p ∉ docs -> d ∈ docs ->
                    p_createdAt p <= p_createdAt d)
    /\ CacheStore.get "latestProducts" (nodeCache w')
       = Some (JSON_stringify (JArr (map productToJSON docs))).
Proof.
  intros Hmiss Hok.
  exists (firstn 5 (sortDesc p_createdAt (products w))).
  exists (withCache
            (CacheStore.set "latestProducts"
               (JSON_stringify
                  (JArr (map productToJSON
                           (firstn 5 (sortDesc p_createdAt (products w))))))
               (nodeCache w))
            (logQuery (Product_find_latest 5) w)).
  cbv zeta.
  split.
  { change (handleGetLatestProducts tt w)
      with (TryCatch (fun _ : unit =>
              bind (readThrough "latestProducts" (Product_find_latest 5)
                      (fun w => firstn 5 (sortDesc p_createdAt (products w)))
                      (fun docs => JArr (map productToJSON docs)))
                (fun v => listResponse v "Latest products" "No products found")) tt w).
    rewrite (list_path_miss "latestProducts" (Product_find_latest 5)
               (fun w => firstn 5 (sortDesc p_createdAt (products w)))
               (map productToJSON) _ _ w Hmiss Hok).
    cbn [products logQuery]. rewrite length_map.
    destruct (firstn 5 (sortDesc p_createdAt (products w))); reflexivity. }
  split; [rewrite length_firstn, sortDesc_length; reflexivity |].
  split.
  { pose proof (sortDesc_sorted p_createdAt (products w)) as Hs.
    rewrite <- (firstn_skipn 5 (sortDesc p_createdAt (products w))) in Hs.
    apply StronglySorted_app_1_l in Hs. exact Hs. }
  split.
  { intros d Hd. rewrite <- (sortDesc_Permutation p_createdAt).
    rewrite <- (firstn_skipn 5 (sortDesc p_createdAt (products w))).
    apply elem_of_app. left. exact Hd. }
  split; [intros p d; apply firstn_sortDesc_newest |].
  cbn [nodeCache withCache products logQuery]. apply get_set.
Qed.

(** X14.  On a miss, with the query accepted,
    [handleGetAllAdminProducts] answers with every product of the
    collection, each as often as it is there, newest first; the status
    is 404 with an empty list exactly when there is no product. *)
Theorem admin_products_are_all_sorted (w : World) :
  CacheStore.has "admin-products" (nodeCache w) = false ->
  rejected w Product_find_sorted = false ->
  exists (docs : list ProductDoc) (w' : World),
    let nonEmpty := (0 <? length docs)%nat in
    handleGetAllAdminProducts tt w
    = Some (Sent (if nonEmpty then 200 else 404)%nat
              (JObj [("success", JBool nonEmpty);
                     ("message", JStr (if nonEmpty then "Fetch all product"
                                       else "No products found"));
                     ("payload", JArr (map productToJSON docs))]), w')
    /\ docs ≡ₚ products w
    /\ StronglySorted (newerFirst p_createdAt) docs
    /\ issued w' = issued w ++ [Product_find_sorted].
Proof.
  intros Hmiss Hok.
  exists (sortDesc p_createdAt (products w)).
  exists (withCache
            (CacheStore.set "admin-products"
               (JSON_stringify
                  (JArr (map productToJSON (sortDesc p_createdAt (products w)))))
               (nodeCache w))
            (logQuery Product_find_sorted w)).
  cbv zeta.
  split.
  { change (handleGetAllAdminProducts tt w)
      with (TryCatch (fun _ : unit =>
              bind (readThrough "admin-products" Product_find_sorted
                      (fun w => sortDesc p_createdAt (products w))
                      (fun docs => JArr (map productToJSON docs)))
                (fun v => listResponse v "Fetch all product" "No products found")) tt w).
    rewrite (list_path_miss "admin-products" Product_find_sorted
               (fun w => sortDesc p_createdAt (products w))
               (map productToJSON) _ _ w Hmiss Hok).
    cbn [products logQuery]. rewrite length_map.
    destruct (sortDesc p_createdAt (products w)); reflexivity. }
  split; [apply sortDesc_Permutation |].
  split; [apply sortDesc_sorted | reflexivity].
Qed.

Lemma parseCached_malformed (key text : string) (w : World) :
  CacheStore.get key (nodeCache w) = Some text ->
  JSON_parse text = None ->
  parseCached key w = Some (inl SyntaxError, w).
Proof.
  intros Hget Hbad. unfold parseCached. rewrite bind_getWorld, Hget, Hbad.
  reflexivity.
Qed.

Lemma has_of_get (key text : string) (c : gmap string string) :
  CacheStore.get key c = Some text -> CacheStore.has key c = true.
Proof.
  intros Hget. apply has_true. unfold CacheStore.get in Hget.
  rewrite Hget. eauto.
Qed.

Lemma read_path_malformed {A : Type} (key text : string) (q : Query)
  (answer : World -> A) (toJson : A -> Json) (respond : Json -> M Outcome)
  (w : World) :
  CacheStore.get key (nodeCache w) = Some text ->
  JSON_parse text = None ->
  TryCatch (fun _ : unit => bind (readThrough key q answer toJson) respond) tt w
  = Some (Forwarded SyntaxError, w).
Proof.
  intros Hget Hbad. unfold TryCatch. unfold bind at 1.
  rewrite (readThrough_hit _ _ _ _ _ (has_of_get _ _ _ Hget)).
  rewrite (parseCached_malformed _ _ _ Hget Hbad). reflexivity.
Qed.

(** X15.  When the entry under its key holds a text that [JSON.parse]
    rejects, each of the five cached controllers hands the [SyntaxError]
    to [next] and leaves the world as it is: it neither queries the data
    source nor repairs the entry. *)
Theorem malformed_entry_is_an_error (text : string) (w : World) :
  JSON_parse text = None ->
  (CacheStore.get "admin-stats" (nodeCache w) = Some text ->
   handleGetDashboardStats tt w = Some (Forwarded SyntaxError, w))
  /\ (CacheStore.get "latestProducts" (nodeCache w) = Some text ->
      handleGetLatestProducts tt w = Some (Forwarded SyntaxError, w))
  /\ (CacheStore.get "categories" (nodeCache w) = Some text ->
      handleGetAllCategories tt w = Some (Forwarded SyntaxError, w))
  /\ (CacheStore.get "admin-products" (nodeCache w) = Some text ->
      handleGetAllAdminProducts tt w = Some (Forwarded SyntaxError, w))
  /\ (forall id, CacheStore.get (productKey id) (nodeCache w) = Some text ->
                 handleGetSingleProduct id w = Some (Forwarded SyntaxError, w)).
Proof.
  intros Hbad. split; [| split; [| split; [| split]]].
  - intros Hget. unfold handleGetDashboardStats, TryCatch.
    rewrite bind_getWorld, (has_of_get _ _ _ Hget). unfold bind at 1.
    rewrite (parseCached_malformed _ _ _ Hget Hbad). reflexivity.
  - intros Hget.
    apply (read_path_malformed "latestProducts" text (Product_find_latest 5)
             (fun w => firstn 5 (sortDesc p_createdAt (products w)))
             (fun docs => JArr (map productToJSON docs))
             (fun v => listResponse v "Latest products" "No products found")
             w Hget Hbad).
  - intros Hget.
    apply (read_path_malformed "categories" text Product_distinct_category
             (fun w => remove_dups (map p_category (products w)))
             (fun names => JArr (map JStr names))
             (fun v => listResponse v "All available categories" "No categories found")
             w Hget Hbad).
  - intros Hget.
    apply (read_path_malformed "admin-products" text Product_find_sorted
             (fun w => sortDesc p_createdAt (products w))
             (fun docs => JArr (map productToJSON docs))
             (fun v => listResponse v "Fetch all product" "No products found")
             w Hget Hbad).
  - intros id Hget. rewrite handleGetSingleProduct_read.
    apply (read_path_malformed (productKey id) text (Product_findById id)
             (fun w => ProductModel.lookup id (products w)) productOrNull
             (fun product => ret (productResponse product)) w Hget Hbad).
Qed.

(** X16.  Whenever [admin-stats] holds the serialized form of a value,
    the statistics controller answers 200 with that value as its payload
    and leaves the world as it is: it issues no query, whatever the
    collections hold and whatever the data source would reject. *)
Theorem cached_stats_are_served (v : Json) (w : World) :
  CacheStore.get "admin-stats" (nodeCache w) = Some (JSON_stringify v) ->
  handleGetDashboardStats tt w
  = Some (Sent 200 (JObj [("success", JBool true);
                          ("message", JStr "Successfully get dashboard stats");
                          ("payload", v)]), w).
Proof.
  intros Hget. unfold handleGetDashboardStats, TryCatch.
  rewrite bind_getWorld, (has_of_get _ _ _ Hget). unfold bind at 1.
  rewrite (parseCached_stored _ _ _ Hget). reflexivity.
Qed.

End ProductReadProperties.

(** ** The pagination of the product search *)

Section PaginationFacts.

Local Open Scope Z_scope.



End PaginationFacts.

(** ** The error middleware *)

(** X17.  Whatever error reaches it, [errorMiddleWare] answers with
    [success: false], a status code that is not 0 and a message that is
    not empty: the error's own message unless that is empty, and the
    error's own status code unless that is missing or 0. *)
Theorem errorMiddleWare_never_blank (message : string) (statusCode : option nat) :
  exists (code : nat) (text : string),
    errorMiddleWare message statusCode
    = Sent code (JObj [("success", JBool false); ("message", JStr text)])
    /\ code <> 0%nat /\ text <> ""
    /\ (message = "" /\ text = "Internal Server Error" \/ message <> "" /\ text = message)
    /\ match statusCode with
       | Some (S n) => code = S n
       | Some O | None => code = 500%nat
       end.
Proof.
  unfold errorMiddleWare.
  destruct (String.eqb_spec message "") as [-> | Hne].
  - destruct statusCode as [[| n] |];
      (eexists; eexists; split; [reflexivity |]);
      (split; [discriminate |]); (split; [discriminate |]);
      (split; [left; split; reflexivity | reflexivity]).
  - destruct statusCode as [[| n] |];
      (eexists; eexists; split; [reflexivity |]);
      (split; [discriminate |]); (split; [exact Hne |]);
      (split; [right; split; [exact Hne | reflexivity] | reflexivity]).
Qed.

(** X21.  The error [notFound] hands to [next] is answered by
    [errorMiddleWare] with status 404, [success: false] and the message
    "Not Found - " followed by the requested URL: for no URL do the
    defaults of the middleware replace the status or the message. *)
Theorem notFound_is_answered_404 (originalUrl : string) :
  exists (message : string) (statusCode : nat),
    notFound originalUrl = Forwarded (ErrorHandler message statusCode)
    /\ errorMiddleWare message (Some statusCode)
       = Sent 404 (JObj [("success", JBool false);
                         ("message", JStr ("Not Found - " +:+ originalUrl))]).
Proof.
  exists ("Not Found - " +:+ originalUrl), 404%nat. split; reflexivity.
Qed.

(** ** The user schema *)

Section AgeFacts.

Local Open Scope Z_scope.

(** X18.  The virtual [age] is the number of birthdays reached: the
    calendar day of birth moved [age] years on is today or earlier, and
    moved one year further it is after today. *)
Theorem age_counts_birthdays (today dob : Z) :
  let now := (getFullYear today, getMonth today, getDate today) in
  onOrBefore (getFullYear dob + age today dob, getMonth dob, getDate dob) now
  /\ ~ onOrBefore (getFullYear dob + age today dob + 1, getMonth dob, getDate dob) now.
Proof.
  cbv zeta. unfold age, onOrBefore.
  generalize (getFullYear today) (getMonth today) (getDate today)
             (getFullYear dob) (getMonth dob) (getDate dob).
  intros yt mt dt yb mb db.
  destruct (mt - mb <? 0) eqn:E1; [apply Z.ltb_lt in E1 | apply Z.ltb_ge in E1];
    cbn [orb].
  - lia.
  - destruct (mt - mb =? 0) eqn:E2; [apply Z.eqb_eq in E2 | apply Z.eqb_neq in E2];
      cbn [andb]; [| lia].
    destruct (dt <? db) eqn:E3; [apply Z.ltb_lt in E3 | apply Z.ltb_ge in E3]; lia.
Qed.

(** Born on 29 February 2000: still 22 on 28 February 2023, 23 on
    1 March 2023, and 24 on 29 February 2024. *)
Example age_of_a_leap_day_child :
  toISOString 951782400000 = "2000-02-29T00:00:00.000Z"
  /\ toISOString 1677585600000 = "2023-02-28T12:00:00.000Z"
  /\ age 1677585600000 951782400000 = 22
  /\ age (1677585600000 + msPerDay) 951782400000 = 23
  /\ toISOString 1709208000000 = "2024-02-29T12:00:00.000Z"
  /\ age 1709208000000 951782400000 = 24.
Proof. repeat split; reflexivity. Qed.

End AgeFacts.

Section EmailFacts.

Lemma allChars_app (p : ascii -> bool) (s t : string) :
  allChars p (s +:+ t) = allChars p s && allChars p t.
Proof.
  induction s as [| c s IH]; simpl; [reflexivity |].
  rewrite IH, andb_assoc. reflexivity.
Qed.

Lemma matchDomain_spec (s : string) (seen : bool) :
  matchDomain s seen = true
  <-> allChars isDomainChar s = true /\ (seen = true \/ s <> "").
Proof.
  revert seen. induction s as [| c s IH]; intros seen; simpl.
  - split; [intros ->; split; [reflexivity | left; reflexivity] |].
    intros [_ [-> | Hne]]; [reflexivity | contradiction].
  - rewrite andb_true_iff, IH. split.
    + intros (Hc & Hs & _). split; [rewrite Hc, Hs; reflexivity | right; discriminate].
    + intros (Hcs & _). apply andb_true_iff in Hcs as [Hc Hs].
      split; [exact Hc |]. split; [exact Hs | left; reflexivity].
Qed.

Lemma matchLocal_spec (s : string) (seen : bool) :
  matchLocal s seen = true
  <-> exists l d : string,
        s = l +:+ "@" +:+ d
        /\ allChars isLocalChar l = true /\ (seen = true \/ l <> "")
        /\ allChars isDomainChar d = true /\ d <> "".
Proof.
  revert seen. induction s as [| c s IH]; intros seen; simpl.
  - split; [discriminate |].
    intros (l & d & E & _). destruct l; discriminate E.
  - destruct (isLocalChar c) eqn:Hc.
    + rewrite IH. split.
      * intros (l & d & -> & Hl & _ & Hd & Hne).
        exists (String c l), d. simpl. rewrite Hc, Hl.
        repeat split; try assumption. right. discriminate.
      * intros (l & d & E & Hl & _ & Hd & Hne).
        destruct l as [| c' l]; simpl in E.
        { injection E as -> _. discriminate Hc. }
        injection E as -> ->. simpl in Hl. rewrite Hc in Hl. simpl in Hl.
        exists l, d. repeat split; try assumption. left. reflexivity.
    + rewrite !andb_true_iff, Ascii.eqb_eq, matchDomain_spec. split.
      * intros ((-> & ->) & Hd & [Hf | Hne]); [discriminate Hf |].
        exists "", s. simpl. repeat split; try assumption. left. reflexivity.
      * intros (l & d & E & Hl & Hseen & Hd & Hne).
        destruct l as [| c' l]; simpl in E.
        { injection E as -> ->. destruct Hseen as [-> | Hl']; [| contradiction].
          repeat split; try assumption. right. exact Hne. }
        injection E as -> _. simpl in Hl. rewrite Hc in Hl. discriminate Hl.
Qed.

(** X19.  The validator of the [email] path accepts exactly the strings
    made of a non-empty local part of letters, digits and [+ _ . -], one
    [@], and a non-empty domain of letters, digits and [. -].  So an
    accepted address has exactly one [@] and no space, and a domain
    without a dot is accepted. *)
Theorem emailValidator_spec (value : string) :
  emailValidator value = true
  <-> exists local domain : string,
        value = local +:+ "@" +:+ domain
        /\ local <> "" /\ domain <> ""
        /\ allChars isLocalChar local = true
        /\ allChars isDomainChar domain = true.
Proof.
  unfold emailValidator. rewrite matchLocal_spec. split.
  - intros (l & d & E & Hl & [Hf | Hne] & Hd & Hne'); [discriminate Hf |].
    exists l, d. repeat split; assumption.
  - intros (l & d & E & Hne & Hne' & Hl & Hd).
    exists l, d. repeat split; try assumption. right. exact Hne.
Qed.

Example emailValidator_examples :
  emailValidator "asha@example.org" = true
  /\ emailValidator "a+b_c.d-e@localhost" = true
  /\ emailValidator "a@b@c" = false
  /\ emailValidator "@example.org" = false
  /\ emailValidator "asha@" = false
  /\ emailValidator "asha smith@example.org" = false
  /\ emailValidator "asha@exa_mple.org" = false
  /\ emailValidator "" = false.
Proof. repeat split; reflexivity. Qed.

End EmailFacts.

(** ** Categories, and reading what was created *)

Section CatalogueProperties.

Context `{JsonCodec}.

(** X22.  On a miss, with the query accepted, [handleGetAllCategories]
    answers with the categories of the products, each once; the status
    is 404 with an empty list exactly when there is no category; and the
    list it shows is the one it stores under [categories]. *)
Theorem categories_are_listed_once (w : World) :
  CacheStore.has "categories" (nodeCache w) = false ->
  rejected w Product_distinct_category = false ->
  exists (names : list string) (w' : World),
    let nonEmpty := (0 <? length names)%nat in
    handleGetAllCategories tt w
    = Some (Sent (if nonEmpty then 200 else 404)%nat
              (JObj [("success", JBool nonEmpty);
                     ("message", JStr (if nonEmpty then "All available categories"
                                       else "No categories found"));
                     ("payload", JArr (map JStr names))]), w')
    /\ NoDup names
    /\ (forall c, c ∈ names <-> exists p, p ∈ products w /\ p_category p = c)
    /\ (names = [] <-> products w = [])
    /\ CacheStore.get "categories" (nodeCache w')
       = Some (JSON_stringify (JArr (map JStr names)))
    /\ products w' = products w.
Proof.
  intros Hmiss Hok.
  exists (remove_dups (map p_category (products w))).
  exists (withCache
            (CacheStore.set "categories"
               (JSON_stringify
                  (JArr (map JStr (remove_dups (map p_category (products w))))))
               (nodeCache w))
            (logQuery Product_distinct_category w)).
  cbv zeta.
  split.
  { change (handleGetAllCategories tt w)
      with (TryCatch (fun _ : unit =>
              bind (readThrough "categories" Product_distinct_category
                      (fun w => remove_dups (map p_category (products w)))
                      (fun names => JArr (map JStr names)))
                (fun v => listResponse v "All available categories"
                            "No categories found")) tt w).
    rewrite (list_path_miss "categories" Product_distinct_category
               (fun w => remove_dups (map p_category (products w)))
               (map JStr) _ _ w Hmiss Hok).
    cbn [products logQuery]. rewrite length_map.
    destruct (remove_dups (map p_category (products w))); reflexivity. }
  split; [apply NoDup_remove_dups |].
  split.
  { intros c. rewrite elem_of_remove_dups, list_elem_of_fmap. split.
    - intros (p & -> & Hp). exists p. split; [exact Hp | reflexivity].
    - intros (p & Hp & <-). exists p. split; [reflexivity | exact Hp]. }
  split.
  { split.
    - intros E. destruct (products w) as [| p ps]; [reflexivity |].
      assert (Hin : p_category p ∈ remove_dups (map p_category (p :: ps)))
        by (apply elem_of_remove_dups; cbn [map]; apply list_elem_of_here).
      rewrite E in Hin. apply elem_of_nil in Hin. contradiction.
    - intros ->. reflexivity. }
  split; [| reflexivity].
  cbn [nodeCache withCache]. unfold CacheStore.get, CacheStore.set.
  apply lookup_insert_eq.
Qed.

(** X23.  A creation that answered 201 stored one new document, after
    the others, under an identifier no product had, with the fields of
    the request, the path of the uploaded file as its image and the time
    of the request as both timestamps, and called the coordinator once.
    While no detail entry is cached for that identifier,
    [handleGetSingleProduct] then answers 200 with this document. *)
Theorem created_product_can_be_read (req : NewProductRequest) (w w' : World)
  (body : Json) :
  handleNewProduct req w = Some (Sent 201 body, w') ->
  exists doc : ProductDoc,
    doc = {| p_id := objectIds w (generated w);
             p_name := np_name (npr_body req); p_image := npr_file req;
             p_category := np_category (npr_body req);
             p_price := np_price (npr_body req);
             p_stock := np_stock (npr_body req);
             p_createdAt := clock w; p_updatedAt := clock w |}
    /\ body = JObj [("success", JBool true);
                    ("message", JStr "Product created successfully");
                    ("payload", productToJSON doc)]
    /\ ProductModel.lookup (p_id doc) (products w) = None
    /\ products w' = products w ++ [doc]
    /\ invalidations w'
       = invalidations w ++ [{| entityKind := Product; entityId := None |}]
    /\ (CacheStore.has (productKey (p_id doc)) (nodeCache w') = false ->
        rejected w' (Product_findById (p_id doc)) = false ->
        exists w1 : World,
          handleGetSingleProduct (p_id doc) w'
          = Some (Sent 200 (JObj [("success", JBool true);
                                  ("message", JStr "Product found");
                                  ("payload", productToJSON doc)]), w1)
          /\ products w1 = products w').
Proof.
  unfold handleNewProduct, TryCatch.
  destruct (validateAllowedFields _ _); [unfold ret; discriminate |].
  unfold ProductModel.create, bind, issue, await, throw, ret, invalidateCache.
  destruct (rejected w _); [discriminate |].
  cbn [products logQuery clock objectIds generated].
  destruct (ProductModel.lookup _ (products w)) eqn:Hnone; [discriminate |].
  intros E. apply Some_pair_inv in E as [E <-].
  injection E as <-.
  eexists. split; [reflexivity |].
  split; [reflexivity |].
  split; [exact Hnone |].
  split; [reflexivity |].
  split; [reflexivity |].
  intros Hmiss Hok.
  rewrite (handleGetSingleProduct_miss _ _ Hmiss Hok).
  eexists. split.
  { cbn [products withProducts withGenerated logQuery noteInvalidation withCache p_id].
    unfold ProductModel.lookup in *. rewrite find_snoc, Hnone.
    cbn [find p_id]. rewrite String.eqb_refl. reflexivity. }
  reflexivity.
Qed.

End CatalogueProperties.

(** ** The name of a stored upload *)

Section UploadFacts.

Lemma stripPrefix_Some (pattern s rest : string) :
  stripPrefix pattern s = Some rest <-> s = pattern +:+ rest.
Proof.
  revert s. induction pattern as [| a pattern IH]; intros s; simpl.
  - split; [intros [= ->]; reflexivity | intros ->; reflexivity].
  - destruct s as [| b s]; [split; discriminate |].
    destruct (Ascii.eqb_spec a b) as [-> | Hne].
    + rewrite IH. split; [intros ->; reflexivity | intros [= ->]; reflexivity].
    + split; [discriminate | intros [= E _]; congruence].
Qed.

Lemma removeFirst_eq (pattern s : string) :
  removeFirst pattern s
  = match stripPrefix pattern s with
    | Some rest => rest
    | None =>
        match s with
        | EmptyString => EmptyString
        | String c s' => String c (removeFirst pattern s')
        end
    end.
Proof. destruct s; reflexivity. Qed.

Lemma removeFirst_first (pattern pre post : string) :
  (forall p q, pre +:+ pattern +:+ post = p +:+ pattern +:+ q ->
               (String.length pre <= String.length p)%nat) ->
  removeFirst pattern (pre +:+ pattern +:+ post) = pre +:+ post.
Proof.
  induction pre as [| c pre IH]; intros Hfirst.
  - change ("" +:+ pattern +:+ post) with (pattern +:+ post).
    change ("" +:+ post) with post.
    rewrite removeFirst_eq.
    assert (E : stripPrefix pattern (pattern +:+ post) = Some post)
      by (apply stripPrefix_Some; reflexivity).
    rewrite E. reflexivity.
  - change (String c pre +:+ pattern +:+ post)
      with (String c (pre +:+ pattern +:+ post)) in *.
    change (String c pre +:+ post) with (String c (pre +:+ post)).
    rewrite removeFirst_eq.
    destruct (stripPrefix pattern (String c (pre +:+ pattern +:+ post)))
      as [rest |] eqn:E.
    + apply stripPrefix_Some in E.
      specialize (Hfirst "" rest E). simpl in Hfirst. lia.
    + f_equal. apply IH. intros p q Hpq.
      specialize (Hfirst (String c p) q).
      change (String c p +:+ pattern +:+ q)
        with (String c (p +:+ pattern +:+ q)) in Hfirst.
      rewrite Hpq in Hfirst. specialize (Hfirst eq_refl).
      simpl in Hfirst. lia.
Qed.

(** X24.  The stored name of an upload is the stamp, a dash, the
    original name with the first occurrence of its extension taken out,
    and the extension.  So a name in which the extension occurs at its
    end only is stored as it is behind the stamp, and a name in which it
    also occurs earlier loses the earlier occurrence, not the last. *)
Theorem filename_drops_first_occurrence (stamp pre ext post : string) :
  (forall p q, pre +:+ ext +:+ post = p +:+ ext +:+ q ->
               (String.length pre <= String.length p)%nat) ->
  filename stamp ext (pre +:+ ext +:+ post)
  = stamp +:+ "-" +:+ (pre +:+ post) +:+ ext.
Proof.
  intros Hfirst. unfold filename. rewrite (removeFirst_first _ _ _ Hfirst).
  reflexivity.
Qed.

Example filename_examples :
  filename "1718452800000" ".png" "lamp.png" = "1718452800000-lamp.png"
  /\ filename "1718452800000" ".jpg" "x.jpgy.jpg" = "1718452800000-xy.jpg.jpg"
  /\ filename "1718452800000" "" "README" = "1718452800000-README".
Proof. repeat split; reflexivity. Qed.

End UploadFacts.

(** ** The further statements at the reference data *)

Ltac allowed_here :=
  unfold allowFields; rewrite !elem_of_cons, ?elem_of_nil in *; tauto.

Lemma prepareUpdates_accepts_at_sample :
  (forall k, k ∈ map fst priceAndStock -> k ∈ allowFields)
  /\ exists updates,
       prepareUpdates priceAndStock allowFields = inr updates
       /\ NoDup (map fst updates)
       /\ forall k, property k updates = property k priceAndStock.
Proof.
  assert (Hall : forall k, k ∈ map fst priceAndStock -> k ∈ allowFields)
    by (intros k Hk; cbn in Hk; allowed_here).
  split; [exact Hall |].
  exact (prepareUpdates_accepts priceAndStock allowFields Hall).
Defined.

Lemma prepareUpdates_rejects_at_sample :
  (forall k', k' ∈ map fst [("price", JNum 35)] -> k' ∈ allowFields)
  /\ ("role" ∉ allowFields)
  /\ prepareUpdates (upr_body promoteKettle) allowFields
     = inl (ErrorHandler "Field role is not allowed for update" 400).
Proof.
  assert (Hpre : forall k', k' ∈ map fst [("price", JNum 35)] -> k' ∈ allowFields)
    by (intros k Hk; cbn in Hk; allowed_here).
  assert (Hk : "role" ∉ allowFields)
    by (unfold allowFields; rewrite !elem_of_cons, elem_of_nil;
        intros [E | [E | [E | [E | [E | []]]]]]; discriminate E).
  split; [exact Hpre |]. split; [exact Hk |].
  exact (prepareUpdates_rejects [("price", JNum 35)] [("stock", JNum 3)]
           allowFields "role" (JStr "admin") Hpre Hk).
Defined.

Lemma update_rejects_disallowed_field_at_sample :
  rejected sampleShop (Product_findById (upr_id promoteKettle)) = false
  /\ ProductModel.lookup (upr_id promoteKettle) (products sampleShop) = Some kettle
  /\ exists w' : World,
       handleUpdateSingleProduct promoteKettle sampleShop
       = Some (Forwarded (ErrorHandler "Field role is not allowed for update" 400), w')
       /\ issued w' = issued sampleShop ++ [Product_findById "p1"]
       /\ products w' = products sampleShop
       /\ nodeCache w' = nodeCache sampleShop
       /\ invalidations w' = invalidations sampleShop.
Proof.
  assert (Hok : rejected sampleShop (Product_findById (upr_id promoteKettle)) = false)
    by reflexivity.
  assert (Hdoc : ProductModel.lookup (upr_id promoteKettle) (products sampleShop)
                 = Some kettle) by reflexivity.
  assert (Hbody : upr_body promoteKettle
                  = [("price", JNum 35)] ++ ("role", JStr "admin") :: [("stock", JNum 3)])
    by reflexivity.
  assert (Hpre : forall k', k' ∈ map fst [("price", JNum 35)] -> k' ∈ allowFields)
    by (intros k Hk; cbn in Hk; allowed_here).
  assert (Hk : "role" ∉ allowFields)
    by (unfold allowFields; rewrite !elem_of_cons, elem_of_nil;
        intros [E | [E | [E | [E | [E | []]]]]]; discriminate E).
  split; [exact Hok |]. split; [exact Hdoc |].
  exact (update_rejects_disallowed_field promoteKettle sampleShop kettle
           [("price", JNum 35)] [("stock", JNum 3)] "role" (JStr "admin")
           Hok Hdoc Hbody Hpre Hk).
Defined.

Lemma update_sends_body_fields_at_sample :
  exists (body : Json) (w' : World),
    handleUpdateSingleProduct restockKettle sampleShop = Some (Sent 200 body, w')
    /\ exists (doc' : ProductDoc) (updates : list (string * Json)),
         issued w' = issued sampleShop
                     ++ [Product_findById "p1"; Product_findByIdAndUpdate "p1" updates]
         /\ p_name doc' = "kettle pro"
         /\ p_category doc' = "kitchen"
         /\ p_image doc' = Some "uploads/kettle.png"
         /\ p_price doc' = (71 # 2)%Q
         /\ p_stock doc' = 3%Q
         /\ p_updatedAt doc' = noon15June
         /\ body = JObj [("success", JBool true);
                         ("message", JStr "Product updated successfully");
                         ("payload", productToJSON doc')]
         /\ ProductModel.lookup "p1" (products w') = Some doc'
         /\ length (products w') = 2%nat.
Proof.
  eexists. eexists.
  split; [vm_compute; reflexivity |].
  edestruct (update_sends_body_fields restockKettle sampleShop)
    as (doc & doc' & updates & Hdoc & Hissued & _ & Hfile & Hother & _ & _
        & Hupdated & Hname & Hcat & Himage & Hprice & Hstock & Hbody & Hlookup
        & Hlength & _).
  { vm_compute. reflexivity. }
  exists doc', updates.
  assert (Hkettle : doc = kettle).
  { assert (E : Some doc = Some kettle) by (rewrite <- Hdoc; reflexivity).
    injection E as E. exact E. }
  assert (Pname : property "name" updates = Some (JStr "kettle pro"))
    by (rewrite Hother; [reflexivity | right; discriminate]).
  assert (Pcat : property "category" updates = None)
    by (rewrite Hother; [reflexivity | right; discriminate]).
  assert (Pprice : property "price" updates = Some (JStr "35.50"))
    by (rewrite Hother; [reflexivity | right; discriminate]).
  assert (Pstock : property "stock" updates = Some (JStr " 3 "))
    by (rewrite Hother; [reflexivity | right; discriminate]).
  rewrite Pname in Hname. rewrite Pcat in Hcat. rewrite Pprice in Hprice.
  rewrite Pstock in Hstock.
  rewrite (Hfile "uploads/kettle.png" eq_refl) in Himage.
  cbn [storedString storedImage storedNumber] in *.
  assert (Eprice : stringToNumber "35.50" = Some (Finite (71 # 2)%Q))
    by (vm_compute; reflexivity).
  assert (Estock : stringToNumber " 3 " = Some (Finite 3%Q))
    by (vm_compute; reflexivity).
  rewrite Eprice in Hprice. rewrite Estock in Hstock.
  destruct Hprice as [Hprice | [Hprice | [negative Hprice]]];
    [discriminate Hprice | | discriminate Hprice].
  destruct Hstock as [Hstock | [Hstock | [negative Hstock]]];
    [discriminate Hstock | | discriminate Hstock].
  injection Hprice as Hprice. injection Hstock as Hstock.
  split; [exact Hissued |].
  split; [exact Hname |].
  split; [rewrite Hcat, Hkettle; reflexivity |].
  split; [exact Himage |].
  split; [symmetry; exact Hprice |].
  split; [symmetry; exact Hstock |].
  split; [exact Hupdated |].
  split; [| split; [exact Hlookup | exact Hlength]].
  rewrite <- Hbody. reflexivity.
Defined.

Lemma update_unknown_product_at_sample :
  rejected sampleShop (Product_findById (upr_id repriceUnknown)) = false
  /\ ProductModel.lookup (upr_id repriceUnknown) (products sampleShop) = None
  /\ exists w' : World,
       handleUpdateSingleProduct repriceUnknown sampleShop
       = Some (Forwarded (ErrorHandler "Product not found" 404), w')
       /\ issued w' = issued sampleShop ++ [Product_findById "p9"]
       /\ products w' = products sampleShop
       /\ nodeCache w' = nodeCache sampleShop
       /\ invalidations w' = invalidations sampleShop.
Proof.
  assert (Hok : rejected sampleShop (Product_findById (upr_id repriceUnknown)) = false)
    by reflexivity.
  assert (Hnone : ProductModel.lookup (upr_id repriceUnknown) (products sampleShop) = None)
    by reflexivity.
  split; [exact Hok |]. split; [exact Hnone |].
  exact (update_unknown_product repriceUnknown sampleShop Hok Hnone).
Defined.

Lemma delete_unknown_product_at_sample :
  rejected sampleShop (Product_findById "p9") = false
  /\ ProductModel.lookup "p9" (products sampleShop) = None
  /\ exists w' : World,
       handleDeleteProduct "p9" sampleShop
       = Some (Forwarded (ErrorHandler "Product not found" 404), w')
       /\ issued w' = issued sampleShop ++ [Product_findById "p9"]
       /\ products w' = products sampleShop
       /\ nodeCache w' = nodeCache sampleShop
       /\ invalidations w' = invalidations sampleShop.
Proof.
  assert (Hok : rejected sampleShop (Product_findById "p9") = false) by reflexivity.
  assert (Hnone : ProductModel.lookup "p9" (products sampleShop) = None)
    by reflexivity.
  split; [exact Hok |]. split; [exact Hnone |].
  exact (delete_unknown_product "p9" sampleShop Hok Hnone).
Defined.

Lemma delete_removes_product_at_sample :
  rejected sampleShop (Product_findById "p1") = false
  /\ rejected sampleShop (Product_findByIdAndDelete "p1") = false
  /\ ProductModel.lookup "p1" (products sampleShop) = Some kettle
  /\ exists w' w'' : World,
       handleDeleteProduct "p1" sampleShop
       = Some (Sent 200 (JObj [("success", JBool true);
                               ("message", JStr "Product deleted successfully");
                               ("payload", productToJSON kettle)]), w')
       /\ ProductModel.lookup "p1" (products w') = None
       /\ invalidations w' = [{| entityKind := Product; entityId := Some "p1" |}]
       /\ handleDeleteProduct "p1" w'
          = Some (Forwarded (ErrorHandler "Product not found" 404), w'').
Proof.
  assert (Hok : rejected sampleShop (Product_findById "p1") = false) by reflexivity.
  assert (Hok' : rejected sampleShop (Product_findByIdAndDelete "p1") = false)
    by reflexivity.
  assert (Hdoc : ProductModel.lookup "p1" (products sampleShop) = Some kettle)
    by reflexivity.
  split; [exact Hok |]. split; [exact Hok' |]. split; [exact Hdoc |].
  destruct (delete_removes_product "p1" sampleShop kettle Hok Hok' Hdoc)
    as (w' & w'' & Hrun & Hgone & _ & _ & Hcalls & Hagain & _).
  exists w', w''.
  split; [exact Hrun |]. split; [exact Hgone |].
  split; [exact Hcalls | exact Hagain].
Defined.

Lemma known_user_is_welcomed_back_at_sample :
  rejected sampleShop (User_findById (nu_id returningAsha)) = false
  /\ UserModel.lookup (nu_id returningAsha) (users sampleShop) = Some asha
  /\ exists w' : World,
       handleNewUser returningAsha sampleShop
       = Some (Sent 200 (JObj [("success", JBool true);
                               ("message", JStr "Welcome back Asha K!");
                               ("payload", userToJSON asha)]), w')
       /\ issued w' = issued sampleShop ++ [User_findById "u1"]
       /\ users w' = users sampleShop.
Proof.
  assert (Hok : rejected sampleShop (User_findById (nu_id returningAsha)) = false)
    by reflexivity.
  assert (Hdoc : UserModel.lookup (nu_id returningAsha) (users sampleShop) = Some asha)
    by reflexivity.
  split; [exact Hok |]. split; [exact Hdoc |].
  exact (known_user_is_welcomed_back returningAsha sampleShop asha Hok Hdoc).
Defined.

Lemma repeated_creation_is_welcome_back_at_sample :
  exists (b : Json) (w' : World),
    handleNewUser newUserDana sampleShop = Some (Sent 201 b, w')
    /\ exists doc : UserDoc,
         u_name doc = "Dana Lee" /\ u_email doc = "dana@example.org"
         /\ b = JObj [("success", JBool true);
                      ("message",
                       JStr "Welcome Dana Lee! Your account has been created successfully!")]
         /\ users w' = users sampleShop ++ [doc]
         /\ exists w'' : World,
              handleNewUser newUserDana w'
              = Some (Sent 200 (JObj [("success", JBool true);
                                      ("message", JStr "Welcome back  Dana Lee !");
                                      ("payload", userToJSON doc)]),
                      w'')
              /\ users w'' = users w'.
Proof.
  eexists. eexists.
  split; [vm_compute; reflexivity |].
  edestruct (repeated_creation_is_welcome_back newUserDana sampleShop)
    as (doc & Hdoc & _ & Hb & Husers & Hagain).
  { vm_compute. reflexivity. }
  exists doc.
  split; [rewrite Hdoc; reflexivity |]. split; [rewrite Hdoc; reflexivity |].
  split; [reflexivity |].
  split; [exact Husers | exact Hagain].
Defined.

Lemma created_user_can_be_read_at_sample :
  exists (b : Json) (w' : World),
    handleNewUser newUserDana sampleShop = Some (Sent 201 b, w')
    /\ rejected w' (User_findById (nu_id newUserDana)) = false
    /\ rejected w' User_find = false
    /\ exists doc : UserDoc,
         u_name doc = "Dana Lee" /\ u_email doc = "dana@example.org"
         /\ (exists w1 : World,
               handleGetUser "u4" w'
               = Some (Sent 200 (JObj [("success", JBool true);
                                       ("payload", userToJSON doc)]), w1))
         /\ (exists w2 : World,
               handleGetAllUsers tt w'
               = Some (Sent 200
                         (JObj [("success", JBool true);
                                ("payload",
                                 JArr (map userToJSON (users sampleShop)
                                       ++ [userToJSON doc]))]),
                       w2)).
Proof.
  eexists. eexists.
  split; [vm_compute; reflexivity |].
  split; [reflexivity |]. split; [reflexivity |].
  edestruct (created_user_can_be_read newUserDana sampleShop)
    as (doc & Hdoc & Hget & Hall);
    [vm_compute; reflexivity | reflexivity | reflexivity |].
  exists doc.
  split; [rewrite Hdoc; reflexivity |]. split; [rewrite Hdoc; reflexivity |].
  split; [exact Hget | exact Hall].
Defined.

Lemma unknown_user_is_invalid_id_at_sample :
  rejected sampleShop (User_findById "u9") = false
  /\ UserModel.lookup "u9" (users sampleShop) = None
  /\ exists w' : World,
       handleGetUser "u9" sampleShop
       = Some (Forwarded (ErrorHandler "Invalid user id" 400), w')
       /\ issued w' = issued sampleShop ++ [User_findById "u9"]
       /\ users w' = users sampleShop
       /\ nodeCache w' = nodeCache sampleShop.
Proof.
  assert (Hok : rejected sampleShop (User_findById "u9") = false) by reflexivity.
  assert (Hnone : UserModel.lookup "u9" (users sampleShop) = None) by reflexivity.
  split; [exact Hok |]. split; [exact Hnone |].
  exact (unknown_user_is_invalid_id "u9" sampleShop Hok Hnone).
Defined.

Lemma latest_products_are_the_newest_at_sample :
  CacheStore.has "latestProducts" (nodeCache sampleShop) = false
  /\ rejected sampleShop (Product_find_latest 5) = false
  /\ exists (docs : list ProductDoc) (w' : World),
       handleGetLatestProducts tt sampleShop
       = Some (Sent (if (0 <? length docs)%nat then 200 else 404)%nat
                 (JObj [("success", JBool (0 <? length docs)%nat);
                        ("message", JStr (if (0 <? length docs)%nat
                                          then "Latest products"
                                          else "No products found"));
                        ("payload", JArr (map productToJSON docs))]), w')
       /\ length docs = 2%nat
       /\ StronglySorted (newerFirst p_createdAt) docs
       /\ CacheStore.get "latestProducts" (nodeCache w')
          = Some (JSON_stringify (JArr (map productToJSON docs))).
Proof.
  assert (Hmiss : CacheStore.has "latestProducts" (nodeCache sampleShop) = false)
    by reflexivity.
  assert (Hok : rejected sampleShop (Product_find_latest 5) = false) by reflexivity.
  split; [exact Hmiss |]. split; [exact Hok |].
  destruct (latest_products_are_the_newest sampleShop Hmiss Hok)
    as (docs & w' & Hrun & Hlen & Hsorted & _ & _ & Hget).
  exists docs, w'.
  split; [exact Hrun |]. split; [exact Hlen |].
  split; [exact Hsorted | exact Hget].
Defined.

Lemma admin_products_are_all_sorted_at_sample :
  CacheStore.has "admin-products" (nodeCache sampleShop) = false
  /\ rejected sampleShop Product_find_sorted = false
  /\ exists (docs : list ProductDoc) (w' : World),
       handleGetAllAdminProducts tt sampleShop
       = Some (Sent (if (0 <? length docs)%nat then 200 else 404)%nat
                 (JObj [("success", JBool (0 <? length docs)%nat);
                        ("message", JStr (if (0 <? length docs)%nat
                                          then "Fetch all product"
                                          else "No products found"));
                        ("payload", JArr (map productToJSON docs))]), w')
       /\ docs ≡ₚ products sampleShop
       /\ StronglySorted (newerFirst p_createdAt) docs
       /\ issued w' = [Product_find_sorted].
Proof.
  assert (Hmiss : CacheStore.has "admin-products" (nodeCache sampleShop) = false)
    by reflexivity.
  assert (Hok : rejected sampleShop Product_find_sorted = false) by reflexivity.
  split; [exact Hmiss |]. split; [exact Hok |].
  exact (admin_products_are_all_sorted sampleShop Hmiss Hok).
Defined.

Lemma malformed_entry_is_an_error_at_sample :
  JSON_parse "?" = None
  /\ CacheStore.get "admin-stats" (nodeCache shopWithMalformedStats) = Some "?"
  /\ handleGetDashboardStats tt shopWithMalformedStats
     = Some (Forwarded SyntaxError, shopWithMalformedStats).
Proof.
  assert (Hbad : JSON_parse "?" = None) by reflexivity.
  assert (Hget : CacheStore.get "admin-stats" (nodeCache shopWithMalformedStats)
                 = Some "?") by reflexivity.
  split; [exact Hbad |]. split; [exact Hget |].
  destruct (malformed_entry_is_an_error "?" shopWithMalformedStats Hbad)
    as (Hstats & _).
  exact (Hstats Hget).
Defined.

Lemma cached_stats_are_served_at_sample :
  CacheStore.get "admin-stats" (nodeCache shopWithCachedStats)
  = Some (JSON_stringify (statsToJSON cachedStats))
  /\ handleGetDashboardStats tt shopWithCachedStats
     = Some (Sent 200 (JObj [("success", JBool true);
                             ("message", JStr "Successfully get dashboard stats");
                             ("payload", statsToJSON cachedStats)]),
             shopWithCachedStats).
Proof.
  assert (Hget : CacheStore.get "admin-stats" (nodeCache shopWithCachedStats)
                 = Some (JSON_stringify (statsToJSON cachedStats)))
    by reflexivity.
  split; [exact Hget |].
  exact (cached_stats_are_served (statsToJSON cachedStats) shopWithCachedStats Hget).
Defined.

Lemma emailValidator_spec_at_sample :
  emailValidator "asha@example.org" = true
  /\ exists local domain : string,
       "asha@example.org" = local +:+ "@" +:+ domain
       /\ local <> "" /\ domain <> ""
       /\ allChars isLocalChar local = true
       /\ allChars isDomainChar domain = true.
Proof.
  assert (Hok : emailValidator "asha@example.org" = true) by reflexivity.
  split; [exact Hok |].
  exact (proj1 (emailValidator_spec "asha@example.org") Hok).
Defined.


Lemma categories_are_listed_once_at_sample :
  CacheStore.has "categories" (nodeCache sampleShop) = false
  /\ rejected sampleShop Product_distinct_category = false
  /\ exists (names : list string) (w' : World),
       handleGetAllCategories tt sampleShop
       = Some (Sent (if (0 <? length names)%nat then 200 else 404)%nat
                 (JObj [("success", JBool (0 <? length names)%nat);
                        ("message", JStr (if (0 <? length names)%nat
                                          then "All available categories"
                                          else "No categories found"));
                        ("payload", JArr (map JStr names))]), w')
       /\ NoDup names
       /\ "kitchen" ∈ names
       /\ CacheStore.get "categories" (nodeCache w')
          = Some (JSON_stringify (JArr (map JStr names))).
Proof.
  assert (Hmiss : CacheStore.has "categories" (nodeCache sampleShop) = false)
    by reflexivity.
  assert (Hok : rejected sampleShop Product_distinct_category = false) by reflexivity.
  split; [exact Hmiss |]. split; [exact Hok |].
  destruct (categories_are_listed_once sampleShop Hmiss Hok)
    as (names & w' & Hrun & Hnodup & Hin & _ & Hget & _).
  exists names, w'.
  split; [exact Hrun |]. split; [exact Hnodup |].
  split; [| exact Hget].
  apply Hin. exists kettle. split; [apply list_elem_of_here | reflexivity].
Defined.

Lemma created_product_can_be_read_at_sample :
  exists (body : Json) (w' : World),
    handleNewProduct newProductRequest sampleShop = Some (Sent 201 body, w')
    /\ exists doc : ProductDoc,
         p_id doc = "p3" /\ p_name doc = "mug"
         /\ products w' = products sampleShop ++ [doc]
         /\ exists w1 : World,
              handleGetSingleProduct "p3" w'
              = Some (Sent 200 (JObj [("success", JBool true);
                                      ("message", JStr "Product found");
                                      ("payload", productToJSON doc)]), w1).
Proof.
  eexists. eexists.
  split; [vm_compute; reflexivity |].
  edestruct (created_product_can_be_read newProductRequest sampleShop)
    as (doc & Hdoc & _ & _ & Hproducts & _ & Hread).
  { vm_compute. reflexivity. }
  exists doc.
  split; [rewrite Hdoc; reflexivity |]. split; [rewrite Hdoc; reflexivity |].
  split; [exact Hproducts |].
  assert (Hid : p_id doc = "p3") by (rewrite Hdoc; reflexivity).
  rewrite Hid in Hread.
  destruct (Hread eq_refl eq_refl) as (w1 & Hrun & _).
  exists w1. exact Hrun.
Defined.

Lemma filename_drops_first_occurrence_at_sample :
  (forall p q, "x" +:+ ".jpg" +:+ "y.jpg" = p +:+ ".jpg" +:+ q ->
               (String.length "x" <= String.length p)%nat)
  /\ filename "1718452800000" ".jpg" "x.jpgy.jpg" = "1718452800000-xy.jpg.jpg".
Proof.
  assert (Hfirst : forall p q, "x" +:+ ".jpg" +:+ "y.jpg" = p +:+ ".jpg" +:+ q ->
                               (String.length "x" <= String.length p)%nat).
  { intros [| c p] q E; simpl in *; [discriminate E | lia]. }
  split; [exact Hfirst |].
  exact (filename_drops_first_occurrence "1718452800000" "x" ".jpg" "y.jpg" Hfirst).
Defined.
